(** * Xbox gamepad joystick driver (SDL_xboxjoystick.c): model and properties

    A shallow embedding of the report validator, the report decoder, the
    rumble encoder, the device-index registry and the per-tick update of
    [src/joystick/xbox/SDL_xboxjoystick.c].

    C integers are [Z] with the conversions of the C types written out
    ([Uint8], [Uint16], [Uint32], [Sint16]); arrays are lists read with
    [rd] and written with stdpp's [<[i:=x]>]; pointers are indices into
    the stores of a [world]; calls into the USB stack, the allocator and
    the joystick core are recorded in the world's [trace]. *)

From Stdlib Require Import ZArith Lia Bool List.
From stdpp Require Import base list.

Local Open Scope Z_scope.

(** ** C integer types *)

Definition Uint8 (z : Z) : Z := z mod 2 ^ 8.
Definition Uint16 (z : Z) : Z := z mod 2 ^ 16.
Definition Uint32 (z : Z) : Z := z mod 2 ^ 32.
Definition Sint16 (z : Z) : Z := (z + 2 ^ 15) mod 2 ^ 16 - 2 ^ 15.

(** A C condition: an integer used as a truth value. *)
Definition nonzero (z : Z) : bool := negb (z =? 0).

(** [a[i]] on an array of integers.  The arrays of the driver have fixed
    sizes and every index in the source is a constant inside them; the
    default only makes the accessor total. *)
Definition rd (a : list Z) (i : nat) : Z := default 0 (a !! i).

(** [*((Uint16 * )&rdata[i])] and [*((Sint16 * )&rdata[i])] on the
    little-endian target. *)
Definition load_Uint16 (rdata : list Z) (i : nat) : Z :=
  Z.lor (rd rdata i) (Z.shiftl (rd rdata (S i)) 8).
Definition load_Sint16 (rdata : list Z) (i : nat) : Z :=
  Sint16 (load_Uint16 rdata i).

(** [SDL_memcpy(dst, src, n)]: the first [n] bytes of [dst] are replaced by
    the first [n] bytes of [src].  A copy longer than [dst] makes the
    result longer than [dst]: a write past the end stays visible. *)
Definition SDL_memcpy (dst src : list Z) (n : nat) : list Z :=
  take n src ++ drop n dst.

(** ** Constants of the source *)

Definition BUTTON_DEADZONE : Z := 0x20.
Definition XINPUT_GAMEPAD_DPAD_UP : Z := 0x0001.
Definition XINPUT_GAMEPAD_DPAD_DOWN : Z := 0x0002.
Definition XINPUT_GAMEPAD_DPAD_LEFT : Z := 0x0004.
Definition XINPUT_GAMEPAD_DPAD_RIGHT : Z := 0x0008.
Definition XINPUT_GAMEPAD_START : Z := 0x0010.
Definition XINPUT_GAMEPAD_BACK : Z := 0x0020.
Definition XINPUT_GAMEPAD_LEFT_THUMB : Z := 0x0040.
Definition XINPUT_GAMEPAD_RIGHT_THUMB : Z := 0x0080.
Definition XINPUT_GAMEPAD_LEFT_SHOULDER : Z := 0x0100.
Definition XINPUT_GAMEPAD_RIGHT_SHOULDER : Z := 0x0200.
Definition XINPUT_GAMEPAD_A : Z := 0x1000.
Definition XINPUT_GAMEPAD_B : Z := 0x2000.
Definition XINPUT_GAMEPAD_X : Z := 0x4000.
Definition XINPUT_GAMEPAD_Y : Z := 0x8000.
Definition MAX_PACKET_SIZE : nat := 32.

(** Hat positions of SDL_joystick.h. *)
Definition SDL_HAT_CENTERED : Z := 0x00.
Definition SDL_HAT_UP : Z := 0x01.
Definition SDL_HAT_RIGHT : Z := 0x02.
Definition SDL_HAT_DOWN : Z := 0x04.
Definition SDL_HAT_LEFT : Z := 0x08.
Definition SDL_PRESSED : Z := 1.
Definition SDL_RELEASED : Z := 0.

(** ** Data *)

(** The [type] tag of a HID device.  The four gamepad tags are the ones
    the source switches on; every other value of the tag is [HID_OTHER]. *)
Inductive hid_type : Type :=
| XBOXOG_CONTROLLER
| XBOX360_WIRED
| XBOX360_WIRELESS
| XBOXONE
| HID_OTHER (tag : Z).

(** The fields of [HID_DEV_T] the driver touches.  [user_data] points to
    the joystick that opened the device; [read_func] tells whether an
    interrupt read is installed.  [next] is the order of the device list. *)
Record HID_DEV_T : Type := mkHID {
  uid : Z;
  type : hid_type;
  idVendor : Z;
  idProduct : Z;
  user_data : option nat;
  read_func : bool
}.

Record XINPUT_GAMEPAD : Type := mkXINPUT {
  wButtons : Z;
  bLeftTrigger : Z;
  bRightTrigger : Z;
  sThumbLX : Z;
  sThumbLY : Z;
  sThumbRX : Z;
  sThumbRY : Z
}.

Definition set_wButtons (v : Z) (c : XINPUT_GAMEPAD) : XINPUT_GAMEPAD :=
  mkXINPUT v (bLeftTrigger c) (bRightTrigger c)
           (sThumbLX c) (sThumbLY c) (sThumbRX c) (sThumbRY c).

(** [if (cond) controller->wButtons |= flag;] *)
Definition or_flag (cond : bool) (flag : Z) (c : XINPUT_GAMEPAD) : XINPUT_GAMEPAD :=
  if cond then set_wButtons (Uint16 (Z.lor (wButtons c) flag)) c else c.

(** The assignments of the triggers and the four sticks that end every
    case of the decoder. *)
Definition set_analog (lt rt lx ly rx ry : Z) (c : XINPUT_GAMEPAD) : XINPUT_GAMEPAD :=
  mkXINPUT (wButtons c) lt rt lx ly rx ry.

(** ** Report decoder *)

Definition xboxjoy_parse_input_data
    (hdev : option HID_DEV_T) (controller : XINPUT_GAMEPAD) (rdata : list Z)
  : Z * XINPUT_GAMEPAD :=
  let c := set_wButtons 0 controller in
  match hdev with
  | None => (0, c)
  | Some d =>
    match type d with
    | XBOXOG_CONTROLLER =>
      let w := load_Uint16 rdata 2 in
      let c := or_flag (nonzero (Z.land w (Z.shiftl 1 0))) XINPUT_GAMEPAD_DPAD_UP c in
      let c := or_flag (nonzero (Z.land w (Z.shiftl 1 1))) XINPUT_GAMEPAD_DPAD_DOWN c in
      let c := or_flag (nonzero (Z.land w (Z.shiftl 1 2))) XINPUT_GAMEPAD_DPAD_LEFT c in
      let c := or_flag (nonzero (Z.land w (Z.shiftl 1 3))) XINPUT_GAMEPAD_DPAD_RIGHT c in
      let c := or_flag (nonzero (Z.land w (Z.shiftl 1 4))) XINPUT_GAMEPAD_START c in
      let c := or_flag (nonzero (Z.land w (Z.shiftl 1 5))) XINPUT_GAMEPAD_BACK c in
      let c := or_flag (nonzero (Z.land w (Z.shiftl 1 6))) XINPUT_GAMEPAD_LEFT_THUMB c in
      let c := or_flag (nonzero (Z.land w (Z.shiftl 1 7))) XINPUT_GAMEPAD_RIGHT_THUMB c in
      let c := or_flag (BUTTON_DEADZONE <? rd rdata 4) XINPUT_GAMEPAD_A c in
      let c := or_flag (BUTTON_DEADZONE <? rd rdata 5) XINPUT_GAMEPAD_B c in
      let c := or_flag (BUTTON_DEADZONE <? rd rdata 6) XINPUT_GAMEPAD_X c in
      let c := or_flag (BUTTON_DEADZONE <? rd rdata 7) XINPUT_GAMEPAD_Y c in
      let c := or_flag (BUTTON_DEADZONE <? rd rdata 8) XINPUT_GAMEPAD_RIGHT_SHOULDER c in
      let c := or_flag (BUTTON_DEADZONE <? rd rdata 9) XINPUT_GAMEPAD_LEFT_SHOULDER c in
      (1, set_analog (rd rdata 10) (rd rdata 11)
            (load_Sint16 rdata 12) (load_Sint16 rdata 14)
            (load_Sint16 rdata 16) (load_Sint16 rdata 18) c)
    | XBOX360_WIRED =>
      let w := load_Uint16 rdata 2 in
      let c := or_flag (nonzero (Z.land w (Z.shiftl 1 0))) XINPUT_GAMEPAD_DPAD_UP c in
      let c := or_flag (nonzero (Z.land w (Z.shiftl 1 1))) XINPUT_GAMEPAD_DPAD_DOWN c in
      let c := or_flag (nonzero (Z.land w (Z.shiftl 1 2))) XINPUT_GAMEPAD_DPAD_LEFT c in
      let c := or_flag (nonzero (Z.land w (Z.shiftl 1 3))) XINPUT_GAMEPAD_DPAD_RIGHT c in
      let c := or_flag (nonzero (Z.land w (Z.shiftl 1 4))) XINPUT_GAMEPAD_START c in
      let c := or_flag (nonzero (Z.land w (Z.shiftl 1 5))) XINPUT_GAMEPAD_BACK c in
      let c := or_flag (nonzero (Z.land w (Z.shiftl 1 6))) XINPUT_GAMEPAD_LEFT_THUMB c in
      let c := or_flag (nonzero (Z.land w (Z.shiftl 1 7))) XINPUT_GAMEPAD_RIGHT_THUMB c in
      let c := or_flag (nonzero (Z.land w (Z.shiftl 1 8))) XINPUT_GAMEPAD_LEFT_SHOULDER c in
      let c := or_flag (nonzero (Z.land w (Z.shiftl 1 9))) XINPUT_GAMEPAD_RIGHT_SHOULDER c in
      let c := or_flag (nonzero (Z.land w (Z.shiftl 1 12))) XINPUT_GAMEPAD_A c in
      let c := or_flag (nonzero (Z.land w (Z.shiftl 1 13))) XINPUT_GAMEPAD_B c in
      let c := or_flag (nonzero (Z.land w (Z.shiftl 1 14))) XINPUT_GAMEPAD_X c in
      let c := or_flag (nonzero (Z.land w (Z.shiftl 1 15))) XINPUT_GAMEPAD_Y c in
      (1, set_analog (rd rdata 4) (rd rdata 5)
            (load_Sint16 rdata 6) (load_Sint16 rdata 8)
            (load_Sint16 rdata 10) (load_Sint16 rdata 12) c)
    | XBOX360_WIRELESS =>
      let w := load_Uint16 rdata 6 in
      let c := or_flag (nonzero (Z.land w (Z.shiftl 1 0))) XINPUT_GAMEPAD_DPAD_UP c in
      let c := or_flag (nonzero (Z.land w (Z.shiftl 1 1))) XINPUT_GAMEPAD_DPAD_DOWN c in
      let c := or_flag (nonzero (Z.land w (Z.shiftl 1 2))) XINPUT_GAMEPAD_DPAD_LEFT c in
      let c := or_flag (nonzero (Z.land w (Z.shiftl 1 3))) XINPUT_GAMEPAD_DPAD_RIGHT c in
      let c := or_flag (nonzero (Z.land w (Z.shiftl 1 4))) XINPUT_GAMEPAD_START c in
      let c := or_flag (nonzero (Z.land w (Z.shiftl 1 5))) XINPUT_GAMEPAD_BACK c in
      let c := or_flag (nonzero (Z.land w (Z.shiftl 1 6))) XINPUT_GAMEPAD_LEFT_THUMB c in
      let c := or_flag (nonzero (Z.land w (Z.shiftl 1 7))) XINPUT_GAMEPAD_RIGHT_THUMB c in
      let c := or_flag (nonzero (Z.land w (Z.shiftl 1 8))) XINPUT_GAMEPAD_LEFT_SHOULDER c in
      let c := or_flag (nonzero (Z.land w (Z.shiftl 1 9))) XINPUT_GAMEPAD_RIGHT_SHOULDER c in
      let c := or_flag (nonzero (Z.land w (Z.shiftl 1 12))) XINPUT_GAMEPAD_A c in
      let c := or_flag (nonzero (Z.land w (Z.shiftl 1 13))) XINPUT_GAMEPAD_B c in
      let c := or_flag (nonzero (Z.land w (Z.shiftl 1 14))) XINPUT_GAMEPAD_X c in
      let c := or_flag (nonzero (Z.land w (Z.shiftl 1 15))) XINPUT_GAMEPAD_Y c in
      (1, set_analog (rd rdata 8) (rd rdata 9)
            (load_Sint16 rdata 10) (load_Sint16 rdata 12)
            (load_Sint16 rdata 14) (load_Sint16 rdata 16) c)
    | XBOXONE =>
      let w := load_Uint16 rdata 4 in
      let c := or_flag (nonzero (Z.land w (Z.shiftl 1 8))) XINPUT_GAMEPAD_DPAD_UP c in
      let c := or_flag (nonzero (Z.land w (Z.shiftl 1 9))) XINPUT_GAMEPAD_DPAD_DOWN c in
      let c := or_flag (nonzero (Z.land w (Z.shiftl 1 10))) XINPUT_GAMEPAD_DPAD_LEFT c in
      let c := or_flag (nonzero (Z.land w (Z.shiftl 1 11))) XINPUT_GAMEPAD_DPAD_RIGHT c in
      let c := or_flag (nonzero (Z.land w (Z.shiftl 1 2))) XINPUT_GAMEPAD_START c in
      let c := or_flag (nonzero (Z.land w (Z.shiftl 1 3))) XINPUT_GAMEPAD_BACK c in
      let c := or_flag (nonzero (Z.land w (Z.shiftl 1 14))) XINPUT_GAMEPAD_LEFT_THUMB c in
      let c := or_flag (nonzero (Z.land w (Z.shiftl 1 15))) XINPUT_GAMEPAD_RIGHT_THUMB c in
      let c := or_flag (nonzero (Z.land w (Z.shiftl 1 12))) XINPUT_GAMEPAD_LEFT_SHOULDER c in
      let c := or_flag (nonzero (Z.land w (Z.shiftl 1 13))) XINPUT_GAMEPAD_RIGHT_SHOULDER c in
      let c := or_flag (nonzero (Z.land w (Z.shiftl 1 4))) XINPUT_GAMEPAD_A c in
      let c := or_flag (nonzero (Z.land w (Z.shiftl 1 5))) XINPUT_GAMEPAD_B c in
      let c := or_flag (nonzero (Z.land w (Z.shiftl 1 6))) XINPUT_GAMEPAD_X c in
      let c := or_flag (nonzero (Z.land w (Z.shiftl 1 7))) XINPUT_GAMEPAD_Y c in
      (1, set_analog (rd rdata 6) (rd rdata 8)
            (load_Sint16 rdata 10) (load_Sint16 rdata 12)
            (load_Sint16 rdata 14) (load_Sint16 rdata 16) c)
    | HID_OTHER _ => (0, c)
    end
  end.

(** ** Joysticks, devices and the world *)

(** [struct joystick_hwdata]: the slot of an opened device. *)
Record joystick_hwdata : Type := mkHwdata {
  hdev : option nat;
  raw_data : list Z;
  current_rumble : list Z;
  rumble_expiry : Z
}.

Definition set_raw_data (v : list Z) (h : joystick_hwdata) : joystick_hwdata :=
  mkHwdata (hdev h) v (current_rumble h) (rumble_expiry h).
Definition set_current_rumble (v : list Z) (h : joystick_hwdata) : joystick_hwdata :=
  mkHwdata (hdev h) (raw_data h) v (rumble_expiry h).
Definition set_rumble_expiry (v : Z) (h : joystick_hwdata) : joystick_hwdata :=
  mkHwdata (hdev h) (raw_data h) (current_rumble h) v.

(** The fields of [SDL_Joystick] the driver reads or writes.  [axes] holds
    the [value] of every axis. *)
Record SDL_Joystick : Type := mkJoystick {
  player_index : Z;
  guid : list Z;
  naxes : Z;
  nballs : Z;
  nhats : Z;
  nbuttons : Z;
  axes : list Z;
  hats : list Z;
  buttons : list Z;
  hwdata : option joystick_hwdata
}.

Definition set_player_index (v : Z) (j : SDL_Joystick) : SDL_Joystick :=
  mkJoystick v (guid j) (naxes j) (nballs j) (nhats j) (nbuttons j)
             (axes j) (hats j) (buttons j) (hwdata j).
Definition set_guid (v : list Z) (j : SDL_Joystick) : SDL_Joystick :=
  mkJoystick (player_index j) v (naxes j) (nballs j) (nhats j) (nbuttons j)
             (axes j) (hats j) (buttons j) (hwdata j).
Definition set_counts (na nb nh nbt : Z) (j : SDL_Joystick) : SDL_Joystick :=
  mkJoystick (player_index j) (guid j) na nb nh nbt
             (axes j) (hats j) (buttons j) (hwdata j).
Definition set_axes (v : list Z) (j : SDL_Joystick) : SDL_Joystick :=
  mkJoystick (player_index j) (guid j) (naxes j) (nballs j) (nhats j) (nbuttons j)
             v (hats j) (buttons j) (hwdata j).
Definition set_hats (v : list Z) (j : SDL_Joystick) : SDL_Joystick :=
  mkJoystick (player_index j) (guid j) (naxes j) (nballs j) (nhats j) (nbuttons j)
             (axes j) v (buttons j) (hwdata j).
Definition set_buttons (v : list Z) (j : SDL_Joystick) : SDL_Joystick :=
  mkJoystick (player_index j) (guid j) (naxes j) (nballs j) (nhats j) (nbuttons j)
             (axes j) (hats j) v (hwdata j).
Definition set_hwdata (v : option joystick_hwdata) (j : SDL_Joystick) : SDL_Joystick :=
  mkJoystick (player_index j) (guid j) (naxes j) (nballs j) (nhats j) (nbuttons j)
             (axes j) (hats j) (buttons j) v.

Definition set_user_data (v : option nat) (d : HID_DEV_T) : HID_DEV_T :=
  mkHID (uid d) (type d) (idVendor d) (idProduct d) v (read_func d).
Definition set_read_func (v : bool) (d : HID_DEV_T) : HID_DEV_T :=
  mkHID (uid d) (type d) (idVendor d) (idProduct d) (user_data d) v.

(** A call that leaves the driver: into the joystick core, the USB stack
    or the allocator. *)
Inductive effect : Type :=
| PrivateJoystickHat (joystick hat : nat) (value : Z)
| PrivateJoystickButton (joystick button : nat) (state : Z)
| PrivateJoystickAxis (joystick axis : nat) (value : Z)
| hid_int_write (dev : nat) (ep : Z) (buf : list Z)
| hid_start_int_read (dev : nat) (ep : Z)
| malloc_hwdata (joystick : nat)
| free_hwdata (joystick : nat).

(** The memory the driver works on.  [devs] is the device list of the USB
    stack in list order, a device pointer is a position in it; a joystick
    pointer is a position in [joys]. *)
Record world : Type := mkWorld {
  devs : list HID_DEV_T;
  joys : list SDL_Joystick;
  trace : list effect
}.

Definition emit (e : effect) (w : world) : world :=
  mkWorld (devs w) (joys w) (trace w ++ [e]).
Definition upd_joy (jp : nat) (f : SDL_Joystick -> SDL_Joystick) (w : world) : world :=
  mkWorld (devs w) (alter f jp (joys w)) (trace w).
Definition upd_dev (dp : nat) (f : HID_DEV_T -> HID_DEV_T) (w : world) : world :=
  mkWorld (alter f dp (devs w)) (joys w) (trace w).
Definition upd_hwdata (f : joystick_hwdata -> joystick_hwdata) (j : SDL_Joystick)
  : SDL_Joystick :=
  set_hwdata (f <$> hwdata j) j.

(** [hdev->type] through a device pointer.  A pointer outside the device
    list does not occur in a world built by the driver; the accessor
    answers a tag of no gamepad there. *)
Definition dev_type (w : world) (dp : nat) : hid_type :=
  default (HID_OTHER 0) (type <$> devs w !! dp).

(** [hdev->type == XBOXOG_CONTROLLER || hdev->type == XBOXONE ||
     hdev->type == XBOX360_WIRED || hdev->type == XBOX360_WIRELESS] *)
Definition is_gamepad (t : hid_type) : bool :=
  match t with
  | XBOXOG_CONTROLLER | XBOXONE | XBOX360_WIRED | XBOX360_WIRELESS => true
  | HID_OTHER _ => false
  end.

(** The outcome of a function that can run into a failing [assert]. *)
Inductive outcome (A : Type) : Type :=
| Ret (a : A)
| AssertFail.
Arguments Ret {A} a.
Arguments AssertFail {A}.

#[global] Instance outcome_ret : MRet outcome := @Ret.
#[global] Instance outcome_bind : MBind outcome := fun A B f m =>
  match m with
  | Ret a => f a
  | AssertFail => AssertFail
  end.

(** ** Rumble packets *)

Definition xbox360_wireless : list Z := [0x00; 0x01; 0x0F; 0xC0; 0x00; 0x00; 0x00; 0x00].
Definition xbox360_wired : list Z := [0x00; 0x08; 0x00; 0x00; 0x00; 0x00; 0x00; 0x00].
Definition xbox_og : list Z := [0x00; 0x06; 0x00; 0x00; 0x00; 0x00].
Definition xbox_one : list Z :=
  [0x09; 0x00; 0x00; 0x09; 0x00; 0x0f; 0x00; 0x00; 0x00; 0x00; 0xFF; 0x00; 0xEB].

Section Driver.

(** Modelled from the spec: the transport's answer to an interrupt-pipe
    write of a packet to a device (section 6; a refusal is the
    TransportWriteFailure of section 7).  [true] stands for HID_RET_OK. *)
Variable int_write_ok : nat -> list Z -> bool.

(** Whether the translation unit is compiled with NDEBUG, which turns
    [assert] into nothing. *)
Variable NDEBUG : bool.

(** [usbh_hid_int_write(hdev, ep, buf, len, callback)]: the first [len]
    bytes of [buf] go to the device. *)
Definition usbh_hid_int_write (dp : nat) (ep : Z) (buf : list Z) (len : nat) (w : world)
  : bool * world :=
  (int_write_ok dp (take len buf), emit (hid_int_write dp ep (take len buf)) w).

(** [usbh_hid_start_int_read(hdev, ep, callback)] *)
Definition usbh_hid_start_int_read (dp : nat) (ep : Z) (w : world) : world :=
  emit (hid_start_int_read dp ep) (upd_dev dp (set_read_func true) w).

Definition xboxjoy_rumble (dp : nat) (low_frequency_rumble high_frequency_rumble : Z)
    (w : world) : Z * world :=
  let writeBuf := replicate MAX_PACKET_SIZE 0 in
  let packet :=
    match dev_type w dp with
    | XBOX360_WIRELESS =>
      let writeBuf := SDL_memcpy writeBuf xbox360_wireless (length xbox360_wireless) in
      let writeBuf := <[5%nat := Uint8 (Z.shiftr low_frequency_rumble 8)]> writeBuf in
      let writeBuf := <[6%nat := Uint8 (Z.shiftr high_frequency_rumble 8)]> writeBuf in
      Some (writeBuf, length xbox360_wireless)
    | XBOX360_WIRED =>
      let writeBuf := SDL_memcpy writeBuf xbox360_wired (length xbox360_wired) in
      let writeBuf := <[3%nat := Uint8 (Z.shiftr low_frequency_rumble 8)]> writeBuf in
      let writeBuf := <[4%nat := Uint8 (Z.shiftr high_frequency_rumble 8)]> writeBuf in
      Some (writeBuf, length xbox360_wired)
    | XBOXOG_CONTROLLER =>
      let writeBuf := SDL_memcpy writeBuf xbox_og (length xbox_og) in
      let writeBuf := <[2%nat := Uint8 (Z.land low_frequency_rumble 0xFF)]> writeBuf in
      let writeBuf := <[3%nat := Uint8 (Z.shiftr low_frequency_rumble 8)]> writeBuf in
      let writeBuf := <[4%nat := Uint8 (Z.land high_frequency_rumble 0xFF)]> writeBuf in
      let writeBuf := <[5%nat := Uint8 (Z.shiftr high_frequency_rumble 8)]> writeBuf in
      Some (writeBuf, length xbox_og)
    | XBOXONE =>
      let writeBuf := SDL_memcpy writeBuf xbox_one (length xbox_one) in
      let writeBuf := <[8%nat := Uint8 (Z.quot low_frequency_rumble 655)]> writeBuf in
      let writeBuf := <[9%nat := Uint8 (Z.quot high_frequency_rumble 655)]> writeBuf in
      Some (writeBuf, length xbox_one)
    | HID_OTHER _ => None
    end in
  match packet with
  | None => (-1, w)
  | Some (writeBuf, len) =>
    let '(ok, w) := usbh_hid_int_write dp 0 writeBuf len w in
    if ok then (0, w) else (-1, w)
  end.

(** ** Read completion *)

Definition xboxjoy_int_read_callback
    (hdev : option nat) (ep_addr status : Z) (rdata : list Z) (data_len : Z)
    (w : world) : world :=
  if status <? 0 then w else
  match hdev with
  | None => w
  | Some dp =>
    match devs w !! dp with
    | None => w
    | Some d =>
      match user_data d with
      | None => w
      | Some jp =>
        let copy :=
          let data_len :=
            if Z.of_nat MAX_PACKET_SIZE <? data_len
            then Z.of_nat MAX_PACKET_SIZE else data_len in
          upd_joy jp (upd_hwdata (fun hw =>
            set_raw_data (SDL_memcpy (raw_data hw) rdata (Z.to_nat data_len)) hw)) w in
        match type d with
        | XBOXOG_CONTROLLER | XBOX360_WIRED =>
          if rd rdata 1 <? 0x14 then w else copy
        | XBOX360_WIRELESS =>
          if (Z.land (rd rdata 1) 0x01 =? 0) || negb (rd rdata 5 =? 0x13)
          then w else copy
        | XBOXONE =>
          if negb (rd rdata 0 =? 0x20) then w else copy
        | HID_OTHER _ => w
        end
      end
    end
  end.

(** ** Device index registry *)

(** The loop of [hdev_from_device_index] over the device list from the
    device at pointer [p] on, with the counter at [i].  [inl p] is the
    [return hdev] inside the loop; [inr h] is the value of [hdev] when the
    loop condition fails. *)
Fixpoint hdev_scan (l : list HID_DEV_T) (p : nat) (i device_index : Z)
  : nat + option nat :=
  match l with
  | [] => inr None
  | d :: l' =>
    if i <=? device_index then
      if is_gamepad (type d) then
        if i =? device_index then inl p
        else hdev_scan l' (S p) (i + 1) device_index
      else hdev_scan l' (S p) i device_index
    else inr (Some p)
  end.

Definition hdev_from_device_index (device_index : Z) (w : world)
  : outcome (option nat) :=
  match hdev_scan (devs w) 0 0 device_index with
  | inl p => Ret (Some p)
  | inr h => if NDEBUG then Ret h else AssertFail
  end.

Fixpoint pad_count (l : list HID_DEV_T) (pad_cnt : Z) : Z :=
  match l with
  | [] => pad_cnt
  | d :: l' => pad_count l' (if is_gamepad (type d) then pad_cnt + 1 else pad_cnt)
  end.

Definition SDL_XBOX_JoystickGetCount (w : world) : Z :=
  pad_count (devs w) 0.

Definition SDL_XBOX_JoystickGetDevicePlayerIndex (device_index : Z) (w : world)
  : outcome Z :=
  hdev ← hdev_from_device_index device_index w;
  match hdev with
  | None => Ret (-1)
  | Some _ => Ret device_index
  end.

Definition SDL_XBOX_JoystickGetDeviceGUID (device_index : Z) (w : world)
  : outcome (list Z) :=
  hdev ← hdev_from_device_index device_index w;
  let ret := replicate 16 0 in
  match hdev ≫= (devs w !!.) with
  | None => Ret ret
  | Some d =>
    let ret := <[0%nat := 0x03]> ret in
    let ret := <[4%nat := Uint8 (Z.land (idVendor d) 0xFF)]> ret in
    let ret := <[5%nat := Uint8 (Z.land (Z.shiftr (idVendor d) 8) 0xFF)]> ret in
    let ret := <[8%nat := Uint8 (Z.land (idProduct d) 0xFF)]> ret in
    let ret := <[9%nat := Uint8 (Z.land (Z.shiftr (idProduct d) 8) 0xFF)]> ret in
    Ret ret
  end.

(** [SDL_zerop] of a fresh [joystick_hwdata]. *)
Definition hwdata_zero : joystick_hwdata :=
  mkHwdata None (replicate MAX_PACKET_SIZE 0) [0; 0] 0.

(** Allocation is taken to succeed, as the source asserts it does. *)
Definition SDL_XBOX_JoystickOpen (joystick : nat) (device_index : Z) (w : world)
  : outcome (Z * world) :=
  hdev ← hdev_from_device_index device_index w;
  match hdev with
  | None => Ret (-1, w)
  | Some dp =>
    let w := emit (malloc_hwdata joystick) w in
    let w := upd_joy joystick
               (set_hwdata (Some (mkHwdata (Some dp) (raw_data hwdata_zero)
                  (current_rumble hwdata_zero) (rumble_expiry hwdata_zero)))) w in
    let w := upd_dev dp (set_user_data (Some joystick)) w in
    player ← SDL_XBOX_JoystickGetDevicePlayerIndex device_index w;
    let w := upd_joy joystick (set_player_index player) w in
    g ← SDL_XBOX_JoystickGetDeviceGUID device_index w;
    let w := upd_joy joystick (set_guid g) w in
    match dev_type w dp with
    | XBOXOG_CONTROLLER | XBOXONE | XBOX360_WIRELESS | XBOX360_WIRED =>
      let w := upd_joy joystick (set_counts 6 0 1 10) w in
      let w := usbh_hid_start_int_read dp 0 w in
      Ret (0, w)
    | HID_OTHER _ =>
      let w := emit (free_hwdata joystick) w in
      Ret (-1, w)
    end
  end.

(** ** Rumble request *)

(** [now] is the value of [SDL_GetTicks()] at the call.  The source
    dereferences [joystick->hwdata] and hands [hdev] to the encoder
    unchecked; where one of them is null the model answers failure and
    leaves the world alone. *)
Definition SDL_XBOX_JoystickRumble
    (now : Z) (joystick : nat)
    (low_frequency_rumble high_frequency_rumble duration_ms : Z) (w : world)
  : Z * world :=
  match joys w !! joystick ≫= hwdata with
  | None => (-1, w)
  | Some hw =>
    if (rd (current_rumble hw) 0 =? low_frequency_rumble) &&
       (rd (current_rumble hw) 1 =? high_frequency_rumble)
    then
      (0, upd_joy joystick (upd_hwdata (set_rumble_expiry (Uint32 (now + duration_ms)))) w)
    else
      match hdev hw with
      | None => (-1, w)
      | Some dp =>
        let '(ret, w) := xboxjoy_rumble dp low_frequency_rumble high_frequency_rumble w in
        if ret =? -1 then (-1, w) else
        let w := upd_joy joystick (upd_hwdata (fun hw =>
                   set_current_rumble
                     (<[1%nat := high_frequency_rumble]>
                        (<[0%nat := low_frequency_rumble]> (current_rumble hw))) hw)) w in
        let w := upd_joy joystick
                   (upd_hwdata (set_rumble_expiry (Uint32 (now + duration_ms)))) w in
        (0, w)
      end
  end.

(** ** Per-tick update *)

(** The joystick under update together with the calls made so far. *)
Definition jstate : Type := SDL_Joystick * list effect.

(** Modelled from the spec: the joystick core's [SDL_PrivateJoystickHat],
    [SDL_PrivateJoystickButton] and [SDL_PrivateJoystickAxis] are not part
    of the driver.  Section 4.3 has the differ emit one event to the host
    framework per changed input and has the stored previous state become
    the current one; so each call is recorded as an event and stores its
    value, converted to the parameter type (Uint8 for a hat or a button,
    Sint16 for an axis), in the field it reports. *)
Definition SDL_PrivateJoystickHat (jp hat : nat) (value : Z) (s : jstate) : jstate :=
  (set_hats (<[hat := Uint8 value]> (hats s.1)) s.1,
   s.2 ++ [PrivateJoystickHat jp hat (Uint8 value)]).
Definition SDL_PrivateJoystickButton (jp button : nat) (state : Z) (s : jstate) : jstate :=
  (set_buttons (<[button := Uint8 state]> (buttons s.1)) s.1,
   s.2 ++ [PrivateJoystickButton jp button (Uint8 state)]).
Definition SDL_PrivateJoystickAxis (jp axis : nat) (value : Z) (s : jstate) : jstate :=
  (set_axes (<[axis := Sint16 value]> (axes s.1)) s.1,
   s.2 ++ [PrivateJoystickAxis jp axis (Sint16 value)]).

Definition btn_map : list (nat * Z) :=
  [ (0%nat, XINPUT_GAMEPAD_A);
    (1%nat, XINPUT_GAMEPAD_B);
    (2%nat, XINPUT_GAMEPAD_X);
    (3%nat, XINPUT_GAMEPAD_Y);
    (4%nat, XINPUT_GAMEPAD_LEFT_SHOULDER);
    (5%nat, XINPUT_GAMEPAD_RIGHT_SHOULDER);
    (6%nat, XINPUT_GAMEPAD_BACK);
    (7%nat, XINPUT_GAMEPAD_START);
    (8%nat, XINPUT_GAMEPAD_LEFT_THUMB);
    (9%nat, XINPUT_GAMEPAD_RIGHT_THUMB) ].

(** The body of the loop over [btn_map]. *)
Definition update_button (jp : nat) (wButtons : Z) (s : jstate) (b : nat * Z) : jstate :=
  if negb (rd (buttons s.1) b.1 =? (if 0 <? Z.land wButtons b.2 then 1 else 0))
  then SDL_PrivateJoystickButton jp b.1
         (if nonzero (Z.land wButtons b.2) then SDL_PRESSED else SDL_RELEASED) s
  else s.

(** The block of [SDL_XBOX_JoystickUpdate] that runs when the decoder
    answers 1: hat, buttons, triggers, sticks. *)
Definition update_inputs (jp : nat) (xpad : XINPUT_GAMEPAD) (s : jstate) : jstate :=
  let wButtons := Sint16 (wButtons xpad) in
  let hat := SDL_HAT_CENTERED in
  let hat := if nonzero (Z.land wButtons XINPUT_GAMEPAD_DPAD_UP)
             then Z.lor hat SDL_HAT_UP else hat in
  let hat := if nonzero (Z.land wButtons XINPUT_GAMEPAD_DPAD_DOWN)
             then Z.lor hat SDL_HAT_DOWN else hat in
  let hat := if nonzero (Z.land wButtons XINPUT_GAMEPAD_DPAD_LEFT)
             then Z.lor hat SDL_HAT_LEFT else hat in
  let hat := if nonzero (Z.land wButtons XINPUT_GAMEPAD_DPAD_RIGHT)
             then Z.lor hat SDL_HAT_RIGHT else hat in
  let s := if negb (hat =? rd (hats s.1) 0)
           then SDL_PrivateJoystickHat jp 0 hat s else s in
  let s := fold_left (update_button jp wButtons) btn_map s in
  let s := if negb (bLeftTrigger xpad =? rd (axes s.1) 2)
           then SDL_PrivateJoystickAxis jp 2
                  (Z.lor (Z.shiftl (bLeftTrigger xpad) 8) (bLeftTrigger xpad)
                   - Z.shiftl 1 15) s
           else s in
  let s := if negb (bRightTrigger xpad =? rd (axes s.1) 5)
           then SDL_PrivateJoystickAxis jp 5
                  (Z.lor (Z.shiftl (bRightTrigger xpad) 8) (bRightTrigger xpad)
                   - Z.shiftl 1 15) s
           else s in
  let axis := sThumbLX xpad in
  let s := if negb (axis =? rd (axes s.1) 0)
           then SDL_PrivateJoystickAxis jp 0 axis s else s in
  let axis := sThumbLY xpad in
  let s := if negb (axis =? rd (axes s.1) 1)
           then SDL_PrivateJoystickAxis jp 1 (Z.lnot axis) s else s in
  let axis := sThumbRX xpad in
  let s := if negb (axis =? rd (axes s.1) 3)
           then SDL_PrivateJoystickAxis jp 3 axis s else s in
  let axis := sThumbRY xpad in
  let s := if negb (axis =? rd (axes s.1) 4)
           then SDL_PrivateJoystickAxis jp 4 (Z.lnot axis) s else s in
  s.

(** The local [xpad] before the decoder fills it. *)
Definition xpad_uninit : XINPUT_GAMEPAD := mkXINPUT 0 0 0 0 0 0 0.

(** [now] is the value of [SDL_GetTicks()] at the call. *)
Definition SDL_XBOX_JoystickUpdate (now : Z) (joystick : option nat) (w : world) : world :=
  match joystick with
  | None => w
  | Some jp =>
    match joys w !! jp with
    | None => w
    | Some j =>
      match hwdata j with
      | None => w
      | Some hw =>
        match hdev hw with
        | None => w
        | Some dp =>
          let '(hw, w) :=
            if nonzero (rumble_expiry hw) && (rumble_expiry hw <? now)
            then (set_rumble_expiry 0 hw, (xboxjoy_rumble dp 0 0 w).2)
            else (hw, w) in
          let button_data :=
            SDL_memcpy (replicate MAX_PACKET_SIZE 0) (raw_data hw) MAX_PACKET_SIZE in
          let '(ret, xpad) :=
            xboxjoy_parse_input_data (devs w !! dp) xpad_uninit button_data in
          let '(j, tr) :=
            if nonzero ret
            then update_inputs jp xpad (set_hwdata (Some hw) j, trace w)
            else (set_hwdata (Some hw) j, trace w) in
          mkWorld (devs w) (<[jp := j]> (joys w)) tr
        end
      end
    end
  end.

End Driver.

(** ** The differ as the specification words it

    Section 4.3: one hat event if the derived dpad value changed, then one
    button event per button whose flag flipped in the order of [btn_map],
    then one axis event per axis whose value changed, each compared with
    the value the joystick holds when the tick starts. *)

Definition dpad_hat (wButtons : Z) : Z :=
  let hat := SDL_HAT_CENTERED in
  let hat := if nonzero (Z.land wButtons XINPUT_GAMEPAD_DPAD_UP)
             then Z.lor hat SDL_HAT_UP else hat in
  let hat := if nonzero (Z.land wButtons XINPUT_GAMEPAD_DPAD_DOWN)
             then Z.lor hat SDL_HAT_DOWN else hat in
  let hat := if nonzero (Z.land wButtons XINPUT_GAMEPAD_DPAD_LEFT)
             then Z.lor hat SDL_HAT_LEFT else hat in
  let hat := if nonzero (Z.land wButtons XINPUT_GAMEPAD_DPAD_RIGHT)
             then Z.lor hat SDL_HAT_RIGHT else hat in
  hat.

Definition hat_event (jp : nat) (stored : list Z) (wButtons : Z) : list effect :=
  if dpad_hat wButtons =? rd stored 0 then []
  else [PrivateJoystickHat jp 0 (Uint8 (dpad_hat wButtons))].

Definition button_event (jp : nat) (wButtons : Z) (stored : list Z) (b : nat * Z)
  : list effect :=
  if rd stored b.1 =? (if 0 <? Z.land wButtons b.2 then 1 else 0) then []
  else [PrivateJoystickButton jp b.1
          (Uint8 (if nonzero (Z.land wButtons b.2) then SDL_PRESSED else SDL_RELEASED))].

(** An axis event: [raw] is the decoded value the source compares with the
    stored one, [value] the value it reports. *)
Definition axis_event (jp axis : nat) (stored : list Z) (raw value : Z) : list effect :=
  if raw =? rd stored axis then [] else [PrivateJoystickAxis jp axis (Sint16 value)].

Definition trigger_axis (raw : Z) : Z :=
  Z.lor (Z.shiftl raw 8) raw - Z.shiftl 1 15.

Definition diff_events (jp : nat) (j : SDL_Joystick) (xpad : XINPUT_GAMEPAD) : list effect :=
  let wB := Sint16 (wButtons xpad) in
  hat_event jp (hats j) wB
  ++ flat_map (button_event jp wB (buttons j)) btn_map
  ++ axis_event jp 2 (axes j) (bLeftTrigger xpad) (trigger_axis (bLeftTrigger xpad))
  ++ axis_event jp 5 (axes j) (bRightTrigger xpad) (trigger_axis (bRightTrigger xpad))
  ++ axis_event jp 0 (axes j) (sThumbLX xpad) (sThumbLX xpad)
  ++ axis_event jp 1 (axes j) (sThumbLY xpad) (Z.lnot (sThumbLY xpad))
  ++ axis_event jp 3 (axes j) (sThumbRX xpad) (sThumbRX xpad)
  ++ axis_event jp 4 (axes j) (sThumbRY xpad) (Z.lnot (sThumbRY xpad)).

(** The two shapes of step the update block is made of, named for the
    proofs: the hat step and the step of one axis. *)
Definition update_hat (jp : nat) (hat : Z) (s : jstate) : jstate :=
  if negb (hat =? rd (hats s.1) 0) then SDL_PrivateJoystickHat jp 0 hat s else s.
Definition update_axis (jp axis : nat) (raw value : Z) (s : jstate) : jstate :=
  if negb (raw =? rd (axes s.1) axis) then SDL_PrivateJoystickAxis jp axis value s else s.

(** ** The rumble encoder as the specification words it

    Section 4.4: the 360 families take the high byte of each magnitude,
    the Original Xbox both bytes of each with the low-frequency magnitude
    first, the Xbox One each magnitude divided by 655; no packet for any
    other tag. *)
Definition rumble_packet (t : hid_type) (low high : Z) : option (list Z) :=
  match t with
  | XBOX360_WIRELESS =>
    Some [0x00; 0x01; 0x0F; 0xC0; 0x00; low / 256; high / 256; 0x00]
  | XBOX360_WIRED =>
    Some [0x00; 0x08; 0x00; low / 256; high / 256; 0x00; 0x00; 0x00]
  | XBOXOG_CONTROLLER =>
    Some [0x00; 0x06; low mod 256; low / 256; high mod 256; high / 256]
  | XBOXONE =>
    Some [0x09; 0x00; 0x00; 0x09; 0x00; 0x0f; 0x00; 0x00;
          low / 655; high / 655; 0xFF; 0x00; 0xEB]
  | HID_OTHER _ => None
  end.

(** The world after a rumble command to device [dp]. *)
Definition rumble_result (int_write_ok : nat -> list Z -> bool) (dp : nat)
    (low high : Z) (w : world) : Z * world :=
  match rumble_packet (dev_type w dp) low high with
  | None => (-1, w)
  | Some p => (if int_write_ok dp p then 0 else -1, emit (hid_int_write dp 0 p) w)
  end.

(** ** One tick as the specification words it *)

(** The rumble timer of a slot has run out at [now]. *)
Definition expired (now : Z) (hw : joystick_hwdata) : bool :=
  nonzero (rumble_expiry hw) && (rumble_expiry hw <? now).

(** The state the decoder reads out of the slot's report buffer. *)
Definition decoded (w : world) (dp : nat) (hw : joystick_hwdata) : Z * XINPUT_GAMEPAD :=
  xboxjoy_parse_input_data (devs w !! dp) xpad_uninit
    (SDL_memcpy (replicate MAX_PACKET_SIZE 0) (raw_data hw) MAX_PACKET_SIZE).

Definition expiry_effects (w : world) (dp : nat) : list effect :=
  match rumble_packet (dev_type w dp) 0 0 with
  | None => []
  | Some p => [hid_int_write dp 0 p]
  end.

Definition tick_spec (now : Z) (jp : nat) (w : world) : list effect :=
  match joys w !! jp with
  | None => []
  | Some j =>
    match hwdata j with
    | None => []
    | Some hw =>
      match hdev hw with
      | None => []
      | Some dp =>
        (if expired now hw then expiry_effects w dp else [])
        ++ (if nonzero (decoded w dp hw).1
            then diff_events jp j (decoded w dp hw).2 else [])
      end
    end
  end.

(** The logical input an event reports. *)
Inductive input : Type :=
| Hat (n : nat)
| Button (n : nat)
| Axis (n : nat).

Definition input_of (e : effect) : option input :=
  match e with
  | PrivateJoystickHat _ n _ => Some (Hat n)
  | PrivateJoystickButton _ n _ => Some (Button n)
  | PrivateJoystickAxis _ n _ => Some (Axis n)
  | _ => None
  end.

(** The order in which one tick visits the inputs. *)
Definition update_order : list input :=
  [Hat 0; Button 0; Button 1; Button 2; Button 3; Button 4; Button 5;
   Button 6; Button 7; Button 8; Button 9;
   Axis 2; Axis 5; Axis 0; Axis 1; Axis 3; Axis 4].

(** What one tick adds to the trace. *)
Definition tick_effects (int_write_ok : nat -> list Z -> bool) (now : Z) (jp : nat)
    (w : world) : list effect :=
  drop (length (trace w)) (trace (SDL_XBOX_JoystickUpdate int_write_ok now (Some jp) w)).

(** The values one list of effects reports for axis [k], in order. *)
Definition axis_values (k : nat) (l : list effect) : list Z :=
  omap (fun e => match e with
                 | PrivateJoystickAxis _ a v => if Nat.eqb a k then Some v else None
                 | _ => None
                 end) l.

(** The hat, button and axis events among a list of effects. *)
Definition input_events (l : list effect) : list effect :=
  List.filter (fun e => match input_of e with Some _ => true | None => false end) l.

(** ** The validator as the specification words it

    Section 4.1: the length field at byte 1 is at least 0x14 for the
    Original Xbox and the wired 360; the status bit (bit 0 of byte 1) is
    set and byte 5 is 0x13 for the wireless 360; byte 0 is 0x20 for the
    Xbox One; every other tag fails. *)
Definition validate (t : hid_type) (rdata : list Z) : bool :=
  match t with
  | XBOXOG_CONTROLLER | XBOX360_WIRED => 0x14 <=? rd rdata 1
  | XBOX360_WIRELESS => Z.testbit (rd rdata 1) 0 && (rd rdata 5 =? 0x13)
  | XBOXONE => rd rdata 0 =? 0x20
  | HID_OTHER _ => false
  end.

(** The buffer of a slot after an accepted report of [data_len] bytes. *)
Definition store_report (rdata : list Z) (data_len : Z) (hw : joystick_hwdata)
  : joystick_hwdata :=
  set_raw_data
    (SDL_memcpy (raw_data hw) rdata (Z.to_nat (Z.min data_len (Z.of_nat MAX_PACKET_SIZE))))
    hw.

(** ** Concrete devices, slots and reports *)

Definition always_ok : nat -> list Z -> bool := fun _ _ => true.

(** A connected pad of family [t], opened by joystick 0. *)
Definition pad (t : hid_type) : HID_DEV_T :=
  mkHID 7 t 0x045e 0x028e (Some 0%nat) true.

(** A joystick as the core hands it to the driver after opening: six
    axes, one hat and ten buttons, all zero. *)
Definition joy_opened (hw : joystick_hwdata) : SDL_Joystick :=
  mkJoystick 0 (replicate 16 0) 6 0 1 10
             (replicate 6 0) [0] (replicate 10 0) (Some hw).

(** A wired 360 report: dpad up and A held, left trigger fully pressed,
    left stick at (5, 7). *)
Definition report_held : list Z :=
  [0x00; 0x14; 0x01; 0x10; 0xFF; 0x00; 0x05; 0x00; 0x07; 0x00] ++ replicate 22 0.

(** A frame of the same device that is no input report: its length byte
    is below 0x14. *)
Definition report_short : list Z :=
  [0x00; 0x03; 0x02; 0x20; 0x10; 0x80; 0x40; 0x00; 0x20; 0x00] ++ replicate 22 0.

(** An Original Xbox report: white button (byte 9) pressed, black button
    (byte 8) resting, every bit of the bitmask at bytes 2 and 3 set. *)
Definition report_og : list Z :=
  [0x00; 0x14; 0xFF; 0xFF; 0x00; 0x00; 0x00; 0x00; 0x10; 0xC0] ++ replicate 22 0.

(** A wired 360 pad whose slot holds [report_held] and no rumble. *)
Definition world_held : world :=
  mkWorld [pad XBOX360_WIRED]
          [joy_opened (mkHwdata (Some 0%nat) report_held [0; 0] 0)] [].

(** A wired 360 pad rumbling at (0x4000, 0x8000) until tick 1000. *)
Definition world_rumbling : world :=
  mkWorld [pad XBOX360_WIRED]
          [joy_opened (mkHwdata (Some 0%nat) (replicate 32 0) [0x4000; 0x8000] 1000)] [].

(** No device connected, one joystick not yet opened. *)
Definition joy_closed : SDL_Joystick :=
  mkJoystick 0 (replicate 16 0) 0 0 0 0 [] [] [] None.
Definition world_empty : world := mkWorld [] [joy_closed] [].

(** One Xbox One pad connected and not opened. *)
Definition world_one_pad : world :=
  mkWorld [mkHID 7 XBOXONE 0x045e 0x02d1 None false] [joy_closed] [].

(** The pad of [world_held] while it also rumbles until tick 1000. *)
Definition world_held_rumbling : world :=
  mkWorld [pad XBOX360_WIRED]
          [joy_opened (mkHwdata (Some 0%nat) report_held [0x4000; 0x8000] 1000)] [].

(** A transfer of 40 bytes on a wired 360 pad: longer than the slot's
    buffer. *)
Definition report_long : list Z := [0x00; 0x28] ++ replicate 38 0x55.

(** [world_held] once the joystick stores what the held report exposes:
    hat up, button A, left trigger axis 32767, left stick (5, -8). *)
Definition world_held_synced : world :=
  mkWorld [pad XBOX360_WIRED]
          [mkJoystick 0 (replicate 16 0) 6 0 1 10
                      [5; -8; 32767; 0; 0; 0] [1] [1; 0; 0; 0; 0; 0; 0; 0; 0; 0]
                      (Some (mkHwdata (Some 0%nat) report_held [0; 0] 0))] [].

(** An Xbox One report: start, A, dpad up and both shoulders (bitmask
    0x3114 at byte 4), triggers 0xFF and 0x80, sticks at their extremes. *)
Definition report_one : list Z :=
  [0x20; 0x00; 0x01; 0x0e; 0x14; 0x31; 0xFF; 0x03; 0x80; 0x00;
   0x00; 0x80; 0xFF; 0x7F; 0x01; 0x00; 0xFE; 0xFF] ++ replicate 14 0.

(** Three connected devices, the first of them no gamepad. *)
Definition world_three : world :=
  mkWorld [mkHID 5 (HID_OTHER 1) 0x046d 0xc077 None false;
           mkHID 6 XBOXONE 0x045e 0x02d1 None false;
           mkHID 7 XBOX360_WIRED 0x045e 0x028e None false] [joy_closed] [].

(** ** The rest of the driver *)

Section Lifecycle.

Variable int_write_ok : nat -> list Z -> bool.
Variable NDEBUG : bool.

(** The bytes of [hdev->uid] copied into the zeroed result. *)
Definition SDL_XBOX_JoystickGetDeviceInstanceID (device_index : Z) (w : world)
  : outcome Z :=
  hdev ← hdev_from_device_index NDEBUG device_index w;
  let ret := 0 in
  match hdev ≫= (devs w !!.) with
  | None => Ret ret
  | Some d => Ret (uid d)
  end.

(** Modelled from the spec: [usbh_hid_stop_int_read(hdev, ep)] of the USB
    stack ends the interrupt reads of a device (section 6); the device no
    longer has a read installed. *)
Definition usbh_hid_stop_int_read (dp : nat) (ep : Z) (w : world) : world :=
  upd_dev dp (set_read_func false) w.

(** The source frees the slot and leaves [joystick->hwdata] pointing at
    it: the joystick keeps its [hwdata], the release is in the trace.  A
    null [hdev] is dereferenced by the source; the model leaves the world
    alone there. *)
Definition SDL_XBOX_JoystickClose (joystick : nat) (w : world) : world :=
  match joys w !! joystick ≫= hwdata with
  | None => w
  | Some hw =>
    match hdev hw with
    | None => w
    | Some dp =>
      let w := (xboxjoy_rumble int_write_ok dp 0 0 w).2 in
      let w := upd_dev dp (set_user_data None) w in
      let w := if default false (read_func <$> devs w !! dp)
               then usbh_hid_stop_int_read dp 0 w else w in
      emit (free_hwdata joystick) w
    end
  end.

End Lifecycle.

(** ** Start and end of the driver *)

(** A call into the USB stack or the timer made while the driver starts,
    polls or quits. *)
Inductive usb_call : Type :=
| usbh_core_init
| usbh_hid_init
| usbh_install_hid_conn_callback (installed : bool)
| usbh_pooling_hubs
| SDL_Delay (ms : Z).

(** The static [core_has_init] and the calls made so far. *)
Record usb_state : Type := mkUsb {
  core_has_init : bool;
  calls : list usb_call
}.

Definition usb_boot : usb_state := mkUsb false [].

(** [SDL_DISABLE_JOYSTICK_INIT_DELAY] is a build option: [delay_disabled]
    tells whether it is defined. *)
Definition SDL_XBOX_JoystickInit (delay_disabled : bool) (s : usb_state)
  : Z * usb_state :=
  let s := if negb (core_has_init s)
           then mkUsb true (calls s ++ [usbh_core_init; usbh_hid_init])
           else s in
  let s := mkUsb (core_has_init s) (calls s ++ [usbh_install_hid_conn_callback true]) in
  let s := if delay_disabled then s
           else Nat.iter 500 (fun s =>
                  mkUsb (core_has_init s) (calls s ++ [usbh_pooling_hubs; SDL_Delay 1])) s in
  (0, s).

Definition SDL_XBOX_JoystickDetect (s : usb_state) : usb_state :=
  mkUsb (core_has_init s) (calls s ++ [usbh_pooling_hubs]).

Definition SDL_XBOX_JoystickQuit (s : usb_state) : usb_state :=
  mkUsb (core_has_init s) (calls s ++ [usbh_install_hid_conn_callback false]).

(** The three entries of the driver table that touch only the USB stack,
    and a run of them from a state on. *)
Inductive stack_entry : Type :=
| EntryInit
| EntryDetect
| EntryQuit.

Definition run_entry (delay_disabled : bool) (s : usb_state) (e : stack_entry)
  : usb_state :=
  match e with
  | EntryInit => (SDL_XBOX_JoystickInit delay_disabled s).2
  | EntryDetect => SDL_XBOX_JoystickDetect s
  | EntryQuit => SDL_XBOX_JoystickQuit s
  end.

Definition run_entries (delay_disabled : bool) (l : list stack_entry) (s : usb_state)
  : usb_state :=
  fold_left (run_entry delay_disabled) l s.

(** ** Observations on effects *)

(** The packets a list of effects writes, with their devices. *)
Definition writes (l : list effect) : list (nat * list Z) :=
  omap (fun e => match e with
                 | hid_int_write dp _ buf => Some (dp, buf)
                 | _ => None
                 end) l.

(** The states one list of effects reports for button [k], and the
    positions it reports for hat [k]. *)
Definition button_values (k : nat) (l : list effect) : list Z :=
  omap (fun e => match e with
                 | PrivateJoystickButton _ b v => if Nat.eqb b k then Some v else None
                 | _ => None
                 end) l.
Definition hat_values (k : nat) (l : list effect) : list Z :=
  omap (fun e => match e with
                 | PrivateJoystickHat _ h v => if Nat.eqb h k then Some v else None
                 | _ => None
                 end) l.

(** The bit of the canonical button word that button [k] of the joystick
    shows, after [btn_map]. *)
Definition button_bit (k : nat) : Z :=
  match k with
  | 0%nat => 12 | 1%nat => 13 | 2%nat => 14 | 3%nat => 15
  | 4%nat => 8 | 5%nat => 9 | 6%nat => 5 | 7%nat => 4
  | 8%nat => 6 | _ => 7
  end.

(** The zero-magnitude packet of a family. *)
Definition stop_packet (t : hid_type) : list (list Z) :=
  match rumble_packet t 0 0 with
  | None => []
  | Some p => [p]
  end.

(** Two states of a joystick that differ at most in the values of its
    axes, hats and buttons. *)
Definition same_shape (j j' : SDL_Joystick) : Prop :=
  player_index j' = player_index j /\ guid j' = guid j /\
  naxes j' = naxes j /\ nballs j' = nballs j /\
  nhats j' = nhats j /\ nbuttons j' = nbuttons j /\
  hwdata j' = hwdata j /\
  length (axes j') = length (axes j) /\
  length (hats j') = length (hats j) /\
  length (buttons j') = length (buttons j).

(** Counting calls into the USB stack and entries of a run. *)
Definition is_core_init (c : usb_call) : bool :=
  match c with usbh_core_init => true | _ => false end.
Definition is_hid_init (c : usb_call) : bool :=
  match c with usbh_hid_init => true | _ => false end.
Definition is_poll (c : usb_call) : bool :=
  match c with usbh_pooling_hubs => true | _ => false end.
Definition count_calls (f : usb_call -> bool) (s : usb_state) : nat :=
  length (List.filter f (calls s)).
Definition is_init (e : stack_entry) : bool :=
  match e with EntryInit => true | _ => false end.
Definition is_detect (e : stack_entry) : bool :=
  match e with EntryDetect => true | _ => false end.

(** * Properties *)

(** ** The model on literal inputs *)

Example decode_360_wired :
  xboxjoy_parse_input_data (Some (pad XBOX360_WIRED)) xpad_uninit report_held
  = (1, mkXINPUT 0x1001 0xFF 0x00 5 7 0 0).
Proof. reflexivity. Qed.

Example decode_og :
  xboxjoy_parse_input_data (Some (pad XBOXOG_CONTROLLER)) xpad_uninit report_og
  = (1, mkXINPUT 0x01FF 0 0 0 0 0 0).
Proof. reflexivity. Qed.

Example decode_one :
  xboxjoy_parse_input_data (Some (pad XBOXONE)) xpad_uninit report_one
  = (1, mkXINPUT 0x1311 0xFF 0x80 (-32768) 32767 1 (-2)).
Proof. reflexivity. Qed.

Example decode_other (tag : Z) :
  (xboxjoy_parse_input_data (Some (pad (HID_OTHER tag))) xpad_uninit report_one).1 = 0.
Proof. reflexivity. Qed.

Example count_three : SDL_XBOX_JoystickGetCount world_three = 2.
Proof. reflexivity. Qed.

Example resolve_three :
  hdev_from_device_index false 0 world_three = Ret (Some 1%nat) /\
  hdev_from_device_index false 1 world_three = Ret (Some 2%nat).
Proof. split; reflexivity. Qed.

Example guid_one_pad :
  SDL_XBOX_JoystickGetDeviceGUID false 0 world_one_pad
  = Ret [0x03; 0; 0; 0; 0x5e; 0x04; 0; 0; 0xd1; 0x02; 0; 0; 0; 0; 0; 0].
Proof. reflexivity. Qed.

Example open_one_pad :
  match SDL_XBOX_JoystickOpen false 0 0 world_one_pad with
  | Ret (r, w) =>
    r = 0 /\ trace w = [malloc_hwdata 0; hid_start_int_read 0 0] /\
    (user_data <$> devs w !! 0%nat) = Some (Some 0%nat) /\
    (joys w !! 0%nat ≫= hwdata) = Some (mkHwdata (Some 0%nat) (replicate 32 0) [0; 0] 0)
  | AssertFail => False
  end.
Proof. vm_compute. repeat split. Qed.

(** ** Integer conversions *)

Lemma Uint8_id (z : Z) : 0 <= z < 256 -> Uint8 z = z.
Proof. intros H. unfold Uint8. apply Z.mod_small. lia. Qed.

Lemma Uint16_id (z : Z) : 0 <= z < 65536 -> Uint16 z = z.
Proof. intros H. unfold Uint16. apply Z.mod_small. lia. Qed.

Lemma Uint32_id (z : Z) : 0 <= z < 4294967296 -> Uint32 z = z.
Proof. intros H. unfold Uint32. apply Z.mod_small. lia. Qed.

Lemma Sint16_id (z : Z) : -32768 <= z <= 32767 -> Sint16 z = z.
Proof.
  intros H. unfold Sint16.
  rewrite Z.mod_small by lia. lia.
Qed.

Lemma Sint16_range (z : Z) : -32768 <= Sint16 z <= 32767.
Proof.
  unfold Sint16.
  pose proof (Z.mod_pos_bound (z + 2 ^ 15) (2 ^ 16)). lia.
Qed.

(** ** Decoder: bits of the canonical button word *)

Lemma or_flag_testbit (cond : bool) (flag : Z) (c : XINPUT_GAMEPAD) (n : Z) :
  0 <= n < 16 ->
  Z.testbit (wButtons (or_flag cond flag c)) n
  = Z.testbit (wButtons c) n || (cond && Z.testbit flag n).
Proof.
  intros Hn. unfold or_flag. destruct cond; simpl.
  - unfold Uint16. rewrite Z.mod_pow2_bits_low by lia.
    apply Z.lor_spec.
  - now rewrite orb_false_r.
Qed.

Lemma or_flag_analog (cond : bool) (flag : Z) (c : XINPUT_GAMEPAD) :
  bLeftTrigger (or_flag cond flag c) = bLeftTrigger c /\
  bRightTrigger (or_flag cond flag c) = bRightTrigger c.
Proof. unfold or_flag. now destruct cond. Qed.

Ltac flag_bits :=
  repeat (rewrite or_flag_testbit by lia);
  cbn [set_wButtons wButtons set_analog];
  repeat match goal with
         | |- context [Z.testbit ?k ?n] =>
           let b := eval vm_compute in (Z.testbit k n) in
           change (Z.testbit k n) with b
         end;
  rewrite ?andb_false_r, ?andb_true_r, ?orb_false_r, ?orb_false_l.

Lemma og_shoulder_bits (d : HID_DEV_T) (c0 : XINPUT_GAMEPAD) (rdata : list Z) :
  type d = XBOXOG_CONTROLLER ->
  (xboxjoy_parse_input_data (Some d) c0 rdata).1 = 1 /\
  Z.testbit (wButtons (xboxjoy_parse_input_data (Some d) c0 rdata).2) 8
    = (0x20 <? rd rdata 9) /\
  Z.testbit (wButtons (xboxjoy_parse_input_data (Some d) c0 rdata).2) 9
    = (0x20 <? rd rdata 8).
Proof.
  intros Ht. unfold xboxjoy_parse_input_data. rewrite Ht.
  cbn [fst snd]. split; [reflexivity|].
  unfold BUTTON_DEADZONE.
  split.
  - cbn [set_analog wButtons]. flag_bits. reflexivity.
  - cbn [set_analog wButtons]. flag_bits. reflexivity.
Qed.

(** ** Array reads after writes *)

Lemma rd_insert_ne (l : list Z) (i k : nat) (v : Z) :
  i <> k -> rd (<[i := v]> l) k = rd l k.
Proof. intros H. unfold rd. now rewrite list_lookup_insert_ne. Qed.

Lemma rd_insert_eq (l : list Z) (i : nat) (v : Z) :
  (i < length l)%nat -> rd (<[i := v]> l) i = v.
Proof. intros H. unfold rd. now rewrite list_lookup_insert_eq. Qed.

(** ** The update block emits the events of the differ *)

Lemma update_button_spec (jp : nat) (wB : Z) (s : jstate) (b : nat * Z) :
  (update_button jp wB s b).2 = s.2 ++ button_event jp wB (buttons s.1) b /\
  hats (update_button jp wB s b).1 = hats s.1 /\
  axes (update_button jp wB s b).1 = axes s.1 /\
  (forall k, k <> b.1 ->
     rd (buttons (update_button jp wB s b).1) k = rd (buttons s.1) k).
Proof.
  unfold update_button, button_event.
  destruct (rd (buttons s.1) b.1 =? _); simpl.
  - rewrite app_nil_r. auto.
  - repeat split; auto. intros k Hk. now apply rd_insert_ne.
Qed.

Lemma button_event_ext (jp : nat) (wB : Z) (l1 l2 : list Z) (b : nat * Z) :
  rd l1 b.1 = rd l2 b.1 -> button_event jp wB l1 b = button_event jp wB l2 b.
Proof. intros H. unfold button_event. now rewrite H. Qed.

Lemma flat_map_agree {A B : Type} (f g : A -> list B) (l : list A) :
  (forall a, a ∈ l -> f a = g a) -> flat_map f l = flat_map g l.
Proof.
  induction l as [|a l IH]; intros H; simpl; [reflexivity|].
  rewrite (H a) by apply list_elem_of_here.
  f_equal. apply IH. intros a' Ha'. apply H. now apply list_elem_of_further.
Qed.

Lemma fold_update_button (jp : nat) (wB : Z) (l : list (nat * Z)) :
  NoDup l.*1 ->
  forall s : jstate,
    (fold_left (update_button jp wB) l s).2
      = s.2 ++ flat_map (button_event jp wB (buttons s.1)) l /\
    hats (fold_left (update_button jp wB) l s).1 = hats s.1 /\
    axes (fold_left (update_button jp wB) l s).1 = axes s.1.
Proof.
  induction l as [|b l IH]; intros Hnd s; simpl.
  - rewrite app_nil_r. auto.
  - rewrite fmap_cons in Hnd. apply NoDup_cons in Hnd as [Hb Hnd].
    destruct (update_button_spec jp wB s b) as (Ht & Hh & Ha & Hk).
    destruct (IH Hnd (update_button jp wB s b)) as (IHt & IHh & IHa).
    rewrite IHt, IHh, IHa, Ht, Hh, Ha. repeat split; auto.
    rewrite <- app_assoc. do 2 f_equal.
    apply flat_map_agree. intros b' Hin.
    apply button_event_ext, Hk.
    intros Heq. apply Hb. apply list_elem_of_fmap. exists b'. split; [|exact Hin].
    now symmetry.
Qed.

Lemma btn_map_NoDup : NoDup btn_map.*1.
Proof. apply NoDup_ListNoDup. vm_compute. repeat constructor; simpl; intuition lia. Qed.

Lemma update_hat_spec (jp : nat) (hat : Z) (s : jstate) :
  (update_hat jp hat s).2
    = s.2 ++ (if hat =? rd (hats s.1) 0 then []
              else [PrivateJoystickHat jp 0 (Uint8 hat)]) /\
  buttons (update_hat jp hat s).1 = buttons s.1 /\
  axes (update_hat jp hat s).1 = axes s.1.
Proof.
  unfold update_hat.
  destruct (hat =? rd (hats s.1) 0); simpl; [rewrite app_nil_r|]; auto.
Qed.

Lemma update_axis_spec (jp k : nat) (raw value : Z) (s : jstate) :
  (update_axis jp k raw value s).2 = s.2 ++ axis_event jp k (axes s.1) raw value /\
  (forall i, i <> k ->
     rd (axes (update_axis jp k raw value s).1) i = rd (axes s.1) i).
Proof.
  unfold update_axis, axis_event.
  destruct (raw =? rd (axes s.1) k); simpl.
  - rewrite app_nil_r. auto.
  - split; auto. intros i Hi. apply rd_insert_ne. congruence.
Qed.

Lemma axis_event_ext (jp k : nat) (l1 l2 : list Z) (raw value : Z) :
  rd l1 k = rd l2 k -> axis_event jp k l1 raw value = axis_event jp k l2 raw value.
Proof. intros H. unfold axis_event. now rewrite H. Qed.

Lemma update_inputs_steps (jp : nat) (xpad : XINPUT_GAMEPAD) (s : jstate) :
  update_inputs jp xpad s
  = update_axis jp 4 (sThumbRY xpad) (Z.lnot (sThumbRY xpad))
     (update_axis jp 3 (sThumbRX xpad) (sThumbRX xpad)
       (update_axis jp 1 (sThumbLY xpad) (Z.lnot (sThumbLY xpad))
         (update_axis jp 0 (sThumbLX xpad) (sThumbLX xpad)
           (update_axis jp 5 (bRightTrigger xpad) (trigger_axis (bRightTrigger xpad))
             (update_axis jp 2 (bLeftTrigger xpad) (trigger_axis (bLeftTrigger xpad))
               (fold_left (update_button jp (Sint16 (wButtons xpad))) btn_map
                 (update_hat jp (dpad_hat (Sint16 (wButtons xpad))) s))))))).
Proof.
  unfold update_inputs, update_axis, update_hat, trigger_axis, dpad_hat.
  reflexivity.
Qed.

Lemma update_inputs_trace (jp : nat) (xpad : XINPUT_GAMEPAD) (s : jstate) :
  (update_inputs jp xpad s).2 = s.2 ++ diff_events jp s.1 xpad.
Proof.
  rewrite update_inputs_steps. unfold diff_events, hat_event.
  set (wB := Sint16 (wButtons xpad)).
  destruct (update_hat_spec jp (dpad_hat wB) s) as (T1 & B1 & A1).
  set (s1 := update_hat jp (dpad_hat wB) s) in *.
  destruct (fold_update_button jp wB btn_map btn_map_NoDup s1) as (T2 & _ & A2).
  set (s2 := fold_left (update_button jp wB) btn_map s1) in *.
  destruct (update_axis_spec jp 2 (bLeftTrigger xpad)
              (trigger_axis (bLeftTrigger xpad)) s2) as (T3 & K3).
  set (s3 := update_axis jp 2 _ _ s2) in *.
  destruct (update_axis_spec jp 5 (bRightTrigger xpad)
              (trigger_axis (bRightTrigger xpad)) s3) as (T4 & K4).
  set (s4 := update_axis jp 5 _ _ s3) in *.
  destruct (update_axis_spec jp 0 (sThumbLX xpad) (sThumbLX xpad) s4) as (T5 & K5).
  set (s5 := update_axis jp 0 _ _ s4) in *.
  destruct (update_axis_spec jp 1 (sThumbLY xpad) (Z.lnot (sThumbLY xpad)) s5)
    as (T6 & K6).
  set (s6 := update_axis jp 1 _ _ s5) in *.
  destruct (update_axis_spec jp 3 (sThumbRX xpad) (sThumbRX xpad) s6) as (T7 & K7).
  set (s7 := update_axis jp 3 _ _ s6) in *.
  destruct (update_axis_spec jp 4 (sThumbRY xpad) (Z.lnot (sThumbRY xpad)) s7)
    as (T8 & _).
  rewrite T8, T7, T6, T5, T4, T3, T2, T1, B1.
  rewrite <- !app_assoc.
  assert (E : axes s2.1 = axes s.1) by congruence.
  rewrite (axis_event_ext jp 2 (axes s2.1) (axes s.1)) by congruence.
  rewrite (axis_event_ext jp 5 (axes s3.1) (axes s.1))
    by (rewrite K3 by lia; congruence).
  rewrite (axis_event_ext jp 0 (axes s4.1) (axes s.1))
    by (rewrite K4, K3 by lia; congruence).
  rewrite (axis_event_ext jp 1 (axes s5.1) (axes s.1))
    by (rewrite K5, K4, K3 by lia; congruence).
  rewrite (axis_event_ext jp 3 (axes s6.1) (axes s.1))
    by (rewrite K6, K5, K4, K3 by lia; congruence).
  rewrite (axis_event_ext jp 4 (axes s7.1) (axes s.1))
    by (rewrite K7, K6, K5, K4, K3 by lia; congruence).
  reflexivity.
Qed.

(** ** Rumble encoder *)

Lemma high_byte (z : Z) : 0 <= z < 65536 -> Uint8 (Z.shiftr z 8) = z / 256.
Proof.
  intros H. rewrite Z.shiftr_div_pow2 by lia. change (2 ^ 8) with 256.
  apply Uint8_id. split; [apply Z.div_pos; lia|].
  apply Z.div_lt_upper_bound; lia.
Qed.

Lemma low_byte (z : Z) : 0 <= z < 65536 -> Uint8 (Z.land z 0xFF) = z mod 256.
Proof.
  intros H. change 0xFF with (Z.ones 8). rewrite Z.land_ones by lia.
  change (2 ^ 8) with 256. apply Uint8_id. apply Z.mod_pos_bound. lia.
Qed.

Lemma percent_byte (z : Z) : 0 <= z < 65536 -> Uint8 (Z.quot z 655) = z / 655.
Proof.
  intros H. rewrite Z.quot_div_nonneg by lia.
  apply Uint8_id. split; [apply Z.div_pos; lia|].
  apply Z.div_lt_upper_bound; lia.
Qed.

Lemma xboxjoy_rumble_spec (ok : nat -> list Z -> bool) (dp : nat) (low high : Z) (w : world) :
  0 <= low < 65536 -> 0 <= high < 65536 ->
  xboxjoy_rumble ok dp low high w = rumble_result ok dp low high w.
Proof.
  intros Hl Hh. unfold xboxjoy_rumble, rumble_result, rumble_packet, usbh_hid_int_write.
  destruct (dev_type w dp); try reflexivity;
    rewrite ?high_byte, ?low_byte, ?percent_byte by assumption;
    cbn [SDL_memcpy MAX_PACKET_SIZE replicate length take drop app
         xbox_og xbox360_wired xbox360_wireless xbox_one
         insert list_insert list_alter];
    match goal with |- context [ok dp ?p] => destruct (ok dp p) end; reflexivity.
Qed.

Lemma rumble_result_frame (ok : nat -> list Z -> bool) (dp : nat) (low high : Z) (w : world) :
  devs (rumble_result ok dp low high w).2 = devs w /\
  joys (rumble_result ok dp low high w).2 = joys w.
Proof.
  unfold rumble_result. destruct (rumble_packet _ _ _); auto.
Qed.

Lemma rumble_zero_trace (ok : nat -> list Z -> bool) (dp : nat) (w : world) :
  trace (xboxjoy_rumble ok dp 0 0 w).2 = trace w ++ expiry_effects w dp.
Proof.
  rewrite xboxjoy_rumble_spec by lia.
  unfold rumble_result, expiry_effects.
  destruct (rumble_packet _ _ _); simpl; [reflexivity|now rewrite app_nil_r].
Qed.

(** ** One tick emits what the specification of the tick lists *)

Lemma update_trace (ok : nat -> list Z -> bool) (now : Z) (jp : nat) (w : world) :
  trace (SDL_XBOX_JoystickUpdate ok now (Some jp) w) = trace w ++ tick_spec now jp w.
Proof.
  unfold SDL_XBOX_JoystickUpdate, tick_spec.
  destruct (joys w !! jp) as [j|]; [|now rewrite app_nil_r].
  destruct (hwdata j) as [hw|]; [|now rewrite app_nil_r].
  destruct (hdev hw) as [dp|]; [|now rewrite app_nil_r].
  fold (expired now hw). unfold decoded.
  destruct (expired now hw).
  - pose proof (rumble_zero_trace ok dp w) as Ht.
    rewrite xboxjoy_rumble_spec in * by lia.
    destruct (rumble_result_frame ok dp 0 0 w) as (Hd & _).
    set (w' := (rumble_result ok dp 0 0 w).2) in *.
    rewrite Hd. cbn [raw_data set_rumble_expiry].
    destruct (xboxjoy_parse_input_data _ _ _) as [ret xpad]. cbn [fst snd].
    destruct (nonzero ret).
    + destruct (update_inputs jp xpad _) as [j' tr] eqn:E.
      cbn [trace]. change tr with (j', tr).2. rewrite <- E.
      rewrite update_inputs_trace. cbn [fst snd]. rewrite Ht.
      now rewrite app_assoc.
    + cbn [trace]. now rewrite Ht, app_nil_r.
  - destruct (xboxjoy_parse_input_data _ _ _) as [ret xpad]. cbn [fst snd app].
    destruct (nonzero ret).
    + destruct (update_inputs jp xpad _) as [j' tr] eqn:E.
      cbn [trace]. change tr with (j', tr).2. rewrite <- E.
      now rewrite update_inputs_trace.
    + cbn [trace]. now rewrite app_nil_r.
Qed.

Lemma tick_effects_spec (ok : nat -> list Z -> bool) (now : Z) (jp : nat) (w : world) :
  tick_effects ok now jp w = tick_spec now jp w.
Proof.
  unfold tick_effects. rewrite update_trace. apply drop_app_length.
Qed.

(** ** Reading the effects of a tick *)

Lemma axis_values_app (k : nat) (l1 l2 : list effect) :
  axis_values k (l1 ++ l2) = axis_values k l1 ++ axis_values k l2.
Proof. apply omap_app. Qed.

Lemma axis_values_expiry (k : nat) (w : world) (dp : nat) :
  axis_values k (expiry_effects w dp) = [].
Proof. unfold expiry_effects. now destruct (rumble_packet _ _ _). Qed.

Lemma axis_values_hat (k jp : nat) (stored : list Z) (wB : Z) :
  axis_values k (hat_event jp stored wB) = [].
Proof. unfold hat_event. now destruct (_ =? _). Qed.

Lemma axis_values_buttons (k jp : nat) (wB : Z) (stored : list Z) (l : list (nat * Z)) :
  axis_values k (flat_map (button_event jp wB stored) l) = [].
Proof.
  induction l as [|b l IH]; [reflexivity|].
  simpl. rewrite axis_values_app, IH, app_nil_r.
  unfold button_event. now destruct (_ =? _).
Qed.

Lemma axis_values_axis (k jp a : nat) (stored : list Z) (raw value : Z) :
  axis_values k (axis_event jp a stored raw value)
  = if Nat.eqb a k then (if raw =? rd stored a then [] else [Sint16 value]) else [].
Proof.
  unfold axis_event. destruct (raw =? rd stored a); simpl.
  - now destruct (Nat.eqb a k).
  - now destruct (Nat.eqb a k).
Qed.

Lemma axis_values_diff (k jp : nat) (j : SDL_Joystick) (xpad : XINPUT_GAMEPAD) :
  axis_values k (diff_events jp j xpad)
  = axis_values k
      (axis_event jp 2 (axes j) (bLeftTrigger xpad) (trigger_axis (bLeftTrigger xpad))
       ++ axis_event jp 5 (axes j) (bRightTrigger xpad) (trigger_axis (bRightTrigger xpad))
       ++ axis_event jp 0 (axes j) (sThumbLX xpad) (sThumbLX xpad)
       ++ axis_event jp 1 (axes j) (sThumbLY xpad) (Z.lnot (sThumbLY xpad))
       ++ axis_event jp 3 (axes j) (sThumbRX xpad) (sThumbRX xpad)
       ++ axis_event jp 4 (axes j) (sThumbRY xpad) (Z.lnot (sThumbRY xpad))).
Proof.
  unfold diff_events.
  now rewrite axis_values_app, axis_values_hat, axis_values_app, axis_values_buttons.
Qed.

Lemma lor_shift_byte (raw : Z) :
  0 <= raw <= 255 -> Z.lor (Z.shiftl raw 8) raw = raw * 257.
Proof.
  intros H. rewrite Z.shiftl_mul_pow2 by lia. change (2 ^ 8) with 256.
  rewrite <- Z.add_nocarry_lor; [lia|].
  apply Z.bits_inj'. intros n Hn. rewrite Z.land_spec, Z.bits_0.
  destruct (Z.lt_ge_cases n 8) as [Hlt|Hge].
  - rewrite Z.mul_pow2_bits_low with (n := 8) (a := raw) by lia. reflexivity.
  - replace (Z.testbit raw n) with false; [apply andb_false_r|].
    symmetry. apply Z.bits_above_log2; [lia|].
    destruct (Z.eq_dec raw 0) as [->|Hz]; [simpl; lia|].
    apply Z.lt_le_trans with 8; [|lia].
    apply Z.log2_lt_pow2; lia.
Qed.

Lemma trigger_axis_exact (raw : Z) :
  0 <= raw <= 255 ->
  Sint16 (trigger_axis raw) = Z.lor (Z.shiftl raw 8) raw - 32768 /\
  -32768 <= Z.lor (Z.shiftl raw 8) raw - 32768 <= 32767.
Proof.
  intros H. unfold trigger_axis. change (Z.shiftl 1 15) with 32768.
  rewrite (lor_shift_byte raw H). split; [apply Sint16_id|]; lia.
Qed.

(** ** Trigger axes *)

Lemma trigger_values (ok : nat -> list Z -> bool) (now : Z) (jp : nat) (w : world)
    (j : SDL_Joystick) (hw : joystick_hwdata) (dp : nat) (xpad : XINPUT_GAMEPAD) :
  joys w !! jp = Some j -> hwdata j = Some hw -> hdev hw = Some dp ->
  decoded w dp hw = (1, xpad) ->
  axis_values 2 (tick_effects ok now jp w)
    = (if bLeftTrigger xpad =? rd (axes j) 2 then []
       else [Sint16 (trigger_axis (bLeftTrigger xpad))]) /\
  axis_values 5 (tick_effects ok now jp w)
    = (if bRightTrigger xpad =? rd (axes j) 5 then []
       else [Sint16 (trigger_axis (bRightTrigger xpad))]).
Proof.
  intros Hj Hhw Hdp Hdec.
  rewrite tick_effects_spec. unfold tick_spec. rewrite Hj, Hhw, Hdp, Hdec.
  cbn [fst snd]. change (nonzero 1) with true. cbv iota.
  rewrite !axis_values_app, !axis_values_diff, !axis_values_app, !axis_values_axis.
  assert (He : axis_values 2 (if expired now hw then expiry_effects w dp else []) = [] /\
               axis_values 5 (if expired now hw then expiry_effects w dp else []) = []).
  { destruct (expired now hw); [rewrite !axis_values_expiry|]; auto. }
  destruct He as (-> & ->). cbn [Nat.eqb app].
  now rewrite !app_nil_r.
Qed.

(** C2: in a tick on a slot whose buffer decodes to the state [xpad], the
    value reported for the left trigger (axis 2) is
    (raw<<8 | raw) - 32768 for the decoded left trigger byte raw, and the
    value reported for the right trigger (axis 5) is the same function of
    the right trigger byte; the value is reported when raw differs from
    the stored value of the axis.  Raw 0x00 gives -32768 and raw 0xFF
    gives 32767, on both axes. *)
Theorem trigger_axis_remap (ok : nat -> list Z -> bool) (now : Z) (jp : nat) (w : world)
    (j : SDL_Joystick) (hw : joystick_hwdata) (dp : nat) (xpad : XINPUT_GAMEPAD) :
  joys w !! jp = Some j -> hwdata j = Some hw -> hdev hw = Some dp ->
  decoded w dp hw = (1, xpad) ->
  0 <= bLeftTrigger xpad <= 255 -> 0 <= bRightTrigger xpad <= 255 ->
  (axis_values 2 (tick_effects ok now jp w)
     = if bLeftTrigger xpad =? rd (axes j) 2 then []
       else [Z.lor (Z.shiftl (bLeftTrigger xpad) 8) (bLeftTrigger xpad) - 32768]) /\
  (axis_values 5 (tick_effects ok now jp w)
     = if bRightTrigger xpad =? rd (axes j) 5 then []
       else [Z.lor (Z.shiftl (bRightTrigger xpad) 8) (bRightTrigger xpad) - 32768]) /\
  (bLeftTrigger xpad = 0x00 -> rd (axes j) 2 <> 0x00 ->
     axis_values 2 (tick_effects ok now jp w) = [-32768]) /\
  (bLeftTrigger xpad = 0xFF -> rd (axes j) 2 <> 0xFF ->
     axis_values 2 (tick_effects ok now jp w) = [32767]) /\
  (bRightTrigger xpad = 0x00 -> rd (axes j) 5 <> 0x00 ->
     axis_values 5 (tick_effects ok now jp w) = [-32768]) /\
  (bRightTrigger xpad = 0xFF -> rd (axes j) 5 <> 0xFF ->
     axis_values 5 (tick_effects ok now jp w) = [32767]).
Proof.
  intros Hj Hhw Hdp Hdec Hl Hr.
  destruct (trigger_values ok now jp w j hw dp xpad Hj Hhw Hdp Hdec) as (H2 & H5).
  destruct (trigger_axis_exact _ Hl) as (El & _).
  destruct (trigger_axis_exact _ Hr) as (Er & _).
  rewrite El in H2. rewrite Er in H5.
  split; [exact H2|]. split; [exact H5|].
  repeat split; intros Hraw Hst.
  - rewrite H2, Hraw. destruct (Z.eqb_spec 0 (rd (axes j) 2)); [congruence|reflexivity].
  - rewrite H2, Hraw. destruct (Z.eqb_spec 255 (rd (axes j) 2)); [congruence|reflexivity].
  - rewrite H5, Hraw. destruct (Z.eqb_spec 0 (rd (axes j) 5)); [congruence|reflexivity].
  - rewrite H5, Hraw. destruct (Z.eqb_spec 255 (rd (axes j) 5)); [congruence|reflexivity].
Qed.

Lemma trigger_axis_remap_witness :
  axis_values 2 (tick_effects always_ok 10 0 world_held) = [32767] /\
  axis_values 5 (tick_effects always_ok 10 0 world_held) = [].
Proof.
  destruct (trigger_axis_remap always_ok 10 0 world_held
              (joy_opened (mkHwdata (Some 0%nat) report_held [0; 0] 0))
              (mkHwdata (Some 0%nat) report_held [0; 0] 0) 0
              (decoded world_held 0 (mkHwdata (Some 0%nat) report_held [0; 0] 0)).2)
    as (H2 & H5 & _).
  - reflexivity.
  - reflexivity.
  - reflexivity.
  - reflexivity.
  - vm_compute. split; discriminate.
  - vm_compute. split; discriminate.
  - split; [exact H2 | exact H5].
Defined.

(** ** Order of the events of a tick *)

Lemma inputs_expiry (w : world) (dp : nat) : omap input_of (expiry_effects w dp) = [].
Proof. unfold expiry_effects. now destruct (rumble_packet _ _ _). Qed.

Lemma inputs_hat (jp : nat) (stored : list Z) (wB : Z) :
  sublist (omap input_of (hat_event jp stored wB)) [Hat 0].
Proof.
  unfold hat_event. destruct (_ =? _); simpl.
  - apply sublist_nil_l.
  - reflexivity.
Qed.

Lemma inputs_buttons (jp : nat) (wB : Z) (stored : list Z) (l : list (nat * Z)) :
  sublist (omap input_of (flat_map (button_event jp wB stored) l))
          (map (fun b => Button b.1) l).
Proof.
  induction l as [|b l IH]; simpl; [constructor|].
  rewrite omap_app.
  change (Button b.1 :: map (fun b => Button b.1) l)
    with ([Button b.1] ++ map (fun b => Button b.1) l).
  apply sublist_app; [|exact IH].
  unfold button_event. destruct (_ =? _); simpl.
  - apply sublist_nil_l.
  - reflexivity.
Qed.

Lemma inputs_axis (jp k : nat) (stored : list Z) (raw value : Z) :
  sublist (omap input_of (axis_event jp k stored raw value)) [Axis k].
Proof.
  unfold axis_event. destruct (_ =? _); simpl.
  - apply sublist_nil_l.
  - reflexivity.
Qed.

Lemma inputs_diff (jp : nat) (j : SDL_Joystick) (xpad : XINPUT_GAMEPAD) :
  sublist (omap input_of (diff_events jp j xpad)) update_order.
Proof.
  unfold diff_events. rewrite !omap_app.
  change update_order
    with ([Hat 0] ++ map (fun b => Button b.1) btn_map
          ++ [Axis 2] ++ [Axis 5] ++ [Axis 0] ++ [Axis 1] ++ [Axis 3] ++ [Axis 4]).
  repeat apply sublist_app;
    auto using inputs_hat, inputs_buttons, inputs_axis.
Qed.

Lemma tick_order (ok : nat -> list Z -> bool) (now : Z) (jp : nat) (w : world) :
  sublist (omap input_of (tick_effects ok now jp w)) update_order.
Proof.
  rewrite tick_effects_spec. unfold tick_spec.
  destruct (joys w !! jp) as [j|]; [|apply sublist_nil_l].
  destruct (hwdata j) as [hw|]; [|apply sublist_nil_l].
  destruct (hdev hw) as [dp|]; [|apply sublist_nil_l].
  rewrite omap_app.
  replace (omap input_of (if expired now hw then expiry_effects w dp else []))
    with (@nil input) by (destruct (expired now hw); [now rewrite inputs_expiry|reflexivity]).
  destruct (nonzero _); [apply inputs_diff|apply sublist_nil_l].
Qed.

Lemma input_events_expiry (w : world) (dp : nat) : input_events (expiry_effects w dp) = [].
Proof. unfold expiry_effects. now destruct (rumble_packet _ _ _). Qed.

Lemma diff_events_stored (jp : nat) (j1 j2 : SDL_Joystick) (xpad : XINPUT_GAMEPAD) :
  hats j1 = hats j2 -> buttons j1 = buttons j2 -> axes j1 = axes j2 ->
  diff_events jp j1 xpad = diff_events jp j2 xpad.
Proof. intros Hh Hb Ha. unfold diff_events. now rewrite Hh, Hb, Ha. Qed.

Lemma tick_input_events (ok : nat -> list Z -> bool) (now : Z) (jp : nat) (w : world)
    (j : SDL_Joystick) (hw : joystick_hwdata) (dp : nat) :
  joys w !! jp = Some j -> hwdata j = Some hw -> hdev hw = Some dp ->
  input_events (tick_effects ok now jp w)
  = input_events (if nonzero (decoded w dp hw).1
                  then diff_events jp j (decoded w dp hw).2 else []).
Proof.
  intros Hj Hhw Hdp. rewrite tick_effects_spec. unfold tick_spec.
  rewrite Hj, Hhw, Hdp. unfold input_events at 1. rewrite List.filter_app.
  fold (input_events (if expired now hw then expiry_effects w dp else [])).
  replace (input_events (if expired now hw then expiry_effects w dp else []))
    with (@nil effect)
    by (destruct (expired now hw); [now rewrite input_events_expiry|reflexivity]).
  reflexivity.
Qed.

(** C9: the hat, button and axis events one tick emits follow the fixed
    order hat 0, buttons 0 to 9, axes 2, 5, 0, 1, 3, 4, each input at most
    once; and two ticks that start from the same stored hat, buttons and
    axes and decode the same state emit the same events, whatever else
    differs between the two worlds. *)
Theorem tick_events_fixed_order
    (ok1 ok2 : nat -> list Z -> bool) (now1 now2 : Z) (jp : nat) (w1 w2 : world)
    (j1 j2 : SDL_Joystick) (hw1 hw2 : joystick_hwdata) (dp1 dp2 : nat) :
  joys w1 !! jp = Some j1 -> hwdata j1 = Some hw1 -> hdev hw1 = Some dp1 ->
  joys w2 !! jp = Some j2 -> hwdata j2 = Some hw2 -> hdev hw2 = Some dp2 ->
  hats j1 = hats j2 -> buttons j1 = buttons j2 -> axes j1 = axes j2 ->
  decoded w1 dp1 hw1 = decoded w2 dp2 hw2 ->
  sublist (omap input_of (tick_effects ok1 now1 jp w1)) update_order /\
  NoDup update_order /\
  input_events (tick_effects ok1 now1 jp w1) = input_events (tick_effects ok2 now2 jp w2).
Proof.
  intros Hj1 Hhw1 Hdp1 Hj2 Hhw2 Hdp2 Hh Hb Ha Hdec.
  split; [apply tick_order|]. split.
  - apply NoDup_ListNoDup. unfold update_order.
    repeat (constructor; [simpl; intuition congruence|]). constructor.
  - rewrite (tick_input_events ok1 now1 jp w1 j1 hw1 dp1) by assumption.
    rewrite (tick_input_events ok2 now2 jp w2 j2 hw2 dp2) by assumption.
    rewrite Hdec. now rewrite (diff_events_stored jp j1 j2).
Qed.

Lemma tick_events_fixed_order_witness :
  sublist (omap input_of (tick_effects always_ok 10 0 world_held)) update_order /\
  input_events (tick_effects always_ok 10 0 world_held)
  = input_events (tick_effects (fun _ _ => false) 2000 0 world_held_rumbling).
Proof.
  destruct (tick_events_fixed_order always_ok (fun _ _ => false) 10 2000 0
              world_held world_held_rumbling
              (joy_opened (mkHwdata (Some 0%nat) report_held [0; 0] 0))
              (joy_opened (mkHwdata (Some 0%nat) report_held [0x4000; 0x8000] 1000))
              (mkHwdata (Some 0%nat) report_held [0; 0] 0)
              (mkHwdata (Some 0%nat) report_held [0x4000; 0x8000] 1000)
              0%nat 0%nat)
    as (Ho & _ & He); try reflexivity.
  split; [exact Ho | exact He].
Defined.

(** ** Ticks on an unchanged state *)



(** The value a trigger event stores equals the raw byte the next tick
    compares it with only for the byte 128. *)
Lemma trigger_stored_vs_raw (raw : Z) :
  0 <= raw <= 255 -> (raw =? Sint16 (trigger_axis raw)) = (raw =? 128).
Proof.
  intros H. destruct (trigger_axis_exact raw H) as (E & _). rewrite E.
  rewrite (lor_shift_byte raw H).
  destruct (Z.eqb_spec raw 128), (Z.eqb_spec raw (raw * 257 - 32768));
    try reflexivity; lia.
Qed.

(** The value a Y-axis event stores never equals the decoded value the
    next tick compares it with. *)
Lemma stick_y_stored_vs_raw (axis : Z) :
  -32768 <= axis <= 32767 -> (axis =? Sint16 (Z.lnot axis)) = false.
Proof.
  intros H. unfold Z.lnot. rewrite Sint16_id by (unfold Z.pred; lia).
  apply Z.eqb_neq. unfold Z.pred. lia.
Qed.

(** C1 (the source departs from it): a wired 360 pad holds dpad up, A,
    the left trigger and the left stick while ticks run on the same
    report.  The first tick reports the five changed inputs and leaves the
    joystick storing what it reported.  A tick on that state decodes the
    same report and yet reports the left trigger and the left stick Y
    axis again, with the very values the joystick stores: the source
    compares the raw trigger byte and the uninverted Y value with the
    stored remapped and inverted ones. *)
Theorem held_axes_reported_again :
  tick_effects always_ok 10 0 world_held
    = [PrivateJoystickHat 0 0 1; PrivateJoystickButton 0 0 1;
       PrivateJoystickAxis 0 2 32767; PrivateJoystickAxis 0 0 5;
       PrivateJoystickAxis 0 1 (-8)] /\
  joys (SDL_XBOX_JoystickUpdate always_ok 10 (Some 0%nat) world_held)
    = joys world_held_synced /\
  devs (SDL_XBOX_JoystickUpdate always_ok 10 (Some 0%nat) world_held)
    = devs world_held_synced /\
  tick_effects always_ok 11 0 world_held_synced
    = [PrivateJoystickAxis 0 2 32767; PrivateJoystickAxis 0 1 (-8)] /\
  tick_effects always_ok 11 0 (SDL_XBOX_JoystickUpdate always_ok 10 (Some 0%nat) world_held)
    = [PrivateJoystickAxis 0 2 32767; PrivateJoystickAxis 0 1 (-8)] /\
  joys (SDL_XBOX_JoystickUpdate always_ok 11 (Some 0%nat) world_held_synced)
    = joys world_held_synced.
Proof. vm_compute. repeat split. Qed.

(** ** Read completion: validation and copy *)

Lemma land_one_bit0 (x : Z) : (Z.land x 0x01 =? 0) = negb (Z.testbit x 0).
Proof.
  change 0x01 with (Z.ones 1). rewrite Z.land_ones by lia.
  change (2 ^ 1) with 2. rewrite <- Z.bit0_mod.
  now destruct (Z.testbit x 0).
Qed.

Lemma cap_is_min (data_len : Z) :
  (if Z.of_nat MAX_PACKET_SIZE <? data_len then Z.of_nat MAX_PACKET_SIZE else data_len)
  = Z.min data_len (Z.of_nat MAX_PACKET_SIZE).
Proof. destruct (Z.ltb_spec (Z.of_nat MAX_PACKET_SIZE) data_len); lia. Qed.

(** The read completion stores the report exactly when the transfer
    succeeded, the device is open and the validator accepts the bytes. *)
Lemma read_callback_spec (dp : nat) (ep status : Z) (rdata : list Z) (data_len : Z)
    (w : world) :
  xboxjoy_int_read_callback (Some dp) ep status rdata data_len w
  = match devs w !! dp with
    | None => w
    | Some d =>
      match user_data d with
      | None => w
      | Some jp =>
        if (0 <=? status) && validate (type d) rdata
        then upd_joy jp (upd_hwdata (store_report rdata data_len)) w
        else w
      end
    end.
Proof.
  unfold xboxjoy_int_read_callback, validate, store_report.
  rewrite cap_is_min.
  destruct (Z.ltb_spec status 0) as [Hs|Hs].
  - replace (0 <=? status) with false by (symmetry; apply Z.leb_gt; lia).
    destruct (devs w !! dp) as [d|]; [|reflexivity].
    now destruct (user_data d).
  - replace (0 <=? status) with true by (symmetry; apply Z.leb_le; lia).
    destruct (devs w !! dp) as [d|]; [|reflexivity].
    destruct (user_data d) as [jp|]; [|reflexivity].
    cbn [andb].
    destruct (type d).
    + rewrite Z.leb_antisym. now destruct (rd rdata 1 <? 20).
    + rewrite Z.leb_antisym. now destruct (rd rdata 1 <? 20).
    + rewrite land_one_bit0.
      now destruct (Z.testbit (rd rdata 1) 0), (rd rdata 5 =? 19).
    + now destruct (rd rdata 0 =? 32).
    + reflexivity.
Qed.

(** A report the validator refuses leaves the whole world, and with it
    the slot's buffer, as it was. *)
Lemma read_callback_rejects (dp : nat) (ep status : Z) (rdata : list Z) (data_len : Z)
    (w : world) (d : HID_DEV_T) :
  devs w !! dp = Some d -> validate (type d) rdata = false ->
  xboxjoy_int_read_callback (Some dp) ep status rdata data_len w = w.
Proof.
  intros Hd Hv. rewrite read_callback_spec, Hd, Hv, andb_false_r.
  now destruct (user_data d).
Qed.

(** The read completion changes the world only for bytes the validator
    accepts. *)
Lemma read_callback_only_if_valid (dp : nat) (ep status : Z) (rdata : list Z)
    (data_len : Z) (w : world) (d : HID_DEV_T) :
  devs w !! dp = Some d ->
  xboxjoy_int_read_callback (Some dp) ep status rdata data_len w <> w ->
  validate (type d) rdata = true.
Proof.
  intros Hd Hne. destruct (validate (type d) rdata) eqn:Hv; [reflexivity|].
  exfalso. apply Hne. now apply read_callback_rejects with d.
Qed.

Lemma store_report_raw (rdata : list Z) (data_len : Z) (hw : joystick_hwdata) :
  length (raw_data hw) = MAX_PACKET_SIZE ->
  0 <= data_len <= Z.of_nat (length rdata) ->
  length (raw_data (store_report rdata data_len hw)) = MAX_PACKET_SIZE /\
  (Z.of_nat MAX_PACKET_SIZE < data_len ->
     raw_data (store_report rdata data_len hw) = take MAX_PACKET_SIZE rdata) /\
  (data_len <= Z.of_nat MAX_PACKET_SIZE ->
     raw_data (store_report rdata data_len hw)
     = take (Z.to_nat data_len) rdata ++ drop (Z.to_nat data_len) (raw_data hw)).
Proof.
  intros Hlen Hd. unfold store_report, SDL_memcpy. cbn [raw_data set_raw_data].
  unfold MAX_PACKET_SIZE in *.
  repeat split.
  - rewrite length_app, length_take, length_drop. lia.
  - intros Hbig. rewrite Z.min_r by lia. rewrite Nat2Z.id.
    rewrite drop_ge by lia. apply app_nil_r.
  - intros Hsmall. now rewrite Z.min_l by lia.
Qed.

(** C10: an accepted report of [data_len] bytes changes the slot's buffer
    and nothing else.  The buffer keeps its 32 bytes; for a length above
    32 it becomes the first 32 bytes of the report; for a length of at
    most 32 its first [data_len] bytes become those of the report and the
    rest stays.  The fields behind the buffer, the devices, the other
    joysticks and the trace are untouched. *)
Theorem report_copy_capped (dp : nat) (ep status : Z) (rdata : list Z) (data_len : Z)
    (w : world) (d : HID_DEV_T) (jp : nat) (j : SDL_Joystick) (hw : joystick_hwdata) :
  devs w !! dp = Some d -> user_data d = Some jp ->
  joys w !! jp = Some j -> hwdata j = Some hw ->
  0 <= status -> validate (type d) rdata = true ->
  length (raw_data hw) = MAX_PACKET_SIZE ->
  0 <= data_len <= Z.of_nat (length rdata) ->
  xboxjoy_int_read_callback (Some dp) ep status rdata data_len w
    = mkWorld (devs w)
        (<[jp := set_hwdata (Some (store_report rdata data_len hw)) j]> (joys w))
        (trace w) /\
  length (raw_data (store_report rdata data_len hw)) = MAX_PACKET_SIZE /\
  (Z.of_nat MAX_PACKET_SIZE < data_len ->
     raw_data (store_report rdata data_len hw) = take MAX_PACKET_SIZE rdata) /\
  (data_len <= Z.of_nat MAX_PACKET_SIZE ->
     raw_data (store_report rdata data_len hw)
     = take (Z.to_nat data_len) rdata ++ drop (Z.to_nat data_len) (raw_data hw)) /\
  hdev (store_report rdata data_len hw) = hdev hw /\
  current_rumble (store_report rdata data_len hw) = current_rumble hw /\
  rumble_expiry (store_report rdata data_len hw) = rumble_expiry hw.
Proof.
  intros Hd Hu Hj Hhw Hs Hv Hlen Hdl.
  split; [|split; [|split; [|split]]]; try apply store_report_raw; auto.
  rewrite read_callback_spec, Hd, Hu, Hv.
  replace (0 <=? status) with true by (symmetry; apply Z.leb_le; lia).
  cbn [andb]. unfold upd_joy. f_equal.
  apply list_eq. intros i. destruct (decide (i = jp)) as [->|Hne].
  - rewrite list_lookup_alter_eq, Hj. cbn.
    rewrite list_lookup_insert_eq by (now apply lookup_lt_Some with j).
    unfold upd_hwdata. now rewrite Hhw.
  - now rewrite list_lookup_alter_ne, list_lookup_insert_ne by congruence.
Qed.

Lemma report_copy_capped_witness :
  xboxjoy_int_read_callback (Some 0%nat) 0x81 0 report_long 40 world_held
    = mkWorld (devs world_held)
        [joy_opened (mkHwdata (Some 0%nat) (take 32 report_long) [0; 0] 0)]
        (trace world_held) /\
  length (take 32 report_long) = 32%nat.
Proof.
  destruct (report_copy_capped 0 0x81 0 report_long 40 world_held
              (pad XBOX360_WIRED) 0
              (joy_opened (mkHwdata (Some 0%nat) report_held [0; 0] 0))
              (mkHwdata (Some 0%nat) report_held [0; 0] 0))
    as (Hw & Hl & Hbig & _).
  - reflexivity.
  - reflexivity.
  - reflexivity.
  - reflexivity.
  - lia.
  - reflexivity.
  - reflexivity.
  - vm_compute. split; discriminate.
  - split; [|reflexivity]. rewrite Hw. reflexivity.
Defined.

(** C3 as stated fails.  The slot of a wired 360 pad holds a report no
    tick has consumed yet when a frame arrives whose length byte is below
    0x14.  The validator refuses the frame and the world stays as it was,
    but the next tick does emit events: the five the held report is due. *)
Lemma refused_frame_then_pending_events :
  validate XBOX360_WIRED report_short = false /\
  xboxjoy_int_read_callback (Some 0%nat) 0x81 0 report_short 20 world_held = world_held /\
  tick_effects always_ok 10 0
      (xboxjoy_int_read_callback (Some 0%nat) 0x81 0 report_short 20 world_held)
    = [PrivateJoystickHat 0 0 1; PrivateJoystickButton 0 0 1;
       PrivateJoystickAxis 0 2 32767; PrivateJoystickAxis 0 0 5;
       PrivateJoystickAxis 0 1 (-8)].
Proof. vm_compute. repeat split. Qed.

(** C3, amended: the read completion writes to the world only if the
    transfer status is not negative, the device is open and the bytes pass
    the check of the device's family ([validate]: byte 1 at least 0x14 for
    the Original Xbox and the wired 360, bit 0 of byte 1 and byte 5 = 0x13
    for the wireless 360, byte 0 = 0x20 for the Xbox One, never for any
    other tag).  Refused bytes leave the whole world, and so the slot's
    report buffer, unchanged; the next tick therefore ends in the world
    and emits the events it would have without them. *)
Theorem refused_report_changes_nothing
    (ok : nat -> list Z -> bool) (now : Z) (jp dp : nat) (ep status : Z)
    (rdata : list Z) (data_len : Z) (w : world) (d : HID_DEV_T) :
  devs w !! dp = Some d ->
  (xboxjoy_int_read_callback (Some dp) ep status rdata data_len w <> w ->
     0 <= status /\ is_Some (user_data d) /\ validate (type d) rdata = true) /\
  (validate (type d) rdata = false ->
     xboxjoy_int_read_callback (Some dp) ep status rdata data_len w = w /\
     SDL_XBOX_JoystickUpdate ok now (Some jp)
         (xboxjoy_int_read_callback (Some dp) ep status rdata data_len w)
       = SDL_XBOX_JoystickUpdate ok now (Some jp) w /\
     tick_effects ok now jp
         (xboxjoy_int_read_callback (Some dp) ep status rdata data_len w)
       = tick_effects ok now jp w) /\
  (forall tag, type d = HID_OTHER tag -> validate (type d) rdata = false).
Proof.
  intros Hd. split; [|split].
  - intros Hne. rewrite read_callback_spec, Hd in Hne.
    destruct (user_data d) as [jp'|]; [|congruence].
    destruct (Z.leb_spec 0 status); [|cbn in Hne; congruence].
    destruct (validate (type d) rdata); [|cbn in Hne; congruence].
    repeat split; eauto.
  - intros Hv. rewrite (read_callback_rejects dp ep status rdata data_len w d Hd Hv).
    auto.
  - intros tag Ht. now rewrite Ht.
Qed.

Lemma refused_report_changes_nothing_witness :
  xboxjoy_int_read_callback (Some 0%nat) 0x81 0 report_short 20 world_held_synced
    = world_held_synced /\
  tick_effects always_ok 11 0
      (xboxjoy_int_read_callback (Some 0%nat) 0x81 0 report_short 20 world_held_synced)
    = tick_effects always_ok 11 0 world_held_synced.
Proof.
  destruct (refused_report_changes_nothing always_ok 11 0 0 0x81 0 report_short 20
              world_held_synced (pad XBOX360_WIRED)) as (_ & H & _).
  - reflexivity.
  - destruct H as (Hw & _ & Ht); [reflexivity|].
    split; [exact Hw | exact Ht].
Defined.

(** ** Rumble expiry *)

Lemma update_button_hwdata (jp : nat) (wB : Z) (l : list (nat * Z)) (s : jstate) :
  hwdata (fold_left (update_button jp wB) l s).1 = hwdata s.1.
Proof.
  revert s. induction l as [|b l IH]; intros s; simpl; [reflexivity|].
  rewrite IH. unfold update_button. now destruct (negb _).
Qed.

Lemma update_axis_hwdata (jp k : nat) (raw value : Z) (s : jstate) :
  hwdata (update_axis jp k raw value s).1 = hwdata s.1.
Proof. unfold update_axis. now destruct (negb _). Qed.

Lemma update_inputs_hwdata (jp : nat) (xpad : XINPUT_GAMEPAD) (s : jstate) :
  hwdata (update_inputs jp xpad s).1 = hwdata s.1.
Proof.
  rewrite update_inputs_steps, !update_axis_hwdata, update_button_hwdata.
  unfold update_hat. now destruct (negb _).
Qed.

(** The slot after a tick: the expiry is unset when the timer ran out,
    and no other field of the slot changes; the stored magnitudes stay in
    every case. *)
Lemma update_slot (ok : nat -> list Z -> bool) (now : Z) (jp : nat) (w : world)
    (j : SDL_Joystick) (hw : joystick_hwdata) (dp : nat) :
  joys w !! jp = Some j -> hwdata j = Some hw -> hdev hw = Some dp ->
  joys (SDL_XBOX_JoystickUpdate ok now (Some jp) w) !! jp ≫= hwdata
  = Some (if expired now hw then set_rumble_expiry 0 hw else hw).
Proof.
  intros Hj Hhw Hdp. unfold SDL_XBOX_JoystickUpdate. rewrite Hj, Hhw, Hdp.
  fold (expired now hw).
  assert (Hlt : (jp < length (joys w))%nat) by now apply lookup_lt_Some with j.
  destruct (expired now hw).
  - rewrite xboxjoy_rumble_spec by lia.
    destruct (rumble_result_frame ok dp 0 0 w) as (_ & Hjs).
    set (w' := (rumble_result ok dp 0 0 w).2) in *.
    destruct (xboxjoy_parse_input_data _ _ _) as [ret xpad].
    destruct (nonzero ret).
    + destruct (update_inputs jp xpad _) as [j' tr] eqn:E. cbn [joys].
      rewrite list_lookup_insert_eq by now rewrite Hjs.
      cbn. change j' with (j', tr).1. rewrite <- E.
      now rewrite update_inputs_hwdata.
    + cbn [joys]. now rewrite list_lookup_insert_eq by now rewrite Hjs.
  - destruct (xboxjoy_parse_input_data _ _ _) as [ret xpad].
    destruct (nonzero ret).
    + destruct (update_inputs jp xpad _) as [j' tr] eqn:E. cbn [joys].
      rewrite list_lookup_insert_eq by assumption.
      cbn. change j' with (j', tr).1. rewrite <- E.
      now rewrite update_inputs_hwdata.
    + cbn [joys]. now rewrite list_lookup_insert_eq by assumption.
Qed.

(** C4 (the source departs from it): a wired 360 pad rumbles at
    (0x4000, 0x8000) until tick 1000.  A tick at 999 does nothing and the
    slot keeps the magnitudes.  The tick at 1001 sends one zero-magnitude
    packet and unsets the expiry, but the slot still stores
    (0x4000, 0x8000); a request for the same magnitudes at 1002 therefore
    sends nothing and answers success. *)
Theorem expiry_keeps_stored_magnitudes :
  tick_effects always_ok 999 0 world_rumbling = [] /\
  (joys (SDL_XBOX_JoystickUpdate always_ok 999 (Some 0%nat) world_rumbling) !! 0%nat
     ≫= hwdata)
    = Some (mkHwdata (Some 0%nat) (replicate 32 0) [0x4000; 0x8000] 1000) /\
  tick_effects always_ok 1001 0 world_rumbling
    = [hid_int_write 0 0 [0x00; 0x08; 0x00; 0x00; 0x00; 0x00; 0x00; 0x00]] /\
  (joys (SDL_XBOX_JoystickUpdate always_ok 1001 (Some 0%nat) world_rumbling) !! 0%nat
     ≫= hwdata)
    = Some (mkHwdata (Some 0%nat) (replicate 32 0) [0x4000; 0x8000] 0) /\
  (SDL_XBOX_JoystickRumble always_ok 1002 0 0x4000 0x8000 500
     (SDL_XBOX_JoystickUpdate always_ok 1001 (Some 0%nat) world_rumbling)).1 = 0 /\
  trace (SDL_XBOX_JoystickRumble always_ok 1002 0 0x4000 0x8000 500
           (SDL_XBOX_JoystickUpdate always_ok 1001 (Some 0%nat) world_rumbling)).2
    = trace (SDL_XBOX_JoystickUpdate always_ok 1001 (Some 0%nat) world_rumbling).
Proof. vm_compute. repeat split. Qed.

(** ** Rumble encoder and rumble request *)

(** C5: for 16-bit magnitudes the encoder sends the packet the
    specification lists for the family of the device (the template with
    low/256 and high/256 for the two 360 families; with low mod 256,
    low/256, high mod 256, high/256 for the Original Xbox; with low/655
    and high/655, both within 0..100, for the Xbox One) and answers 0 or
    -1 as the transport accepts the write or not; for every other tag it
    writes nothing, changes nothing and answers -1. *)
Theorem rumble_encoder_packets (ok : nat -> list Z -> bool) (dp : nat) (low high : Z)
    (w : world) :
  0 <= low < 65536 -> 0 <= high < 65536 ->
  xboxjoy_rumble ok dp low high w
    = match rumble_packet (dev_type w dp) low high with
      | None => (-1, w)
      | Some p => (if ok dp p then 0 else -1, emit (hid_int_write dp 0 p) w)
      end /\
  (forall tag, dev_type w dp = HID_OTHER tag -> xboxjoy_rumble ok dp low high w = (-1, w)) /\
  0 <= low / 655 <= 100 /\ 0 <= high / 655 <= 100 /\
  0 <= low / 256 <= 255 /\ 0 <= high / 256 <= 255.
Proof.
  intros Hl Hh. split; [|split].
  - now apply xboxjoy_rumble_spec.
  - intros tag Ht. rewrite xboxjoy_rumble_spec by assumption.
    unfold rumble_result. now rewrite Ht.
  - assert (forall z k, 0 < k -> 0 <= z < 65536 -> 0 <= z / k <= 65535 / k).
    { intros z k Hk Hz. split; [apply Z.div_pos; lia|].
      apply Z.div_le_mono; lia. }
    change 100 with (65535 / 655). change 255 with (65535 / 256).
    repeat split; apply H; lia.
Qed.

Lemma rumble_encoder_packets_witness :
  xboxjoy_rumble always_ok 0 0x1234 0xABCD (mkWorld [pad XBOXOG_CONTROLLER] [] [])
  = (0, mkWorld [pad XBOXOG_CONTROLLER] []
          [hid_int_write 0 0 [0x00; 0x06; 0x34; 0x12; 0xCD; 0xAB]]).
Proof.
  destruct (rumble_encoder_packets always_ok 0 0x1234 0xABCD
              (mkWorld [pad XBOXOG_CONTROLLER] [] [])) as (H & _).
  - lia.
  - lia.
  - rewrite H. reflexivity.
Defined.

(** C6: a rumble request with the magnitudes the slot already stores
    answers 0 and changes one thing: the slot's expiry becomes
    now + duration (as a Uint32).  No packet is encoded or written (the
    trace is as before), the devices, the stored magnitudes, the buffer
    and every other joystick are as before. *)
Theorem same_rumble_refreshes_expiry (ok : nat -> list Z -> bool) (now : Z) (jp : nat)
    (low high duration_ms : Z) (w : world) (j : SDL_Joystick) (hw : joystick_hwdata) :
  joys w !! jp = Some j -> hwdata j = Some hw ->
  rd (current_rumble hw) 0 = low -> rd (current_rumble hw) 1 = high ->
  SDL_XBOX_JoystickRumble ok now jp low high duration_ms w
    = (0, mkWorld (devs w)
            (<[jp := set_hwdata
                       (Some (mkHwdata (hdev hw) (raw_data hw) (current_rumble hw)
                                       (Uint32 (now + duration_ms)))) j]> (joys w))
            (trace w)) /\
  (0 <= now + duration_ms < 2 ^ 32 -> Uint32 (now + duration_ms) = now + duration_ms).
Proof.
  intros Hj Hhw Hlo Hhi. split; [|apply Uint32_id].
  unfold SDL_XBOX_JoystickRumble. rewrite Hj. cbn [mbind option_bind].
  rewrite Hhw, Hlo, Hhi, !Z.eqb_refl. cbn [andb].
  unfold upd_joy. do 2 f_equal.
  apply list_eq. intros i. destruct (decide (i = jp)) as [->|Hne].
  - rewrite list_lookup_alter_eq, Hj.
    rewrite list_lookup_insert_eq by (now apply lookup_lt_Some with j).
    cbn. unfold upd_hwdata. now rewrite Hhw.
  - now rewrite list_lookup_alter_ne, list_lookup_insert_ne by congruence.
Qed.

Lemma same_rumble_refreshes_expiry_witness :
  SDL_XBOX_JoystickRumble always_ok 500 0 0x4000 0x8000 250 world_rumbling
  = (0, mkWorld [pad XBOX360_WIRED]
          [joy_opened (mkHwdata (Some 0%nat) (replicate 32 0) [0x4000; 0x8000] 750)] []).
Proof.
  destruct (same_rumble_refreshes_expiry always_ok 500 0 0x4000 0x8000 250 world_rumbling
              (joy_opened (mkHwdata (Some 0%nat) (replicate 32 0) [0x4000; 0x8000] 1000))
              (mkHwdata (Some 0%nat) (replicate 32 0) [0x4000; 0x8000] 1000))
    as (H & _).
  - reflexivity.
  - reflexivity.
  - reflexivity.
  - reflexivity.
  - rewrite H. reflexivity.
Defined.

(** ** Original Xbox shoulder buttons *)

(** C7: on an Original Xbox report the decoder answers 1, and the
    LeftShoulder bit (0x0100, bit 8) of the canonical button word is set
    exactly when report byte 9 exceeds the deadzone 0x20, the
    RightShoulder bit (0x0200, bit 9) exactly when report byte 8 exceeds
    it.  The button bitmask at bytes 2 and 3 takes no part: whatever is
    written there, the two bits stay. *)
Theorem og_shoulders_from_analog_bytes (d : HID_DEV_T) (c0 : XINPUT_GAMEPAD) (rdata : list Z) :
  type d = XBOXOG_CONTROLLER ->
  (xboxjoy_parse_input_data (Some d) c0 rdata).1 = 1 /\
  Z.testbit (wButtons (xboxjoy_parse_input_data (Some d) c0 rdata).2) 8
    = (0x20 <? rd rdata 9) /\
  Z.testbit (wButtons (xboxjoy_parse_input_data (Some d) c0 rdata).2) 9
    = (0x20 <? rd rdata 8) /\
  (forall lo hi : Z,
     Z.testbit (wButtons (xboxjoy_parse_input_data (Some d) c0
                            (<[2%nat := lo]> (<[3%nat := hi]> rdata))).2) 8
       = Z.testbit (wButtons (xboxjoy_parse_input_data (Some d) c0 rdata).2) 8 /\
     Z.testbit (wButtons (xboxjoy_parse_input_data (Some d) c0
                            (<[2%nat := lo]> (<[3%nat := hi]> rdata))).2) 9
       = Z.testbit (wButtons (xboxjoy_parse_input_data (Some d) c0 rdata).2) 9).
Proof.
  intros Ht.
  destruct (og_shoulder_bits d c0 rdata Ht) as (Hr & H8 & H9).
  repeat split; auto.
  - destruct (og_shoulder_bits d c0 (<[2%nat := lo]> (<[3%nat := hi]> rdata)) Ht)
      as (_ & H8' & _).
    rewrite H8', H8. now rewrite !rd_insert_ne by lia.
  - destruct (og_shoulder_bits d c0 (<[2%nat := lo]> (<[3%nat := hi]> rdata)) Ht)
      as (_ & _ & H9').
    rewrite H9', H9. now rewrite !rd_insert_ne by lia.
Qed.

Lemma og_shoulders_from_analog_bytes_witness :
  Z.testbit (wButtons (xboxjoy_parse_input_data
                         (Some (pad XBOXOG_CONTROLLER)) xpad_uninit report_og).2) 8 = true /\
  Z.testbit (wButtons (xboxjoy_parse_input_data
                         (Some (pad XBOXOG_CONTROLLER)) xpad_uninit report_og).2) 9 = false.
Proof.
  destruct (og_shoulders_from_analog_bytes (pad XBOXOG_CONTROLLER) xpad_uninit report_og)
    as (_ & H8 & H9 & _).
  - reflexivity.
  - split; [rewrite H8 | rewrite H9]; reflexivity.
Defined.

(** ** Device index out of range *)

Lemma pad_count_ge (l : list HID_DEV_T) (i : Z) : i <= pad_count l i.
Proof.
  revert i. induction l as [|d l IH]; intros i; simpl; [lia|].
  destruct (is_gamepad (type d)).
  - specialize (IH (i + 1)). lia.
  - apply IH.
Qed.

Lemma hdev_scan_past_end (l : list HID_DEV_T) (p : nat) (i device_index : Z) :
  pad_count l i <= device_index -> hdev_scan l p i device_index = inr None.
Proof.
  revert p i. induction l as [|d l IH]; intros p i H; simpl in *; [reflexivity|].
  destruct (is_gamepad (type d)).
  - pose proof (pad_count_ge l (i + 1)).
    replace (i <=? device_index) with true by (symmetry; apply Z.leb_le; lia).
    replace (i =? device_index) with false by (symmetry; apply Z.eqb_neq; lia).
    now apply IH.
  - pose proof (pad_count_ge l i).
    replace (i <=? device_index) with true by (symmetry; apply Z.leb_le; lia).
    now apply IH.
Qed.

(** C8 as stated fails.  With assertions active, resolving index 0 while
    no device is connected ends in the failing [assert(0)], and so does
    opening it; with assertions compiled out, the negative index -1 is
    resolved to the head of the device list and opening it succeeds. *)
Lemma out_of_range_index_not_reported :
  SDL_XBOX_JoystickGetCount world_empty = 0 /\
  hdev_from_device_index false 0 world_empty = AssertFail /\
  SDL_XBOX_JoystickOpen false 0 0 world_empty = AssertFail /\
  SDL_XBOX_JoystickGetCount world_one_pad = 1 /\
  hdev_from_device_index true (-1) world_one_pad = Ret (Some 0%nat) /\
  match SDL_XBOX_JoystickOpen true 0 (-1) world_one_pad with
  | Ret (r, w') => r = 0 /\ trace w' = [malloc_hwdata 0; hid_start_int_read 0 0]
  | AssertFail => False
  end.
Proof. vm_compute. repeat split. Qed.

(** C8, amended: for an index at or above the number of connected
    gamepads (also when none is connected) the scan of the device list
    finds nothing and reaches [assert(0)].  With assertions active the
    resolution, and an open with that index, stop there, before any state
    is written.  With assertions compiled out the resolution answers NULL
    and the open answers -1 with the world unchanged: no slot allocated,
    no read callback installed, nothing added to the trace. *)
Theorem index_past_count (ndebug : bool) (joystick : nat) (device_index : Z) (w : world) :
  SDL_XBOX_JoystickGetCount w <= device_index ->
  hdev_from_device_index ndebug device_index w
    = (if ndebug then Ret None else AssertFail) /\
  SDL_XBOX_JoystickOpen ndebug joystick device_index w
    = (if ndebug then Ret (-1, w) else AssertFail).
Proof.
  intros H. unfold SDL_XBOX_JoystickGetCount in H.
  assert (Hr : hdev_from_device_index ndebug device_index w
               = if ndebug then Ret None else AssertFail).
  { unfold hdev_from_device_index. now rewrite hdev_scan_past_end. }
  split; [exact Hr|].
  unfold SDL_XBOX_JoystickOpen. rewrite Hr. now destruct ndebug.
Qed.

Lemma index_past_count_witness :
  hdev_from_device_index true 1 world_one_pad = Ret None /\
  SDL_XBOX_JoystickOpen true 0 1 world_one_pad = Ret (-1, world_one_pad) /\
  hdev_from_device_index false 1 world_one_pad = AssertFail /\
  SDL_XBOX_JoystickOpen false 0 1 world_one_pad = AssertFail.
Proof.
  destruct (index_past_count true 0 1 world_one_pad) as (H1 & H2).
  - vm_compute. discriminate.
  - destruct (index_past_count false 0 1 world_one_pad) as (H3 & H4).
    + vm_compute. discriminate.
    + repeat split; assumption.
Defined.

(** * Further properties of the driver *)

(** ** Device indices and the device list *)

Lemma pad_count_shift (l : list HID_DEV_T) (i k : Z) :
  pad_count l (i + k) = pad_count l i + k.
Proof.
  revert i. induction l as [|d l IH]; intros i; simpl; [reflexivity|].
  destruct (is_gamepad (type d)); [|apply IH].
  replace (i + k + 1) with (i + 1 + k) by lia. apply IH.
Qed.

Lemma pad_count_app (l1 l2 : list HID_DEV_T) (i : Z) :
  pad_count (l1 ++ l2) i = pad_count l2 (pad_count l1 i).
Proof.
  revert i. induction l1 as [|d l1 IH]; intros i; simpl; [reflexivity|]. apply IH.
Qed.

Lemma hdev_scan_found (l1 l2 : list HID_DEV_T) (d : HID_DEV_T) (p : nat) (i : Z) :
  is_gamepad (type d) = true ->
  hdev_scan (l1 ++ d :: l2) p i (pad_count l1 i) = inl (p + length l1)%nat.
Proof.
  intros Hd. revert p i. induction l1 as [|a l1 IH]; intros p i; simpl.
  - rewrite Z.leb_refl, Hd, Z.eqb_refl. f_equal. lia.
  - destruct (is_gamepad (type a)).
    + pose proof (pad_count_ge l1 (i + 1)).
      replace (i <=? pad_count l1 (i + 1)) with true by (symmetry; apply Z.leb_le; lia).
      replace (i =? pad_count l1 (i + 1)) with false by (symmetry; apply Z.eqb_neq; lia).
      rewrite IH. f_equal. lia.
    + pose proof (pad_count_ge l1 i).
      replace (i <=? pad_count l1 i) with true by (symmetry; apply Z.leb_le; lia).
      rewrite IH. f_equal. lia.
Qed.

Lemma pad_count_split (l : list HID_DEV_T) (i device_index : Z) :
  i <= device_index < pad_count l i ->
  exists l1 d l2,
    l = l1 ++ d :: l2 /\ is_gamepad (type d) = true /\ pad_count l1 i = device_index.
Proof.
  revert i. induction l as [|a l IH]; intros i H; simpl in H; [lia|].
  destruct (is_gamepad (type a)) eqn:Ha.
  - destruct (Z.eq_dec i device_index) as [->|Hne].
    + exists [], a, l. auto.
    + destruct (IH (i + 1)) as (l1 & d & l2 & -> & Hd & Hc); [lia|].
      exists (a :: l1), d, l2. simpl. rewrite Ha. auto.
  - destruct (IH i H) as (l1 & d & l2 & -> & Hd & Hc).
    exists (a :: l1), d, l2. simpl. rewrite Ha. auto.
Qed.

Lemma resolve_in_range (ndebug : bool) (device_index : Z) (w : world) :
  0 <= device_index < SDL_XBOX_JoystickGetCount w ->
  exists p d,
    hdev_from_device_index ndebug device_index w = Ret (Some p) /\
    devs w !! p = Some d /\ is_gamepad (type d) = true /\
    pad_count (take p (devs w)) 0 = device_index.
Proof.
  intros H. unfold SDL_XBOX_JoystickGetCount in H.
  destruct (pad_count_split _ _ _ H) as (l1 & d & l2 & Hl & Hd & Hc).
  exists (length l1), d. unfold hdev_from_device_index.
  rewrite Hl, <- Hc, (hdev_scan_found l1 l2 d 0 0 Hd). simpl.
  repeat split; auto.
  - now rewrite list_lookup_middle.
  - now rewrite take_app_length.
Qed.

Lemma resolve_gamepad (ndebug : bool) (w : world) (p : nat) (d : HID_DEV_T) :
  devs w !! p = Some d -> is_gamepad (type d) = true ->
  0 <= pad_count (take p (devs w)) 0 < SDL_XBOX_JoystickGetCount w /\
  hdev_from_device_index ndebug (pad_count (take p (devs w)) 0) w = Ret (Some p).
Proof.
  intros Hp Hd. unfold SDL_XBOX_JoystickGetCount, hdev_from_device_index.
  pose proof (take_drop_middle (devs w) p d Hp) as Hl.
  assert (Hlen : length (take p (devs w)) = p).
  { rewrite length_take. apply lookup_lt_Some in Hp. lia. }
  set (l1 := take p (devs w)) in *. set (l2 := drop (S p) (devs w)) in *.
  rewrite <- Hl. split.
  - rewrite pad_count_app. simpl. rewrite Hd.
    pose proof (pad_count_ge l1 0).
    pose proof (pad_count_ge l2 (pad_count l1 0 + 1)).
    lia.
  - rewrite (hdev_scan_found l1 l2 d 0 0 Hd).
    now rewrite Hlen.
Qed.

(** X1: an index from 0 up to the count of connected gamepads resolves,
    with or without assertions, to a device of the list that is a gamepad
    and has exactly that many gamepads before it. *)
Theorem index_in_range_resolves (ndebug : bool) (device_index : Z) (w : world) :
  0 <= device_index < SDL_XBOX_JoystickGetCount w ->
  exists p d,
    hdev_from_device_index ndebug device_index w = Ret (Some p) /\
    devs w !! p = Some d /\ is_gamepad (type d) = true /\
    pad_count (take p (devs w)) 0 = device_index.
Proof. apply resolve_in_range. Qed.

Lemma index_in_range_resolves_witness :
  exists p d,
    hdev_from_device_index false 1 world_three = Ret (Some p) /\
    devs world_three !! p = Some d /\ is_gamepad (type d) = true /\
    pad_count (take p (devs world_three)) 0 = 1.
Proof.
  apply (index_in_range_resolves false 1 world_three). vm_compute. split; [discriminate | reflexivity].
Defined.

(** X2: every gamepad of the device list has an index below the count,
    the number of gamepads before it in the list, and that index resolves
    to it. *)
Theorem gamepad_has_index (ndebug : bool) (w : world) (p : nat) (d : HID_DEV_T) :
  devs w !! p = Some d -> is_gamepad (type d) = true ->
  0 <= pad_count (take p (devs w)) 0 < SDL_XBOX_JoystickGetCount w /\
  hdev_from_device_index ndebug (pad_count (take p (devs w)) 0) w = Ret (Some p).
Proof. apply resolve_gamepad. Qed.

Lemma gamepad_has_index_witness :
  hdev_from_device_index true (pad_count (take 2 (devs world_three)) 0) world_three
  = Ret (Some 2%nat).
Proof.
  destruct (gamepad_has_index true world_three 2
              (mkHID 7 XBOX360_WIRED 0x045e 0x028e None false)) as (_ & H).
  - reflexivity.
  - reflexivity.
  - exact H.
Defined.

(** X3: two indices in range that resolve to the same device are equal:
    no device is listed twice. *)
Theorem indices_resolve_apart (ndebug : bool) (w : world) (i1 i2 : Z) (q : nat) :
  0 <= i1 < SDL_XBOX_JoystickGetCount w ->
  0 <= i2 < SDL_XBOX_JoystickGetCount w ->
  hdev_from_device_index ndebug i1 w = Ret (Some q) ->
  hdev_from_device_index ndebug i2 w = Ret (Some q) ->
  i1 = i2.
Proof.
  intros H1 H2 R1 R2.
  destruct (resolve_in_range ndebug i1 w H1) as (p1 & d1 & E1 & _ & _ & C1).
  destruct (resolve_in_range ndebug i2 w H2) as (p2 & d2 & E2 & _ & _ & C2).
  rewrite R1 in E1. rewrite R2 in E2.
  injection E1 as <-. injection E2 as <-. congruence.
Qed.

Lemma indices_resolve_apart_witness : (1 : Z) = 1.
Proof.
  apply (indices_resolve_apart false world_three 1 1 2).
  - vm_compute. split; [discriminate | reflexivity].
  - vm_compute. split; [discriminate | reflexivity].
  - reflexivity.
  - reflexivity.
Defined.

Lemma instance_id_at (ndebug : bool) (w : world) (l1 l2 : list HID_DEV_T) (e : HID_DEV_T) :
  devs w = l1 ++ e :: l2 -> is_gamepad (type e) = true ->
  hdev_from_device_index ndebug (pad_count l1 0) w = Ret (Some (length l1)) /\
  SDL_XBOX_JoystickGetDeviceInstanceID ndebug (pad_count l1 0) w = Ret (uid e).
Proof.
  intros Hl He.
  assert (Hr : hdev_from_device_index ndebug (pad_count l1 0) w = Ret (Some (length l1))).
  { unfold hdev_from_device_index. now rewrite Hl, (hdev_scan_found l1 l2 e 0 0 He). }
  split; [exact Hr|].
  unfold SDL_XBOX_JoystickGetDeviceInstanceID. rewrite Hr. cbn.
  now rewrite Hl, list_lookup_middle.
Qed.

(** X4: indices are ranks, instance ids are identities.  When a device
    [d] ahead of a gamepad [e] leaves the device list, [e] keeps its
    instance id (its uid); its index drops by one if [d] was a gamepad
    and stays if it was not. *)
Theorem unplug_reranks (ndebug : bool) (w w' : world)
    (l1 l2 l3 : list HID_DEV_T) (d e : HID_DEV_T) :
  devs w = l1 ++ d :: l2 ++ e :: l3 ->
  devs w' = l1 ++ l2 ++ e :: l3 ->
  is_gamepad (type e) = true ->
  SDL_XBOX_JoystickGetDeviceInstanceID ndebug
      (pad_count (l1 ++ l2) 0 + (if is_gamepad (type d) then 1 else 0)) w
    = Ret (uid e) /\
  SDL_XBOX_JoystickGetDeviceInstanceID ndebug (pad_count (l1 ++ l2) 0) w' = Ret (uid e) /\
  hdev_from_device_index ndebug
      (pad_count (l1 ++ l2) 0 + (if is_gamepad (type d) then 1 else 0)) w
    = Ret (Some (S (length l1 + length l2))) /\
  hdev_from_device_index ndebug (pad_count (l1 ++ l2) 0) w'
    = Ret (Some (length l1 + length l2)%nat).
Proof.
  intros Hw Hw' He.
  assert (Hc : pad_count (l1 ++ d :: l2) 0
               = pad_count (l1 ++ l2) 0 + (if is_gamepad (type d) then 1 else 0)).
  { rewrite !pad_count_app. simpl. destruct (is_gamepad (type d)).
    - apply pad_count_shift.
    - lia. }
  destruct (instance_id_at ndebug w (l1 ++ d :: l2) l3 e) as (R & I);
    [now rewrite Hw, <- app_assoc | exact He |].
  destruct (instance_id_at ndebug w' (l1 ++ l2) l3 e) as (R' & I');
    [now rewrite Hw', <- app_assoc | exact He |].
  rewrite Hc in R, I. rewrite length_app in R, R'. simpl in R.
  replace (length l1 + S (length l2))%nat with (S (length l1 + length l2)) in R by lia.
  auto.
Qed.

Lemma unplug_reranks_witness :
  SDL_XBOX_JoystickGetDeviceInstanceID false 1 world_three = Ret 7 /\
  SDL_XBOX_JoystickGetDeviceInstanceID false 0
    (mkWorld [mkHID 5 (HID_OTHER 1) 0x046d 0xc077 None false;
              mkHID 7 XBOX360_WIRED 0x045e 0x028e None false] [joy_closed] [])
  = Ret 7.
Proof.
  destruct (unplug_reranks false world_three
              (mkWorld [mkHID 5 (HID_OTHER 1) 0x046d 0xc077 None false;
                        mkHID 7 XBOX360_WIRED 0x045e 0x028e None false] [joy_closed] [])
              [mkHID 5 (HID_OTHER 1) 0x046d 0xc077 None false] [] []
              (mkHID 6 XBOXONE 0x045e 0x02d1 None false)
              (mkHID 7 XBOX360_WIRED 0x045e 0x028e None false))
    as (H1 & H2 & _).
  - reflexivity.
  - reflexivity.
  - reflexivity.
  - split; [exact H1 | exact H2].
Defined.

(** ** GUID *)

Lemma byte_pair (z : Z) :
  0 <= z < 65536 ->
  0 <= Uint8 (Z.land z 0xFF) <= 255 /\
  0 <= Uint8 (Z.land (Z.shiftr z 8) 0xFF) <= 255 /\
  Uint8 (Z.land z 0xFF) + 256 * Uint8 (Z.land (Z.shiftr z 8) 0xFF) = z.
Proof.
  intros H. rewrite (low_byte z H).
  assert (Hh : Uint8 (Z.land (Z.shiftr z 8) 0xFF) = z / 256).
  { rewrite Z.shiftr_div_pow2 by lia. change (2 ^ 8) with 256.
    change 0xFF with (Z.ones 8). rewrite Z.land_ones by lia. change (2 ^ 8) with 256.
    assert (0 <= z / 256 < 256).
    { split; [apply Z.div_pos; lia|apply Z.div_lt_upper_bound; lia]. }
    rewrite (Z.mod_small (z / 256)) by lia. now apply Uint8_id. }
  rewrite Hh.
  pose proof (Z.mod_pos_bound z 256).
  pose proof (Z.div_mod z 256).
  assert (0 <= z / 256 < 256).
  { split; [apply Z.div_pos; lia|apply Z.div_lt_upper_bound; lia]. }
  lia.
Qed.

(** X5: for an index in range the GUID has 16 bytes, byte 0 is 0x03,
    bytes 4 and 5 are the vendor id and bytes 8 and 9 the product id of
    the resolved device, low byte first, so that both 16-bit ids can be
    read back, and every other byte is zero. *)
Theorem guid_carries_ids (ndebug : bool) (device_index : Z) (w : world) :
  0 <= device_index < SDL_XBOX_JoystickGetCount w ->
  (forall d, d ∈ devs w -> 0 <= idVendor d < 65536 /\ 0 <= idProduct d < 65536) ->
  exists p d g,
    hdev_from_device_index ndebug device_index w = Ret (Some p) /\
    devs w !! p = Some d /\
    SDL_XBOX_JoystickGetDeviceGUID ndebug device_index w = Ret g /\
    length g = 16%nat /\
    rd g 0 = 0x03 /\
    rd g 4 + 256 * rd g 5 = idVendor d /\
    rd g 8 + 256 * rd g 9 = idProduct d /\
    Forall (fun b => 0 <= b <= 255) g /\
    (forall k, k <> 0%nat -> k <> 4%nat -> k <> 5%nat -> k <> 8%nat -> k <> 9%nat ->
       rd g k = 0).
Proof.
  intros H Hids.
  destruct (resolve_in_range ndebug device_index w H) as (p & d & Hr & Hp & _ & _).
  destruct (Hids d) as (Hv & Hpr); [now apply list_elem_of_lookup_2 with p|].
  destruct (byte_pair _ Hv) as (V1 & V2 & V3).
  destruct (byte_pair _ Hpr) as (P1 & P2 & P3).
  eexists p, d, _. split; [exact Hr|]. split; [exact Hp|].
  unfold SDL_XBOX_JoystickGetDeviceGUID. rewrite Hr. cbn [mbind outcome_bind option_bind].
  rewrite Hp. split; [reflexivity|].
  cbn [replicate insert list_insert list_alter length rd lookup list_lookup default].
  repeat split; auto.
  - repeat constructor; lia.
  - intros k K0 K4 K5 K8 K9.
    do 10 (destruct k as [|k]; [try congruence; reflexivity|]).
    do 6 (destruct k as [|k]; [reflexivity|]). reflexivity.
Qed.

Lemma guid_carries_ids_witness :
  SDL_XBOX_JoystickGetDeviceGUID false 0 world_one_pad
  = Ret [0x03; 0; 0; 0; 0x5e; 0x04; 0; 0; 0xd1; 0x02; 0; 0; 0; 0; 0; 0].
Proof.
  destruct (guid_carries_ids false 0 world_one_pad) as (p & d & g & _ & _ & Hg & _).
  - vm_compute. split; [discriminate | reflexivity].
  - intros d Hd. apply list_elem_of_singleton in Hd. subst d.
    vm_compute. repeat split; discriminate || reflexivity.
  - reflexivity.
Defined.

(** ** Decoder: the button word of each family *)

Lemma nonzero_land_bit (w k : Z) :
  0 <= k -> nonzero (Z.land w (Z.shiftl 1 k)) = Z.testbit w k.
Proof.
  intros Hk. rewrite Z.shiftl_1_l.
  assert (E : Z.land w (2 ^ k) = if Z.testbit w k then 2 ^ k else 0).
  { apply Z.bits_inj'. intros n Hn. rewrite Z.land_spec, Z.pow2_bits_eqb by lia.
    destruct (Z.eqb_spec k n) as [->|Hne].
    - destruct (Z.testbit w n); [|now rewrite Z.bits_0].
      rewrite Z.pow2_bits_eqb by lia. now rewrite Z.eqb_refl.
    - rewrite andb_false_r. destruct (Z.testbit w k); [|now rewrite Z.bits_0].
      rewrite Z.pow2_bits_eqb by lia. symmetry. now apply Z.eqb_neq. }
  rewrite E. unfold nonzero. destruct (Z.testbit w k); [|reflexivity].
  assert (0 < 2 ^ k) by (apply Z.pow_pos_nonneg; lia).
  destruct (Z.eqb_spec (2 ^ k) 0); [lia|reflexivity].
Qed.

Lemma or_flag_bound (cond : bool) (flag : Z) (c : XINPUT_GAMEPAD) :
  0 <= wButtons c < 65536 -> 0 <= wButtons (or_flag cond flag c) < 65536.
Proof.
  intros H. unfold or_flag. destruct cond; [|exact H].
  cbn [set_wButtons wButtons]. unfold Uint16. apply Z.mod_pos_bound. lia.
Qed.

Lemma parse_wButtons_bound (hdev : option HID_DEV_T) (c0 : XINPUT_GAMEPAD) (rdata : list Z) :
  0 <= wButtons (xboxjoy_parse_input_data hdev c0 rdata).2 < 65536.
Proof.
  unfold xboxjoy_parse_input_data.
  destruct hdev as [d|]; [|cbn; lia].
  destruct (type d); cbn [snd set_analog wButtons];
    repeat apply or_flag_bound; cbn; lia.
Qed.

Ltac closed_bits :=
  repeat match goal with
         | |- context [Z.testbit ?k ?n] =>
           let b := eval vm_compute in (Z.testbit k n) in
           match b with
           | true => change (Z.testbit k n) with true
           | false => change (Z.testbit k n) with false
           end
         end.

Ltac decode_bit :=
  cbn [snd set_analog wButtons];
  repeat (rewrite or_flag_testbit by lia);
  cbn [set_wButtons wButtons];
  closed_bits;
  rewrite ?andb_false_r, ?andb_true_r, ?orb_false_r, ?orb_false_l;
  rewrite ?nonzero_land_bit by lia.

Lemma bit_cases (n : Z) :
  0 <= n < 16 -> exists k : nat, (k < 16)%nat /\ n = Z.of_nat k.
Proof. intros H. exists (Z.to_nat n). lia. Qed.

Lemma high_bits_clear (z n : Z) : 0 <= z < 65536 -> 16 <= n -> Z.testbit z n = false.
Proof.
  intros Hz Hn. destruct (Z.eq_dec z 0) as [->|Hne]; [apply Z.bits_0|].
  apply Z.bits_above_log2; [lia|].
  apply Z.lt_le_trans with 16; [|lia]. apply Z.log2_lt_pow2; lia.
Qed.

Lemma decode_360_wired_word (d : HID_DEV_T) (c0 : XINPUT_GAMEPAD) (rdata : list Z) :
  type d = XBOX360_WIRED ->
  wButtons (xboxjoy_parse_input_data (Some d) c0 rdata).2
  = Z.land (load_Uint16 rdata 2) 0xF3FF.
Proof.
  intros Ht. apply Z.bits_inj'. intros n Hn.
  rewrite Z.land_spec.
  destruct (Z.lt_ge_cases n 16) as [Hlt|Hge].
  - unfold xboxjoy_parse_input_data. rewrite Ht.
    destruct (bit_cases n) as (k & Hk & ->); [lia|]. clear Hn Hlt.
    do 16 (destruct k as [|k];
           [match goal with
            | |- context [Z.of_nat ?m] =>
                let v := eval vm_compute in (Z.of_nat m) in change (Z.of_nat m) with v
            end; decode_bit; reflexivity|]).
    lia.
  - rewrite (high_bits_clear _ n (parse_wButtons_bound _ _ _)) by lia.
    rewrite (high_bits_clear 0xF3FF n) by lia. now rewrite andb_false_r.
Qed.

(** X6: the wired 360 decoder in closed form: it answers 1, the canonical
    button word is the report's bitmask at bytes 2 and 3 with bits 10 and
    11 cleared, the triggers are bytes 4 and 5 and the sticks the four
    signed words from byte 6 on.  The wireless 360 decoder is the wired
    one behind a 4-byte header. *)
Theorem decode_360 (d dw : HID_DEV_T) (c0 : XINPUT_GAMEPAD) (h rdata : list Z) :
  type d = XBOX360_WIRED -> type dw = XBOX360_WIRELESS -> length h = 4%nat ->
  xboxjoy_parse_input_data (Some d) c0 rdata
    = (1, mkXINPUT (Z.land (load_Uint16 rdata 2) 0xF3FF) (rd rdata 4) (rd rdata 5)
            (load_Sint16 rdata 6) (load_Sint16 rdata 8)
            (load_Sint16 rdata 10) (load_Sint16 rdata 12)) /\
  xboxjoy_parse_input_data (Some dw) c0 (h ++ rdata)
    = xboxjoy_parse_input_data (Some d) c0 rdata.
Proof.
  intros Ht Htw Hh. split.
  - rewrite <- (decode_360_wired_word d c0 rdata Ht).
    unfold xboxjoy_parse_input_data. rewrite Ht. reflexivity.
  - do 4 (destruct h as [|? h]; [discriminate|]).
    destruct h; [|discriminate].
    unfold xboxjoy_parse_input_data. rewrite Ht, Htw. reflexivity.
Qed.

Lemma decode_360_witness :
  xboxjoy_parse_input_data (Some (pad XBOX360_WIRELESS)) xpad_uninit
    ([0x00; 0x01; 0x00; 0xF0] ++ report_held)
  = (1, mkXINPUT 0x1001 0xFF 0x00 5 7 0 0).
Proof.
  destruct (decode_360 (pad XBOX360_WIRED) (pad XBOX360_WIRELESS) xpad_uninit
              [0x00; 0x01; 0x00; 0xF0] report_held) as (H1 & H2).
  - reflexivity.
  - reflexivity.
  - reflexivity.
  - rewrite H2, H1. reflexivity.
Defined.

(** X7: the Xbox One decoder answers 1 and moves the bits of the report's
    bitmask at bytes 4 and 5 to the canonical button word: dpad
    up/down/left/right from bits 8 to 11, start and back from bits 2 and
    3, the thumb clicks from bits 14 and 15, the shoulders from bits 12
    and 13, A/B/X/Y from bits 4 to 7.  Bits 10 and 11 of the canonical
    word stay clear, bits 0 and 1 of the bitmask are not used. *)
Theorem decode_one_bits (d : HID_DEV_T) (c0 : XINPUT_GAMEPAD) (rdata : list Z) :
  type d = XBOXONE ->
  (xboxjoy_parse_input_data (Some d) c0 rdata).1 = 1 /\
  (forall k src, (k, src) ∈ [(0, 8); (1, 9); (2, 10); (3, 11); (4, 2); (5, 3); (6, 14);
                            (7, 15); (8, 12); (9, 13); (12, 4); (13, 5); (14, 6); (15, 7)] ->
     Z.testbit (wButtons (xboxjoy_parse_input_data (Some d) c0 rdata).2) k
     = Z.testbit (load_Uint16 rdata 4) src) /\
  Z.testbit (wButtons (xboxjoy_parse_input_data (Some d) c0 rdata).2) 10 = false /\
  Z.testbit (wButtons (xboxjoy_parse_input_data (Some d) c0 rdata).2) 11 = false.
Proof.
  intros Ht. unfold xboxjoy_parse_input_data. rewrite Ht.
  split; [reflexivity|]. split; [|split; decode_bit; reflexivity].
  intros k src Hin.
  repeat (apply elem_of_cons in Hin as [Hin|Hin];
          [injection Hin as -> ->; decode_bit; reflexivity|]).
  now apply elem_of_nil in Hin.
Qed.

Lemma decode_one_bits_witness :
  Z.testbit (wButtons (xboxjoy_parse_input_data (Some (pad XBOXONE)) xpad_uninit
                         report_one).2) 12
  = Z.testbit (load_Uint16 report_one 4) 4.
Proof.
  destruct (decode_one_bits (pad XBOXONE) xpad_uninit report_one) as (_ & H & _).
  - reflexivity.
  - apply H. do 10 (apply elem_of_cons; right). apply elem_of_cons. now left.
Defined.

(** X8: the Original Xbox decoder takes the low eight bits of the
    canonical button word (dpad, start, back, thumb clicks) from the low
    byte of the bitmask at byte 2, and A, B, X, Y from the analog bytes
    4, 5, 6, 7, each pressed exactly when its byte exceeds 0x20; bits 10
    and 11 stay clear and the high byte of the bitmask is not used. *)
Theorem decode_og_bits (d : HID_DEV_T) (c0 : XINPUT_GAMEPAD) (rdata : list Z) :
  type d = XBOXOG_CONTROLLER ->
  (forall k, 0 <= k < 8 ->
     Z.testbit (wButtons (xboxjoy_parse_input_data (Some d) c0 rdata).2) k
     = Z.testbit (load_Uint16 rdata 2) k) /\
  Z.testbit (wButtons (xboxjoy_parse_input_data (Some d) c0 rdata).2) 12
    = (0x20 <? rd rdata 4) /\
  Z.testbit (wButtons (xboxjoy_parse_input_data (Some d) c0 rdata).2) 13
    = (0x20 <? rd rdata 5) /\
  Z.testbit (wButtons (xboxjoy_parse_input_data (Some d) c0 rdata).2) 14
    = (0x20 <? rd rdata 6) /\
  Z.testbit (wButtons (xboxjoy_parse_input_data (Some d) c0 rdata).2) 15
    = (0x20 <? rd rdata 7) /\
  Z.testbit (wButtons (xboxjoy_parse_input_data (Some d) c0 rdata).2) 10 = false /\
  Z.testbit (wButtons (xboxjoy_parse_input_data (Some d) c0 rdata).2) 11 = false.
Proof.
  intros Ht. unfold xboxjoy_parse_input_data. rewrite Ht. unfold BUTTON_DEADZONE.
  split; [|repeat split; decode_bit; reflexivity].
  intros k Hk.
  assert (E : k = 0 \/ k = 1 \/ k = 2 \/ k = 3 \/ k = 4 \/ k = 5 \/ k = 6 \/ k = 7) by lia.
  repeat (destruct E as [E|E]); subst k; decode_bit; reflexivity.
Qed.

Lemma decode_og_bits_witness :
  Z.testbit (wButtons (xboxjoy_parse_input_data (Some (pad XBOXOG_CONTROLLER)) xpad_uninit
                         report_og).2) 12 = false.
Proof.
  destruct (decode_og_bits (pad XBOXOG_CONTROLLER) xpad_uninit report_og)
    as (_ & H & _).
  - reflexivity.
  - rewrite H. reflexivity.
Defined.

(** ** Decoder: well-formed results and the bytes it reads *)

Lemma rd_byte (rdata : list Z) (i : nat) :
  Forall (fun b => 0 <= b <= 255) rdata -> 0 <= rd rdata i <= 255.
Proof.
  intros H. unfold rd. destruct (rdata !! i) as [b|] eqn:E; simpl; [|lia].
  rewrite Forall_forall in H. apply H.
  now apply list_elem_of_lookup_2 with i.
Qed.

Lemma rd_take (l : list Z) (n i : nat) : (i < n)%nat -> rd (take n l) i = rd l i.
Proof. intros H. unfold rd. now rewrite lookup_take_lt. Qed.

Lemma parse_bits_10_11 (hdev : option HID_DEV_T) (c0 : XINPUT_GAMEPAD) (rdata : list Z) :
  Z.testbit (wButtons (xboxjoy_parse_input_data hdev c0 rdata).2) 10 = false /\
  Z.testbit (wButtons (xboxjoy_parse_input_data hdev c0 rdata).2) 11 = false.
Proof.
  unfold xboxjoy_parse_input_data.
  destruct hdev as [d|]; [|split; reflexivity].
  destruct (type d); split; try reflexivity; decode_bit; reflexivity.
Qed.

(** X9: whatever the device and the bytes, the decoder answers 1 for the
    four gamepad families and 0 otherwise (also for a null device), the
    canonical button word is a 16-bit value whose bits 10 and 11 are
    clear, and, when the answer is 1 and the report consists of bytes,
    the triggers are bytes and the sticks signed 16-bit values. *)
Theorem decode_well_formed (hdev : option HID_DEV_T) (c0 : XINPUT_GAMEPAD)
    (rdata : list Z) :
  Forall (fun b => 0 <= b <= 255) rdata ->
  (xboxjoy_parse_input_data hdev c0 rdata).1
    = (if default false (is_gamepad <$> (type <$> hdev)) then 1 else 0) /\
  0 <= wButtons (xboxjoy_parse_input_data hdev c0 rdata).2 < 65536 /\
  Z.testbit (wButtons (xboxjoy_parse_input_data hdev c0 rdata).2) 10 = false /\
  Z.testbit (wButtons (xboxjoy_parse_input_data hdev c0 rdata).2) 11 = false /\
  ((xboxjoy_parse_input_data hdev c0 rdata).1 = 1 ->
     0 <= bLeftTrigger (xboxjoy_parse_input_data hdev c0 rdata).2 <= 255 /\
     0 <= bRightTrigger (xboxjoy_parse_input_data hdev c0 rdata).2 <= 255 /\
     -32768 <= sThumbLX (xboxjoy_parse_input_data hdev c0 rdata).2 <= 32767 /\
     -32768 <= sThumbLY (xboxjoy_parse_input_data hdev c0 rdata).2 <= 32767 /\
     -32768 <= sThumbRX (xboxjoy_parse_input_data hdev c0 rdata).2 <= 32767 /\
     -32768 <= sThumbRY (xboxjoy_parse_input_data hdev c0 rdata).2 <= 32767).
Proof.
  intros Hb.
  split; [|split; [apply parse_wButtons_bound|]].
  - unfold xboxjoy_parse_input_data. destruct hdev as [d|]; [|reflexivity].
    cbn. now destruct (type d).
  - destruct (parse_bits_10_11 hdev c0 rdata) as (H10 & H11).
    split; [exact H10|]. split; [exact H11|].
    unfold xboxjoy_parse_input_data. destruct hdev as [d|]; [|cbn; discriminate].
    destruct (type d); cbn [fst snd set_analog bLeftTrigger bRightTrigger
                              sThumbLX sThumbLY sThumbRX sThumbRY];
      intros Hr; try discriminate Hr;
      repeat split; try apply rd_byte; try apply Sint16_range; auto;
      unfold load_Sint16; apply Sint16_range.
Qed.

Lemma decode_well_formed_witness :
  0 <= wButtons (xboxjoy_parse_input_data (Some (pad XBOXONE)) xpad_uninit report_one).2
    < 65536.
Proof.
  destruct (decode_well_formed (Some (pad XBOXONE)) xpad_uninit report_one) as (_ & H & _).
  - unfold report_one. cbn [app replicate].
    repeat (constructor; [lia|]). constructor.
  - exact H.
Defined.

(** X10: the decoder reads no byte at or behind offset 20: two reports
    that agree on their first 20 bytes decode alike, so it never leaves
    the 32-byte buffer the update hands it, whatever the family. *)
Theorem decode_reads_first_20 (hdev : option HID_DEV_T) (c0 : XINPUT_GAMEPAD)
    (rdata rdata' : list Z) :
  take 20 rdata = take 20 rdata' ->
  xboxjoy_parse_input_data hdev c0 rdata = xboxjoy_parse_input_data hdev c0 rdata'.
Proof.
  intros H.
  assert (E : forall r, xboxjoy_parse_input_data hdev c0 r
                        = xboxjoy_parse_input_data hdev c0 (take 20 r)).
  { intros r. unfold xboxjoy_parse_input_data.
    destruct hdev as [d|]; [|reflexivity].
    destruct (type d); unfold load_Sint16, load_Uint16;
      rewrite ?rd_take by lia; reflexivity. }
  now rewrite (E rdata), (E rdata'), H.
Qed.

Lemma decode_reads_first_20_witness :
  xboxjoy_parse_input_data (Some (pad XBOXOG_CONTROLLER)) xpad_uninit
    (take 20 report_og ++ [0xAA; 0xBB])
  = xboxjoy_parse_input_data (Some (pad XBOXOG_CONTROLLER)) xpad_uninit report_og.
Proof.
  apply (decode_reads_first_20 (Some (pad XBOXOG_CONTROLLER)) xpad_uninit
           (take 20 report_og ++ [0xAA; 0xBB]) report_og).
  reflexivity.
Defined.

(** ** What a tick reports for sticks, buttons and the hat *)

Lemma decoded_in_range (w : world) (dp : nat) (hw : joystick_hwdata) (xpad : XINPUT_GAMEPAD) :
  decoded w dp hw = (1, xpad) ->
  0 <= wButtons xpad < 65536 /\
  -32768 <= sThumbLX xpad <= 32767 /\ -32768 <= sThumbLY xpad <= 32767 /\
  -32768 <= sThumbRX xpad <= 32767 /\ -32768 <= sThumbRY xpad <= 32767.
Proof.
  intros H. unfold decoded in H.
  pose proof (parse_wButtons_bound (devs w !! dp) xpad_uninit
                (SDL_memcpy (replicate MAX_PACKET_SIZE 0) (raw_data hw) MAX_PACKET_SIZE))
    as Hb.
  rewrite H in Hb. split; [exact Hb|]. clear Hb.
  unfold xboxjoy_parse_input_data in H.
  destruct (devs w !! dp) as [d|]; [|discriminate].
  destruct (type d); try discriminate; injection H as <-;
    cbn [set_analog sThumbLX sThumbLY sThumbRX sThumbRY];
    unfold load_Sint16; repeat split; apply Sint16_range.
Qed.

Lemma tick_decoded (ok : nat -> list Z -> bool) (now : Z) (jp : nat) (w : world)
    (j : SDL_Joystick) (hw : joystick_hwdata) (dp : nat) (xpad : XINPUT_GAMEPAD) :
  joys w !! jp = Some j -> hwdata j = Some hw -> hdev hw = Some dp ->
  decoded w dp hw = (1, xpad) ->
  tick_effects ok now jp w
  = (if expired now hw then expiry_effects w dp else []) ++ diff_events jp j xpad.
Proof.
  intros Hj Hhw Hdp Hdec. rewrite tick_effects_spec. unfold tick_spec.
  now rewrite Hj, Hhw, Hdp, Hdec.
Qed.

Lemma stick_values (ok : nat -> list Z -> bool) (now : Z) (jp : nat) (w : world)
    (j : SDL_Joystick) (hw : joystick_hwdata) (dp : nat) (xpad : XINPUT_GAMEPAD)
    (k : nat) :
  joys w !! jp = Some j -> hwdata j = Some hw -> hdev hw = Some dp ->
  decoded w dp hw = (1, xpad) ->
  axis_values k (tick_effects ok now jp w)
  = axis_values k
      (axis_event jp 2 (axes j) (bLeftTrigger xpad) (trigger_axis (bLeftTrigger xpad))
       ++ axis_event jp 5 (axes j) (bRightTrigger xpad) (trigger_axis (bRightTrigger xpad))
       ++ axis_event jp 0 (axes j) (sThumbLX xpad) (sThumbLX xpad)
       ++ axis_event jp 1 (axes j) (sThumbLY xpad) (Z.lnot (sThumbLY xpad))
       ++ axis_event jp 3 (axes j) (sThumbRX xpad) (sThumbRX xpad)
       ++ axis_event jp 4 (axes j) (sThumbRY xpad) (Z.lnot (sThumbRY xpad))).
Proof.
  intros Hj Hhw Hdp Hdec.
  rewrite (tick_decoded ok now jp w j hw dp xpad) by assumption.
  rewrite axis_values_app, axis_values_diff.
  replace (axis_values k (if expired now hw then expiry_effects w dp else []))
    with (@nil Z); [reflexivity|].
  destruct (expired now hw); [now rewrite axis_values_expiry|reflexivity].
Qed.

Lemma Sint16_lnot (a : Z) : -32768 <= a <= 32767 -> Sint16 (Z.lnot a) = - a - 1.
Proof.
  intros H. unfold Z.lnot, Z.pred. rewrite Sint16_id by lia. lia.
Qed.

(** X11: what a tick reports for the sticks.  An X axis (0 and 3) is
    reported with the decoded value.  A Y axis (1 and 4) is reported with
    the bitwise complement -value-1 of the decoded value, which stays a
    signed 16-bit value at both extremes (-32768 gives 32767, 32767 gives
    -32768).  Each is reported when the decoded value differs from the
    value stored for the axis. *)
Theorem stick_axes_reported (ok : nat -> list Z -> bool) (now : Z) (jp : nat) (w : world)
    (j : SDL_Joystick) (hw : joystick_hwdata) (dp : nat) (xpad : XINPUT_GAMEPAD) :
  joys w !! jp = Some j -> hwdata j = Some hw -> hdev hw = Some dp ->
  decoded w dp hw = (1, xpad) ->
  axis_values 0 (tick_effects ok now jp w)
    = (if sThumbLX xpad =? rd (axes j) 0 then [] else [sThumbLX xpad]) /\
  axis_values 3 (tick_effects ok now jp w)
    = (if sThumbRX xpad =? rd (axes j) 3 then [] else [sThumbRX xpad]) /\
  axis_values 1 (tick_effects ok now jp w)
    = (if sThumbLY xpad =? rd (axes j) 1 then [] else [- sThumbLY xpad - 1]) /\
  axis_values 4 (tick_effects ok now jp w)
    = (if sThumbRY xpad =? rd (axes j) 4 then [] else [- sThumbRY xpad - 1]) /\
  -32768 <= - sThumbLY xpad - 1 <= 32767 /\
  -32768 <= - sThumbRY xpad - 1 <= 32767.
Proof.
  intros Hj Hhw Hdp Hdec.
  destruct (decoded_in_range w dp hw xpad Hdec) as (_ & Hlx & Hly & Hrx & Hry).
  rewrite !(stick_values ok now jp w j hw dp xpad) by assumption.
  rewrite !axis_values_app, !axis_values_axis. cbn [Nat.eqb app].
  rewrite !app_nil_r.
  rewrite (Sint16_id _ Hlx), (Sint16_id _ Hrx), (Sint16_lnot _ Hly), (Sint16_lnot _ Hry).
  repeat split; lia.
Qed.

Lemma stick_axes_reported_witness :
  axis_values 0 (tick_effects always_ok 10 0 world_held) = [5] /\
  axis_values 1 (tick_effects always_ok 10 0 world_held) = [-8].
Proof.
  destruct (stick_axes_reported always_ok 10 0 world_held
              (joy_opened (mkHwdata (Some 0%nat) report_held [0; 0] 0))
              (mkHwdata (Some 0%nat) report_held [0; 0] 0) 0
              (decoded world_held 0 (mkHwdata (Some 0%nat) report_held [0; 0] 0)).2)
    as (H0 & _ & H1 & _); try reflexivity.
  split; [rewrite H0 | rewrite H1]; reflexivity.
Defined.

Lemma Sint16_low_bits (w n : Z) : 0 <= n < 16 -> Z.testbit (Sint16 w) n = Z.testbit w n.
Proof.
  intros Hn. unfold Sint16.
  replace ((w + 2 ^ 15) mod 2 ^ 16 - 2 ^ 15)
    with (w + (- ((w + 2 ^ 15) / 2 ^ 16)) * 2 ^ 16)
    by (pose proof (Z.div_mod (w + 2 ^ 15) (2 ^ 16)); lia).
  transitivity (Z.testbit ((w + (- ((w + 2 ^ 15) / 2 ^ 16)) * 2 ^ 16) mod 2 ^ 16) n).
  - symmetry. apply Z.mod_pow2_bits_low. lia.
  - rewrite Z_mod_plus_full. apply Z.mod_pow2_bits_low. lia.
Qed.

Lemma signed_word_bit (w b : Z) :
  0 <= b < 16 ->
  nonzero (Z.land (Sint16 w) (2 ^ b)) = Z.testbit w b /\
  (0 <? Z.land (Sint16 w) (2 ^ b)) = Z.testbit w b.
Proof.
  intros Hb.
  assert (E : Z.land (Sint16 w) (2 ^ b) = if Z.testbit w b then 2 ^ b else 0).
  { apply Z.bits_inj'. intros n Hn. rewrite Z.land_spec, Z.pow2_bits_eqb by lia.
    destruct (Z.eqb_spec b n) as [<-|Hne].
    - rewrite Sint16_low_bits by lia.
      destruct (Z.testbit w b); [|now rewrite Z.bits_0].
      rewrite Z.pow2_bits_eqb by lia. now rewrite Z.eqb_refl.
    - rewrite andb_false_r. destruct (Z.testbit w b); [|now rewrite Z.bits_0].
      rewrite Z.pow2_bits_eqb by lia. symmetry. now apply Z.eqb_neq. }
  rewrite E. unfold nonzero.
  assert (0 < 2 ^ b) by (apply Z.pow_pos_nonneg; lia).
  destruct (Z.testbit w b); split; try reflexivity.
  - destruct (Z.eqb_spec (2 ^ b) 0); [lia|reflexivity].
  - now apply Z.ltb_lt.
Qed.

Lemma button_event_bit (jp : nat) (w : Z) (st : list Z) (i : nat) (b : Z) :
  0 <= b < 16 ->
  button_event jp (Sint16 w) st (i, 2 ^ b)
  = if rd st i =? Z.b2z (Z.testbit w b) then []
    else [PrivateJoystickButton jp i (Z.b2z (Z.testbit w b))].
Proof.
  intros Hb. unfold button_event. cbn [fst snd].
  destruct (signed_word_bit w b Hb) as (-> & ->).
  now destruct (Z.testbit w b).
Qed.

Lemma button_values_app (k : nat) (l1 l2 : list effect) :
  button_values k (l1 ++ l2) = button_values k l1 ++ button_values k l2.
Proof. apply omap_app. Qed.

Lemma button_values_axis (k jp a : nat) (st : list Z) (raw value : Z) :
  button_values k (axis_event jp a st raw value) = [].
Proof. unfold axis_event. now destruct (_ =? _). Qed.

Lemma button_values_hat (k jp : nat) (st : list Z) (wB : Z) :
  button_values k (hat_event jp st wB) = [].
Proof. unfold hat_event. now destruct (_ =? _). Qed.

Lemma button_values_expiry (k : nat) (w : world) (dp : nat) :
  button_values k (expiry_effects w dp) = [].
Proof. unfold expiry_effects. now destruct (rumble_packet _ _ _). Qed.

Lemma button_values_tick (ok : nat -> list Z -> bool) (now : Z) (jp : nat) (w : world)
    (j : SDL_Joystick) (hw : joystick_hwdata) (dp : nat) (xpad : XINPUT_GAMEPAD)
    (k : nat) :
  joys w !! jp = Some j -> hwdata j = Some hw -> hdev hw = Some dp ->
  decoded w dp hw = (1, xpad) ->
  button_values k (tick_effects ok now jp w)
  = button_values k
      (flat_map (button_event jp (Sint16 (wButtons xpad)) (buttons j)) btn_map).
Proof.
  intros Hj Hhw Hdp Hdec.
  rewrite (tick_decoded ok now jp w j hw dp xpad) by assumption.
  unfold diff_events.
  rewrite !button_values_app, !button_values_axis, button_values_hat, !app_nil_r.
  replace (button_values k (if expired now hw then expiry_effects w dp else []))
    with (@nil Z); [reflexivity|].
  destruct (expired now hw); [now rewrite button_values_expiry|reflexivity].
Qed.

Lemma button_values_event (k jp i : nat) (w : Z) (st : list Z) (b : Z) :
  0 <= b < 16 ->
  button_values k (button_event jp (Sint16 w) st (i, 2 ^ b))
  = if Nat.eqb i k
    then (if rd st i =? Z.b2z (Z.testbit w b) then [] else [Z.b2z (Z.testbit w b)])
    else [].
Proof.
  intros Hb. rewrite button_event_bit by assumption.
  destruct (rd st i =? _); simpl; now destruct (Nat.eqb i k).
Qed.

(** X12: what a tick reports for the ten buttons.  Button k shows bit
    [button_bit k] of the canonical button word (A, B, X, Y from bits 12
    to 15, the shoulders from 8 and 9, back and start from 5 and 4, the
    thumb clicks from 6 and 7) and is reported with 1 or 0 exactly when
    the stored state of the button differs from that bit.  This holds for
    Y as well, whose bit 15 is the sign bit of the source's signed copy
    of the word. *)
Theorem buttons_reported (ok : nat -> list Z -> bool) (now : Z) (jp : nat) (w : world)
    (j : SDL_Joystick) (hw : joystick_hwdata) (dp : nat) (xpad : XINPUT_GAMEPAD)
    (k : nat) :
  joys w !! jp = Some j -> hwdata j = Some hw -> hdev hw = Some dp ->
  decoded w dp hw = (1, xpad) ->
  (k < 10)%nat ->
  button_values k (tick_effects ok now jp w)
  = if rd (buttons j) k =? Z.b2z (Z.testbit (wButtons xpad) (button_bit k)) then []
    else [Z.b2z (Z.testbit (wButtons xpad) (button_bit k))].
Proof.
  intros Hj Hhw Hdp Hdec Hk.
  rewrite (button_values_tick ok now jp w j hw dp xpad) by assumption.
  unfold btn_map. cbn [flat_map].
  change XINPUT_GAMEPAD_A with (2 ^ 12). change XINPUT_GAMEPAD_B with (2 ^ 13).
  change XINPUT_GAMEPAD_X with (2 ^ 14). change XINPUT_GAMEPAD_Y with (2 ^ 15).
  change XINPUT_GAMEPAD_LEFT_SHOULDER with (2 ^ 8).
  change XINPUT_GAMEPAD_RIGHT_SHOULDER with (2 ^ 9).
  change XINPUT_GAMEPAD_BACK with (2 ^ 5). change XINPUT_GAMEPAD_START with (2 ^ 4).
  change XINPUT_GAMEPAD_LEFT_THUMB with (2 ^ 6).
  change XINPUT_GAMEPAD_RIGHT_THUMB with (2 ^ 7).
  rewrite !button_values_app, !button_values_event by lia.
  do 10 (destruct k as [|k]; [cbn [Nat.eqb button_bit app]; now rewrite ?app_nil_r|]).
  lia.
Qed.

Lemma buttons_reported_witness :
  button_values 0 (tick_effects always_ok 10 0 world_held) = [1] /\
  button_values 3 (tick_effects always_ok 10 0 world_held) = [].
Proof.
  split.
  - rewrite (buttons_reported always_ok 10 0 world_held
               (joy_opened (mkHwdata (Some 0%nat) report_held [0; 0] 0))
               (mkHwdata (Some 0%nat) report_held [0; 0] 0) 0
               (decoded world_held 0 (mkHwdata (Some 0%nat) report_held [0; 0] 0)).2 0);
      try reflexivity. lia.
  - rewrite (buttons_reported always_ok 10 0 world_held
               (joy_opened (mkHwdata (Some 0%nat) report_held [0; 0] 0))
               (mkHwdata (Some 0%nat) report_held [0; 0] 0) 0
               (decoded world_held 0 (mkHwdata (Some 0%nat) report_held [0; 0] 0)).2 3);
      try reflexivity. lia.
Defined.

Lemma dpad_hat_bits (w : Z) :
  dpad_hat (Sint16 w)
  = Z.b2z (Z.testbit w 0) + 4 * Z.b2z (Z.testbit w 1)
    + 8 * Z.b2z (Z.testbit w 2) + 2 * Z.b2z (Z.testbit w 3).
Proof.
  unfold dpad_hat.
  change XINPUT_GAMEPAD_DPAD_UP with (2 ^ 0). change XINPUT_GAMEPAD_DPAD_DOWN with (2 ^ 1).
  change XINPUT_GAMEPAD_DPAD_LEFT with (2 ^ 2). change XINPUT_GAMEPAD_DPAD_RIGHT with (2 ^ 3).
  destruct (signed_word_bit w 0) as (-> & _); [lia|].
  destruct (signed_word_bit w 1) as (-> & _); [lia|].
  destruct (signed_word_bit w 2) as (-> & _); [lia|].
  destruct (signed_word_bit w 3) as (-> & _); [lia|].
  now destruct (Z.testbit w 0), (Z.testbit w 1), (Z.testbit w 2), (Z.testbit w 3).
Qed.

Lemma hat_values_app (k : nat) (l1 l2 : list effect) :
  hat_values k (l1 ++ l2) = hat_values k l1 ++ hat_values k l2.
Proof. apply omap_app. Qed.

Lemma hat_values_axis (k jp a : nat) (st : list Z) (raw value : Z) :
  hat_values k (axis_event jp a st raw value) = [].
Proof. unfold axis_event. now destruct (_ =? _). Qed.

Lemma hat_values_buttons (k jp : nat) (wB : Z) (st : list Z) (l : list (nat * Z)) :
  hat_values k (flat_map (button_event jp wB st) l) = [].
Proof.
  induction l as [|b l IH]; [reflexivity|].
  simpl. rewrite hat_values_app, IH, app_nil_r.
  unfold button_event. now destruct (_ =? _).
Qed.

Lemma hat_values_expiry (k : nat) (w : world) (dp : nat) :
  hat_values k (expiry_effects w dp) = [].
Proof. unfold expiry_effects. now destruct (rumble_packet _ _ _). Qed.

(** X13: what a tick reports for the hat.  The position is the sum of
    1 for dpad up (bit 0 of the canonical button word), 4 for down
    (bit 1), 8 for left (bit 2) and 2 for right (bit 3), a value from 0
    to 15, and it is reported exactly when it differs from the stored
    position of hat 0; opposite directions held together are passed on
    as they are. *)
Theorem hat_reported (ok : nat -> list Z -> bool) (now : Z) (jp : nat) (w : world)
    (j : SDL_Joystick) (hw : joystick_hwdata) (dp : nat) (xpad : XINPUT_GAMEPAD) :
  joys w !! jp = Some j -> hwdata j = Some hw -> hdev hw = Some dp ->
  decoded w dp hw = (1, xpad) ->
  hat_values 0 (tick_effects ok now jp w)
    = (if Z.b2z (Z.testbit (wButtons xpad) 0) + 4 * Z.b2z (Z.testbit (wButtons xpad) 1)
          + 8 * Z.b2z (Z.testbit (wButtons xpad) 2)
          + 2 * Z.b2z (Z.testbit (wButtons xpad) 3) =? rd (hats j) 0
       then []
       else [Z.b2z (Z.testbit (wButtons xpad) 0) + 4 * Z.b2z (Z.testbit (wButtons xpad) 1)
             + 8 * Z.b2z (Z.testbit (wButtons xpad) 2)
             + 2 * Z.b2z (Z.testbit (wButtons xpad) 3)]) /\
  0 <= Z.b2z (Z.testbit (wButtons xpad) 0) + 4 * Z.b2z (Z.testbit (wButtons xpad) 1)
       + 8 * Z.b2z (Z.testbit (wButtons xpad) 2)
       + 2 * Z.b2z (Z.testbit (wButtons xpad) 3) <= 15.
Proof.
  intros Hj Hhw Hdp Hdec.
  assert (Hr : 0 <= Z.b2z (Z.testbit (wButtons xpad) 0)
                    + 4 * Z.b2z (Z.testbit (wButtons xpad) 1)
                    + 8 * Z.b2z (Z.testbit (wButtons xpad) 2)
                    + 2 * Z.b2z (Z.testbit (wButtons xpad) 3) <= 15).
  { destruct (Z.testbit (wButtons xpad) 0), (Z.testbit (wButtons xpad) 1),
      (Z.testbit (wButtons xpad) 2), (Z.testbit (wButtons xpad) 3); simpl; lia. }
  split; [|exact Hr].
  rewrite (tick_decoded ok now jp w j hw dp xpad) by assumption.
  unfold diff_events.
  rewrite !hat_values_app, !hat_values_axis, hat_values_buttons, !app_nil_r.
  replace (hat_values 0 (if expired now hw then expiry_effects w dp else []))
    with (@nil Z)
    by (destruct (expired now hw); [now rewrite hat_values_expiry|reflexivity]).
  unfold hat_event. rewrite dpad_hat_bits, Uint8_id by (clear -Hr; lia). cbn [app].
  now destruct (_ =? _).
Qed.

Lemma hat_reported_witness :
  hat_values 0 (tick_effects always_ok 10 0 world_held) = [1].
Proof.
  destruct (hat_reported always_ok 10 0 world_held
              (joy_opened (mkHwdata (Some 0%nat) report_held [0; 0] 0))
              (mkHwdata (Some 0%nat) report_held [0; 0] 0) 0
              (decoded world_held 0 (mkHwdata (Some 0%nat) report_held [0; 0] 0)).2)
    as (H & _); [reflexivity | reflexivity | reflexivity | reflexivity |].
  rewrite H. reflexivity.
Defined.

(** ** Rumble requests with new magnitudes *)

Lemma upd_joy_slot (jp : nat) (f : joystick_hwdata -> joystick_hwdata) (w : world)
    (j : SDL_Joystick) (hw : joystick_hwdata) :
  joys w !! jp = Some j -> hwdata j = Some hw ->
  upd_joy jp (upd_hwdata f) w
  = mkWorld (devs w) (<[jp := set_hwdata (Some (f hw)) j]> (joys w)) (trace w).
Proof.
  intros Hj Hhw. unfold upd_joy. f_equal.
  apply list_eq. intros i. destruct (decide (i = jp)) as [->|Hne].
  - rewrite list_lookup_alter_eq, Hj.
    rewrite list_lookup_insert_eq by (now apply lookup_lt_Some with j).
    cbn. unfold upd_hwdata. now rewrite Hhw.
  - now rewrite list_lookup_alter_ne, list_lookup_insert_ne by congruence.
Qed.

Lemma rumble_new (ok : nat -> list Z -> bool) (now : Z) (jp : nat)
    (low high duration_ms : Z) (w : world) (j : SDL_Joystick) (hw : joystick_hwdata)
    (dp : nat) :
  joys w !! jp = Some j -> hwdata j = Some hw -> hdev hw = Some dp ->
  (rd (current_rumble hw) 0 =? low) && (rd (current_rumble hw) 1 =? high) = false ->
  0 <= low < 65536 -> 0 <= high < 65536 ->
  SDL_XBOX_JoystickRumble ok now jp low high duration_ms w
  = match rumble_packet (dev_type w dp) low high with
    | None => (-1, w)
    | Some p =>
      if ok dp p
      then (0, mkWorld (devs w)
                 (<[jp := set_hwdata
                            (Some (mkHwdata (hdev hw) (raw_data hw)
                                     (<[1%nat := high]> (<[0%nat := low]> (current_rumble hw)))
                                     (Uint32 (now + duration_ms)))) j]> (joys w))
                 (trace w ++ [hid_int_write dp 0 p]))
      else (-1, emit (hid_int_write dp 0 p) w)
    end.
Proof.
  intros Hj Hhw Hdp Hnew Hl Hh.
  unfold SDL_XBOX_JoystickRumble. rewrite Hj. cbn [mbind option_bind].
  rewrite Hhw, Hnew, Hdp, xboxjoy_rumble_spec by assumption.
  unfold rumble_result. destruct (rumble_packet _ _ _) as [p|]; [|reflexivity].
  destruct (ok dp p); [|reflexivity].
  change (0 =? -1) with false. cbv iota. f_equal.
  rewrite (upd_joy_slot jp _ (emit (hid_int_write dp 0 p) w) j hw) by assumption.
  erewrite upd_joy_slot;
    [| cbn [joys]; apply list_lookup_insert_eq; now apply lookup_lt_Some with j
     | reflexivity].
  cbn [devs joys trace]. rewrite list_insert_insert_eq.
  unfold set_rumble_expiry, set_current_rumble, set_hwdata, emit.
  cbn [devs joys trace hdev raw_data current_rumble rumble_expiry
       player_index guid naxes nballs nhats nbuttons axes hats buttons hwdata].
  now rewrite Hdp.
Qed.

(** X14: a rumble request with magnitudes that differ from the stored
    pair, on a device of a gamepad family whose transport accepts the
    write, answers 0, writes exactly the packet of the family for
    (low, high), stores the pair and sets the expiry to now + duration
    (as a Uint32); the devices, the buffer and the other joysticks stay. *)
Theorem new_rumble_accepted (ok : nat -> list Z -> bool) (now : Z) (jp : nat)
    (low high duration_ms : Z) (w : world) (j : SDL_Joystick) (hw : joystick_hwdata)
    (dp : nat) (p : list Z) :
  joys w !! jp = Some j -> hwdata j = Some hw -> hdev hw = Some dp ->
  length (current_rumble hw) = 2%nat ->
  (rd (current_rumble hw) 0 =? low) && (rd (current_rumble hw) 1 =? high) = false ->
  0 <= low < 65536 -> 0 <= high < 65536 ->
  rumble_packet (dev_type w dp) low high = Some p -> ok dp p = true ->
  SDL_XBOX_JoystickRumble ok now jp low high duration_ms w
  = (0, mkWorld (devs w)
          (<[jp := set_hwdata
                     (Some (mkHwdata (hdev hw) (raw_data hw) [low; high]
                                     (Uint32 (now + duration_ms)))) j]> (joys w))
          (trace w ++ [hid_int_write dp 0 p])).
Proof.
  intros Hj Hhw Hdp Hlen Hnew Hl Hh Hp Hok.
  rewrite (rumble_new ok now jp low high duration_ms w j hw dp) by assumption.
  rewrite Hp, Hok.
  destruct (current_rumble hw) as [|a [|b [|c l]]]; try discriminate.
  reflexivity.
Qed.

Lemma new_rumble_accepted_witness :
  SDL_XBOX_JoystickRumble always_ok 500 0 0x1234 0xABCD 250 world_held
  = (0, mkWorld [pad XBOX360_WIRED]
          [joy_opened (mkHwdata (Some 0%nat) report_held [0x1234; 0xABCD] 750)]
          [hid_int_write 0 0 [0x00; 0x08; 0x00; 0x12; 0xAB; 0x00; 0x00; 0x00]]).
Proof.
  rewrite (new_rumble_accepted always_ok 500 0 0x1234 0xABCD 250 world_held
             (joy_opened (mkHwdata (Some 0%nat) report_held [0; 0] 0))
             (mkHwdata (Some 0%nat) report_held [0; 0] 0) 0
             [0x00; 0x08; 0x00; 0x12; 0xAB; 0x00; 0x00; 0x00]);
    try reflexivity; lia.
Defined.

(** X15: a rumble request that fails changes no joystick and no device.
    When the transport refuses the write the request answers -1 and the
    attempted packet is all it leaves, in the trace; on a device of no
    gamepad family it answers -1 and leaves nothing.  The stored pair
    and the expiry are as before. *)
Theorem failed_rumble_keeps_slot (ok : nat -> list Z -> bool) (now : Z) (jp : nat)
    (low high duration_ms : Z) (w : world) (j : SDL_Joystick) (hw : joystick_hwdata)
    (dp : nat) :
  joys w !! jp = Some j -> hwdata j = Some hw -> hdev hw = Some dp ->
  (rd (current_rumble hw) 0 =? low) && (rd (current_rumble hw) 1 =? high) = false ->
  0 <= low < 65536 -> 0 <= high < 65536 ->
  (forall p, rumble_packet (dev_type w dp) low high = Some p -> ok dp p = false) ->
  (SDL_XBOX_JoystickRumble ok now jp low high duration_ms w).1 = -1 /\
  joys (SDL_XBOX_JoystickRumble ok now jp low high duration_ms w).2 = joys w /\
  devs (SDL_XBOX_JoystickRumble ok now jp low high duration_ms w).2 = devs w /\
  trace (SDL_XBOX_JoystickRumble ok now jp low high duration_ms w).2
    = trace w ++ match rumble_packet (dev_type w dp) low high with
                 | None => []
                 | Some p => [hid_int_write dp 0 p]
                 end.
Proof.
  intros Hj Hhw Hdp Hnew Hl Hh Hok.
  rewrite (rumble_new ok now jp low high duration_ms w j hw dp) by assumption.
  destruct (rumble_packet _ _ _) as [p|]; [|cbn; now rewrite app_nil_r].
  now rewrite (Hok p eq_refl).
Qed.

Lemma failed_rumble_keeps_slot_witness :
  SDL_XBOX_JoystickRumble (fun _ _ => false) 500 0 0x1234 0xABCD 250 world_held
  = (-1, mkWorld (devs world_held) (joys world_held)
           [hid_int_write 0 0 [0x00; 0x08; 0x00; 0x12; 0xAB; 0x00; 0x00; 0x00]]).
Proof.
  destruct (failed_rumble_keeps_slot (fun _ _ => false) 500 0 0x1234 0xABCD 250 world_held
              (joy_opened (mkHwdata (Some 0%nat) report_held [0; 0] 0))
              (mkHwdata (Some 0%nat) report_held [0; 0] 0) 0)
    as (H & _); [reflexivity | reflexivity | reflexivity | reflexivity | lia | lia | |].
  - intros p _. reflexivity.
  - reflexivity.
Defined.

(** ** Rumble from request to expiry *)

Lemma writes_app (l1 l2 : list effect) : writes (l1 ++ l2) = writes l1 ++ writes l2.
Proof. apply omap_app. Qed.

Lemma writes_diff (jp : nat) (j : SDL_Joystick) (xpad : XINPUT_GAMEPAD) :
  writes (diff_events jp j xpad) = [].
Proof.
  unfold diff_events, hat_event, axis_event.
  rewrite !writes_app.
  assert (Hb : forall l, writes (flat_map (button_event jp (Sint16 (wButtons xpad))
                                             (buttons j)) l) = []).
  { induction l as [|b l IH]; [reflexivity|]. simpl.
    rewrite writes_app, IH, app_nil_r. unfold button_event. now destruct (_ =? _). }
  rewrite Hb.
  repeat match goal with |- context [if ?c then _ else _] => destruct c end;
    reflexivity.
Qed.

Lemma writes_expiry (w : world) (dp : nat) :
  writes (expiry_effects w dp) = map (fun p => (dp, p)) (stop_packet (dev_type w dp)).
Proof.
  unfold expiry_effects, stop_packet. now destruct (rumble_packet _ _ _).
Qed.

Lemma tick_writes (ok : nat -> list Z -> bool) (t : Z) (jp : nat) (w : world)
    (j : SDL_Joystick) (hw : joystick_hwdata) (dp : nat) :
  joys w !! jp = Some j -> hwdata j = Some hw -> hdev hw = Some dp ->
  writes (tick_effects ok t jp w)
  = if expired t hw then map (fun p => (dp, p)) (stop_packet (dev_type w dp)) else [].
Proof.
  intros Hj Hhw Hdp. rewrite tick_effects_spec. unfold tick_spec.
  rewrite Hj, Hhw, Hdp, writes_app.
  replace (writes (if nonzero (decoded w dp hw).1
                   then diff_events jp j (decoded w dp hw).2 else []))
    with (@nil (nat * list Z))
    by (destruct (nonzero _); [now rewrite writes_diff|reflexivity]).
  rewrite app_nil_r. destruct (expired t hw); [apply writes_expiry|reflexivity].
Qed.

Lemma update_devs (ok : nat -> list Z -> bool) (t : Z) (jp : nat) (w : world) :
  devs (SDL_XBOX_JoystickUpdate ok t (Some jp) w) = devs w.
Proof.
  unfold SDL_XBOX_JoystickUpdate.
  destruct (joys w !! jp) as [j|]; [|reflexivity].
  destruct (hwdata j) as [hw|]; [|reflexivity].
  destruct (hdev hw) as [dp|]; [|reflexivity].
  destruct (nonzero (rumble_expiry hw) && (rumble_expiry hw <? t)).
  - rewrite xboxjoy_rumble_spec by lia.
    destruct (rumble_result_frame ok dp 0 0 w) as (Hd & _).
    destruct (xboxjoy_parse_input_data _ _ _) as [ret xpad].
    destruct (nonzero ret); [destruct (update_inputs _ _ _)|]; exact Hd.
  - destruct (xboxjoy_parse_input_data _ _ _) as [ret xpad].
    destruct (nonzero ret); [destruct (update_inputs _ _ _)|]; reflexivity.
Qed.

Lemma slot_of_bind (l : list SDL_Joystick) (jp : nat) (hw : joystick_hwdata) :
  l !! jp ≫= hwdata = Some hw -> exists j, l !! jp = Some j /\ hwdata j = Some hw.
Proof.
  destruct (l !! jp) as [j|]; [|discriminate]. cbn. intros H. now exists j.
Qed.

(** The writes of ticks on a slot whose expiry is [e] and whose device
    is [dp], in any world that holds such a slot. *)
Lemma slot_tick_writes (ok : nat -> list Z -> bool) (jp : nat) (w : world)
    (j : SDL_Joystick) (hw : joystick_hwdata) (dp : nat) :
  joys w !! jp = Some j -> hwdata j = Some hw -> hdev hw = Some dp ->
  (forall t, t <= rumble_expiry hw -> writes (tick_effects ok t jp w) = []) /\
  (rumble_expiry hw = 0 -> forall t, writes (tick_effects ok t jp w) = []) /\
  (rumble_expiry hw <> 0 -> forall t, rumble_expiry hw < t ->
     writes (tick_effects ok t jp w)
       = map (fun p => (dp, p)) (stop_packet (dev_type w dp)) /\
     forall t', writes (tick_effects ok t' jp (SDL_XBOX_JoystickUpdate ok t (Some jp) w))
                = []).
Proof.
  intros Hj Hhw Hdp. split; [|split].
  - intros t Ht. rewrite (tick_writes ok t jp w j hw dp) by assumption.
    unfold expired. replace (rumble_expiry hw <? t) with false
      by (symmetry; apply Z.ltb_ge; lia).
    now rewrite andb_false_r.
  - intros He t. rewrite (tick_writes ok t jp w j hw dp) by assumption.
    unfold expired. now rewrite He.
  - intros He t Ht.
    assert (Hex : expired t hw = true).
    { unfold expired, nonzero.
      destruct (Z.eqb_spec (rumble_expiry hw) 0); [congruence|].
      now apply Z.ltb_lt. }
    split.
    + rewrite (tick_writes ok t jp w j hw dp) by assumption. now rewrite Hex.
    + intros t'.
      pose proof (update_slot ok t jp w j hw dp Hj Hhw Hdp) as Hs.
      rewrite Hex in Hs.
      destruct (slot_of_bind _ _ _ Hs) as (j' & Hj' & Hhw').
      rewrite (tick_writes ok t' jp _ j' (set_rumble_expiry 0 hw) dp) by assumption.
      reflexivity.
Qed.

Lemma accepted_slot (ok : nat -> list Z -> bool) (now : Z) (jp : nat)
    (low high duration_ms : Z) (w : world) (j : SDL_Joystick) (hw : joystick_hwdata)
    (dp : nat) (p : list Z) :
  joys w !! jp = Some j -> hwdata j = Some hw -> hdev hw = Some dp ->
  length (current_rumble hw) = 2%nat ->
  (rd (current_rumble hw) 0 =? low) && (rd (current_rumble hw) 1 =? high) = false ->
  0 <= low < 65536 -> 0 <= high < 65536 ->
  rumble_packet (dev_type w dp) low high = Some p -> ok dp p = true ->
  exists j1 hw1,
    joys (SDL_XBOX_JoystickRumble ok now jp low high duration_ms w).2 !! jp = Some j1 /\
    hwdata j1 = Some hw1 /\ hdev hw1 = Some dp /\
    rumble_expiry hw1 = Uint32 (now + duration_ms) /\
    dev_type (SDL_XBOX_JoystickRumble ok now jp low high duration_ms w).2 dp
      = dev_type w dp.
Proof.
  intros Hj Hhw Hdp Hlen Hnew Hl Hh Hp Hok.
  rewrite (rumble_new ok now jp low high duration_ms w j hw dp) by assumption.
  rewrite Hp, Hok. cbn [snd joys].
  eexists _, _. split; [apply list_lookup_insert_eq; now apply lookup_lt_Some with j|].
  cbn. auto.
Qed.

Lemma stop_packet_one (t : hid_type) (low high : Z) (p : list Z) :
  rumble_packet t low high = Some p -> length (stop_packet t) = 1%nat.
Proof. unfold stop_packet. destruct t; try discriminate; reflexivity. Qed.

(** X16: from request to expiry.  After an accepted request with new
    magnitudes whose expiry e = (now + duration) mod 2^32 is not 0, a
    tick at a time up to e writes nothing to the device; a tick after e
    writes the one zero-magnitude packet of the family, and every tick
    after that one writes nothing: the rumble is stopped once. *)
Theorem rumble_stopped_once (ok : nat -> list Z -> bool) (now : Z) (jp : nat)
    (low high duration_ms : Z) (w : world) (j : SDL_Joystick) (hw : joystick_hwdata)
    (dp : nat) (p : list Z) :
  joys w !! jp = Some j -> hwdata j = Some hw -> hdev hw = Some dp ->
  length (current_rumble hw) = 2%nat ->
  (rd (current_rumble hw) 0 =? low) && (rd (current_rumble hw) 1 =? high) = false ->
  0 <= low < 65536 -> 0 <= high < 65536 ->
  rumble_packet (dev_type w dp) low high = Some p -> ok dp p = true ->
  Uint32 (now + duration_ms) <> 0 ->
  length (stop_packet (dev_type w dp)) = 1%nat /\
  (forall t, t <= Uint32 (now + duration_ms) ->
     writes (tick_effects ok t jp
               (SDL_XBOX_JoystickRumble ok now jp low high duration_ms w).2) = []) /\
  (forall t, Uint32 (now + duration_ms) < t ->
     writes (tick_effects ok t jp
               (SDL_XBOX_JoystickRumble ok now jp low high duration_ms w).2)
       = map (fun p => (dp, p)) (stop_packet (dev_type w dp)) /\
     forall t',
       writes (tick_effects ok t' jp
                 (SDL_XBOX_JoystickUpdate ok t (Some jp)
                    (SDL_XBOX_JoystickRumble ok now jp low high duration_ms w).2)) = []).
Proof.
  intros Hj Hhw Hdp Hlen Hnew Hl Hh Hp Hok He.
  destruct (accepted_slot ok now jp low high duration_ms w j hw dp p)
    as (j1 & hw1 & Hj1 & Hhw1 & Hdp1 & He1 & Ht1); try assumption.
  destruct (slot_tick_writes ok jp _ j1 hw1 dp Hj1 Hhw1 Hdp1) as (Hbefore & _ & Hafter).
  rewrite He1, Ht1 in *.
  split; [now apply stop_packet_one with low high p|].
  split; [exact Hbefore|]. intros t Ht. now apply Hafter.
Qed.

Lemma rumble_stopped_once_witness :
  writes (tick_effects always_ok 750 0
            (SDL_XBOX_JoystickRumble always_ok 500 0 0x1234 0xABCD 250 world_held).2) = [] /\
  writes (tick_effects always_ok 751 0
            (SDL_XBOX_JoystickRumble always_ok 500 0 0x1234 0xABCD 250 world_held).2)
    = [(0%nat, [0x00; 0x08; 0x00; 0x00; 0x00; 0x00; 0x00; 0x00])].
Proof.
  destruct (rumble_stopped_once always_ok 500 0 0x1234 0xABCD 250 world_held
              (joy_opened (mkHwdata (Some 0%nat) report_held [0; 0] 0))
              (mkHwdata (Some 0%nat) report_held [0; 0] 0) 0
              [0x00; 0x08; 0x00; 0x12; 0xAB; 0x00; 0x00; 0x00])
    as (_ & Hb & Ha);
    [reflexivity | reflexivity | reflexivity | reflexivity | reflexivity
     | lia | lia | reflexivity | reflexivity | vm_compute; discriminate |].
  split.
  - apply Hb. vm_compute. discriminate.
  - destruct (Ha 751) as (H & _); [vm_compute; reflexivity|]. rewrite H. reflexivity.
Defined.

(** X17: the expiry at the wrap of the tick counter.  When now +
    duration is a multiple of 2^32 the stored expiry is 0, which reads as
    no timer: no tick at any time stops the rumble.  When now + duration
    passes 2^32 by a nonzero amount (duration below 2^32) the stored
    expiry lies before now, and the first tick at a time from now on
    stops the rumble at once. *)
Theorem rumble_expiry_wraps (ok : nat -> list Z -> bool) (now : Z) (jp : nat)
    (low high duration_ms : Z) (w : world) (j : SDL_Joystick) (hw : joystick_hwdata)
    (dp : nat) (p : list Z) :
  joys w !! jp = Some j -> hwdata j = Some hw -> hdev hw = Some dp ->
  length (current_rumble hw) = 2%nat ->
  (rd (current_rumble hw) 0 =? low) && (rd (current_rumble hw) 1 =? high) = false ->
  0 <= low < 65536 -> 0 <= high < 65536 ->
  rumble_packet (dev_type w dp) low high = Some p -> ok dp p = true ->
  0 <= now < 2 ^ 32 -> 0 <= duration_ms < 2 ^ 32 -> 2 ^ 32 <= now + duration_ms ->
  (now + duration_ms = 2 ^ 32 ->
     forall t,
       writes (tick_effects ok t jp
                 (SDL_XBOX_JoystickRumble ok now jp low high duration_ms w).2) = []) /\
  (2 ^ 32 < now + duration_ms ->
     forall t, now <= t ->
       writes (tick_effects ok t jp
                 (SDL_XBOX_JoystickRumble ok now jp low high duration_ms w).2)
       = map (fun p => (dp, p)) (stop_packet (dev_type w dp))).
Proof.
  intros Hj Hhw Hdp Hlen Hnew Hl Hh Hp Hok Hnow Hdur Hwrap.
  destruct (accepted_slot ok now jp low high duration_ms w j hw dp p)
    as (j1 & hw1 & Hj1 & Hhw1 & Hdp1 & He1 & Ht1); try assumption.
  destruct (slot_tick_writes ok jp _ j1 hw1 dp Hj1 Hhw1 Hdp1) as (_ & Hzero & Hafter).
  rewrite He1, Ht1 in *.
  assert (Hu : Uint32 (now + duration_ms) = now + duration_ms - 2 ^ 32).
  { unfold Uint32.
    replace (now + duration_ms) with ((now + duration_ms - 2 ^ 32) + 1 * 2 ^ 32) at 1 by lia.
    rewrite Z_mod_plus_full. apply Z.mod_small. lia. }
  split.
  - intros Heq. apply Hzero. rewrite Hu. lia.
  - intros Hgt t Ht. apply Hafter; rewrite Hu; lia.
Qed.

Lemma rumble_expiry_wraps_witness :
  writes (tick_effects always_ok 4294967295 0
            (SDL_XBOX_JoystickRumble always_ok 4294967290 0 0x1234 0xABCD 6 world_held).2)
  = [].
Proof.
  destruct (rumble_expiry_wraps always_ok 4294967290 0 0x1234 0xABCD 6 world_held
              (joy_opened (mkHwdata (Some 0%nat) report_held [0; 0] 0))
              (mkHwdata (Some 0%nat) report_held [0; 0] 0) 0
              [0x00; 0x08; 0x00; 0x12; 0xAB; 0x00; 0x00; 0x00])
    as (Hz & _);
    [reflexivity | reflexivity | reflexivity | reflexivity | reflexivity
     | lia | lia | reflexivity | reflexivity | lia | lia | lia |].
  apply Hz. lia.
Defined.

(** ** Opening a device *)

Lemma alter_as_insert {A : Type} (f : A -> A) (l : list A) (i : nat) (x : A) :
  l !! i = Some x -> alter f i l = <[i := f x]> l.
Proof.
  intros H. apply list_eq. intros k. destruct (decide (k = i)) as [->|Hne].
  - rewrite list_lookup_alter_eq, H.
    now rewrite list_lookup_insert_eq by (now apply lookup_lt_Some with x).
  - now rewrite list_lookup_alter_ne, list_lookup_insert_ne by congruence.
Qed.

Lemma alter_after_insert {A : Type} (f : A -> A) (l : list A) (i : nat) (y : A) :
  (i < length l)%nat -> alter f i (<[i := y]> l) = <[i := f y]> l.
Proof.
  intros H. rewrite (alter_as_insert f _ i y) by now apply list_lookup_insert_eq.
  apply list_insert_insert_eq.
Qed.

Lemma hdev_scan_types (l l' : list HID_DEV_T) (p : nat) (i device_index : Z) :
  type <$> l = type <$> l' ->
  hdev_scan l p i device_index = hdev_scan l' p i device_index.
Proof.
  revert l' p i. induction l as [|d l IH]; intros [|d' l'] p i H; try discriminate;
    [reflexivity|].
  rewrite !fmap_cons in H. injection H as Ht Hl. simpl. rewrite Ht.
  rewrite (IH l' (S p) (i + 1) Hl), (IH l' (S p) i Hl). reflexivity.
Qed.

Lemma insert_same_type (l : list HID_DEV_T) (p : nat) (d d' : HID_DEV_T) :
  l !! p = Some d -> type d' = type d -> type <$> <[p := d']> l = type <$> l.
Proof.
  intros Hp Ht. apply list_eq. intros k. rewrite !list_lookup_fmap.
  destruct (decide (k = p)) as [->|Hne].
  - rewrite list_lookup_insert_eq by (now apply lookup_lt_Some with d).
    rewrite Hp. cbn. now rewrite Ht.
  - now rewrite list_lookup_insert_ne by congruence.
Qed.

Lemma resolve_same_types (ndebug : bool) (device_index : Z) (w w' : world) :
  type <$> devs w' = type <$> devs w ->
  hdev_from_device_index ndebug device_index w'
  = hdev_from_device_index ndebug device_index w.
Proof.
  intros H. unfold hdev_from_device_index.
  now rewrite (hdev_scan_types (devs w') (devs w)).
Qed.

(** The GUID the driver computes for a device record. *)
Lemma guid_of_device (ndebug : bool) (device_index : Z) (w : world) (p : nat)
    (d : HID_DEV_T) :
  hdev_from_device_index ndebug device_index w = Ret (Some p) ->
  devs w !! p = Some d ->
  SDL_XBOX_JoystickGetDeviceGUID ndebug device_index w
  = Ret (<[9%nat := Uint8 (Z.land (Z.shiftr (idProduct d) 8) 0xFF)]>
          (<[8%nat := Uint8 (Z.land (idProduct d) 0xFF)]>
            (<[5%nat := Uint8 (Z.land (Z.shiftr (idVendor d) 8) 0xFF)]>
              (<[4%nat := Uint8 (Z.land (idVendor d) 0xFF)]>
                (<[0%nat := 0x03]> (replicate 16 0)))))).
Proof.
  intros Hr Hp. unfold SDL_XBOX_JoystickGetDeviceGUID.
  rewrite Hr. cbn [mbind outcome_bind option_bind]. now rewrite Hp.
Qed.

Lemma open_resolved (ndebug : bool) (joystick : nat) (device_index : Z) (w : world)
    (j : SDL_Joystick) (p : nat) (d : HID_DEV_T) (g : list Z) :
  hdev_from_device_index ndebug device_index w = Ret (Some p) ->
  devs w !! p = Some d -> is_gamepad (type d) = true ->
  joys w !! joystick = Some j ->
  SDL_XBOX_JoystickGetDeviceGUID ndebug device_index w = Ret g ->
  SDL_XBOX_JoystickOpen ndebug joystick device_index w
  = Ret (0, mkWorld
              (<[p := mkHID (uid d) (type d) (idVendor d) (idProduct d)
                            (Some joystick) true]> (devs w))
              (<[joystick := mkJoystick device_index g 6 0 1 10
                               (axes j) (hats j) (buttons j)
                               (Some (mkHwdata (Some p) (replicate 32 0) [0; 0] 0))]>
                 (joys w))
              (trace w ++ [malloc_hwdata joystick; hid_start_int_read p 0])).
Proof.
  intros Hr Hp Hd Hj Hg.
  assert (Hpl : (p < length (devs w))%nat) by now apply lookup_lt_Some with d.
  assert (Hjl : (joystick < length (joys w))%nat) by now apply lookup_lt_Some with j.
  rewrite (guid_of_device ndebug device_index w p d Hr Hp) in Hg. injection Hg as <-.
  unfold SDL_XBOX_JoystickOpen. rewrite Hr. cbn [mbind outcome_bind].
  unfold upd_joy, upd_dev, emit. cbn [devs joys trace].
  rewrite (alter_as_insert _ (joys w) joystick j Hj).
  rewrite (alter_as_insert _ (devs w) p d Hp).
  set (d1 := set_user_data (Some joystick) d).
  set (j1 := set_hwdata _ j).
  assert (Hty : type <$> <[p := d1]> (devs w) = type <$> devs w)
    by now apply insert_same_type with d.
  assert (Hr1 : forall js tr,
             hdev_from_device_index ndebug device_index
               (mkWorld (<[p := d1]> (devs w)) js tr) = Ret (Some p)).
  { intros js tr. rewrite <- Hr. now apply resolve_same_types. }
  unfold SDL_XBOX_JoystickGetDevicePlayerIndex. rewrite Hr1.
  cbn [mbind outcome_bind devs joys trace].
  rewrite alter_after_insert by assumption.
  rewrite (guid_of_device ndebug device_index _ p d1 (Hr1 _ _))
    by (cbn [devs]; now apply list_lookup_insert_eq).
  cbn [mbind outcome_bind devs joys trace].
  rewrite alter_after_insert by assumption.
  unfold dev_type. cbn [devs]. rewrite list_lookup_insert_eq by assumption.
  cbn [fmap option_fmap option_map default]. subst d1.
  unfold usbh_hid_start_int_read, upd_joy, upd_dev, emit. cbn [devs joys trace].
  rewrite !alter_after_insert by assumption. rewrite <- !app_assoc.
  destruct d as [u t v pr ud rf]. cbn [type] in Hd.
  destruct t; try discriminate; reflexivity.
Qed.

(** X18: opening an index in range succeeds.  The open answers 0; the
    resolved device now points at the joystick and has the interrupt read
    installed; the joystick gets a zeroed slot bound to that device, the
    player index equal to the device index, the GUID of the device and 6
    axes, 0 balls, 1 hat and 10 buttons; the slot was allocated once and
    never released; every other device and joystick stays. *)
Theorem open_in_range (ndebug : bool) (joystick : nat) (device_index : Z) (w : world)
    (j : SDL_Joystick) :
  0 <= device_index < SDL_XBOX_JoystickGetCount w ->
  joys w !! joystick = Some j ->
  exists p d g,
    hdev_from_device_index ndebug device_index w = Ret (Some p) /\
    devs w !! p = Some d /\
    SDL_XBOX_JoystickGetDeviceGUID ndebug device_index w = Ret g /\
    SDL_XBOX_JoystickOpen ndebug joystick device_index w
    = Ret (0, mkWorld
                (<[p := mkHID (uid d) (type d) (idVendor d) (idProduct d)
                              (Some joystick) true]> (devs w))
                (<[joystick := mkJoystick device_index g 6 0 1 10
                                 (axes j) (hats j) (buttons j)
                                 (Some (mkHwdata (Some p) (replicate 32 0) [0; 0] 0))]>
                   (joys w))
                (trace w ++ [malloc_hwdata joystick; hid_start_int_read p 0])).
Proof.
  intros H Hj.
  destruct (resolve_in_range ndebug device_index w H) as (p & d & Hr & Hp & Hd & _).
  eexists p, d, _. split; [exact Hr|]. split; [exact Hp|].
  split; [now apply (guid_of_device ndebug device_index w p d)|].
  apply open_resolved; auto.
  now apply (guid_of_device ndebug device_index w p d).
Qed.

Lemma open_in_range_witness :
  exists p d g,
    hdev_from_device_index false 1 world_three = Ret (Some p) /\
    devs world_three !! p = Some d /\
    SDL_XBOX_JoystickGetDeviceGUID false 1 world_three = Ret g /\
    SDL_XBOX_JoystickOpen false 0 1 world_three
    = Ret (0, mkWorld
                (<[p := mkHID (uid d) (type d) (idVendor d) (idProduct d)
                              (Some 0%nat) true]> (devs world_three))
                (<[0%nat := mkJoystick 1 g 6 0 1 10
                              (axes joy_closed) (hats joy_closed) (buttons joy_closed)
                              (Some (mkHwdata (Some p) (replicate 32 0) [0; 0] 0))]>
                   (joys world_three))
                (trace world_three ++ [malloc_hwdata 0; hid_start_int_read p 0])).
Proof.
  apply (open_in_range false 0 1 world_three joy_closed).
  - vm_compute. split; [discriminate | reflexivity].
  - reflexivity.
Defined.




(** ** Closing a device *)

Lemma close_spec (ok : nat -> list Z -> bool) (jp : nat) (w : world)
    (j : SDL_Joystick) (hw : joystick_hwdata) (dp : nat) (d : HID_DEV_T) :
  joys w !! jp = Some j -> hwdata j = Some hw -> hdev hw = Some dp ->
  devs w !! dp = Some d ->
  SDL_XBOX_JoystickClose ok jp w
  = mkWorld (<[dp := mkHID (uid d) (type d) (idVendor d) (idProduct d) None false]> (devs w))
            (joys w)
            (trace w ++ expiry_effects w dp ++ [free_hwdata jp]).
Proof.
  intros Hj Hhw Hdp Hd.
  assert (Hl : (dp < length (devs w))%nat) by now apply lookup_lt_Some with d.
  unfold SDL_XBOX_JoystickClose. rewrite Hj. cbn [mbind option_bind].
  rewrite Hhw, Hdp.
  pose proof (rumble_zero_trace ok dp w) as Ht.
  rewrite xboxjoy_rumble_spec in * by lia.
  destruct (rumble_result_frame ok dp 0 0 w) as (Hds & Hjs).
  set (w1 := (rumble_result ok dp 0 0 w).2) in *.
  unfold upd_dev, usbh_hid_stop_int_read, upd_dev, emit. cbn [devs joys trace].
  rewrite Hds, Hjs, Ht.
  rewrite (alter_as_insert _ (devs w) dp d Hd).
  rewrite list_lookup_insert_eq by assumption.
  cbn [fmap option_fmap option_map default read_func set_user_data].
  destruct d as [u t v pr ud rf]. cbn [read_func uid type idVendor idProduct].
  destruct rf.
  - unfold id. cbn [devs joys trace]. rewrite alter_after_insert by assumption.
    now rewrite <- app_assoc.
  - unfold id. cbn [devs joys trace]. now rewrite <- app_assoc.
Qed.

(** X20: closing an open joystick sends the zero-magnitude packet of the
    family whatever the transport answers, clears the device's pointer to
    the joystick and its interrupt read, releases the slot once and
    leaves every joystick and every other device as they were.  From
    then on a report that completes on the device is dropped: the read
    completion changes nothing, whatever bytes, length and status it
    gets. *)
Theorem close_detaches (ok : nat -> list Z -> bool) (jp : nat) (w : world)
    (j : SDL_Joystick) (hw : joystick_hwdata) (dp : nat) (d : HID_DEV_T)
    (ep status : Z) (rdata : list Z) (data_len : Z) :
  joys w !! jp = Some j -> hwdata j = Some hw -> hdev hw = Some dp ->
  devs w !! dp = Some d ->
  SDL_XBOX_JoystickClose ok jp w
    = mkWorld (<[dp := mkHID (uid d) (type d) (idVendor d) (idProduct d) None false]>
                 (devs w))
              (joys w)
              (trace w ++ expiry_effects w dp ++ [free_hwdata jp]) /\
  writes (expiry_effects w dp) = map (fun p => (dp, p)) (stop_packet (type d)) /\
  xboxjoy_int_read_callback (Some dp) ep status rdata data_len
      (SDL_XBOX_JoystickClose ok jp w)
    = SDL_XBOX_JoystickClose ok jp w.
Proof.
  intros Hj Hhw Hdp Hd.
  assert (Hl : (dp < length (devs w))%nat) by now apply lookup_lt_Some with d.
  rewrite (close_spec ok jp w j hw dp d) by assumption.
  split; [reflexivity|]. split.
  - rewrite writes_expiry. unfold dev_type. now rewrite Hd.
  - rewrite read_callback_spec. cbn [devs].
    now rewrite list_lookup_insert_eq by assumption.
Qed.

Lemma close_detaches_witness :
  SDL_XBOX_JoystickClose (fun _ _ => false) 0 world_held
    = mkWorld [mkHID 7 XBOX360_WIRED 0x045e 0x028e None false] (joys world_held)
              [hid_int_write 0 0 [0x00; 0x08; 0x00; 0x00; 0x00; 0x00; 0x00; 0x00];
               free_hwdata 0] /\
  xboxjoy_int_read_callback (Some 0%nat) 0x81 0 report_held 20
      (SDL_XBOX_JoystickClose (fun _ _ => false) 0 world_held)
    = SDL_XBOX_JoystickClose (fun _ _ => false) 0 world_held.
Proof.
  destruct (close_detaches (fun _ _ => false) 0 world_held
              (joy_opened (mkHwdata (Some 0%nat) report_held [0; 0] 0))
              (mkHwdata (Some 0%nat) report_held [0; 0] 0) 0 (pad XBOX360_WIRED)
              0x81 0 report_held 20)
    as (Hc & _ & Hr); [reflexivity | reflexivity | reflexivity | reflexivity |].
  split; [rewrite Hc; reflexivity | exact Hr].
Defined.

(** X21: a closed device can be opened again.  Closing leaves the
    devices' families untouched, so the count of gamepads and the device
    every index resolves to are as before, and an open of any index in
    range after the close succeeds and binds a zeroed slot. *)
Theorem reopen_after_close (ndebug : bool) (ok : nat -> list Z -> bool) (jp jp' : nat)
    (device_index : Z) (w : world) (j j' : SDL_Joystick) (hw : joystick_hwdata)
    (dp : nat) (d : HID_DEV_T) :
  joys w !! jp = Some j -> hwdata j = Some hw -> hdev hw = Some dp ->
  devs w !! dp = Some d ->
  joys w !! jp' = Some j' ->
  0 <= device_index < SDL_XBOX_JoystickGetCount w ->
  SDL_XBOX_JoystickGetCount (SDL_XBOX_JoystickClose ok jp w)
    = SDL_XBOX_JoystickGetCount w /\
  hdev_from_device_index ndebug device_index (SDL_XBOX_JoystickClose ok jp w)
    = hdev_from_device_index ndebug device_index w /\
  exists p w',
    hdev_from_device_index ndebug device_index w = Ret (Some p) /\
    SDL_XBOX_JoystickOpen ndebug jp' device_index (SDL_XBOX_JoystickClose ok jp w)
      = Ret (0, w') /\
    joys w' !! jp' ≫= hwdata = Some (mkHwdata (Some p) (replicate 32 0) [0; 0] 0) /\
    (user_data <$> devs w' !! p) = Some (Some jp').
Proof.
  intros Hj Hhw Hdp Hd Hj' Hidx.
  pose proof (close_spec ok jp w j hw dp d Hj Hhw Hdp Hd) as Hc.
  assert (Hty : type <$> devs (SDL_XBOX_JoystickClose ok jp w) = type <$> devs w).
  { rewrite Hc. cbn [devs]. now apply insert_same_type with d. }
  assert (Hcount : SDL_XBOX_JoystickGetCount (SDL_XBOX_JoystickClose ok jp w)
                   = SDL_XBOX_JoystickGetCount w).
  { unfold SDL_XBOX_JoystickGetCount.
    assert (Hpc : forall l l' i, type <$> l = type <$> l' -> pad_count l i = pad_count l' i).
    { induction l as [|a l IH]; intros [|a' l'] i E; try discriminate; [reflexivity|].
      rewrite !fmap_cons in E. injection E as Ea El. simpl. rewrite Ea. now apply IH. }
    now apply Hpc. }
  assert (Hres : hdev_from_device_index ndebug device_index (SDL_XBOX_JoystickClose ok jp w)
                 = hdev_from_device_index ndebug device_index w)
    by now apply resolve_same_types.
  split; [exact Hcount|]. split; [exact Hres|].
  assert (Hidx' : 0 <= device_index
                  < SDL_XBOX_JoystickGetCount (SDL_XBOX_JoystickClose ok jp w))
    by now rewrite Hcount.
  destruct (resolve_in_range ndebug device_index _ Hidx') as (p & d' & Hr & Hp & Hg & _).
  assert (Hjc : joys (SDL_XBOX_JoystickClose ok jp w) !! jp' = Some j')
    by now rewrite Hc.
  exists p. eexists. split; [now rewrite <- Hres|]. split.
  - apply (open_resolved ndebug jp' device_index _ j' p d'); auto.
    now apply (guid_of_device ndebug device_index _ p d').
  - cbn [devs joys]. split.
    + rewrite list_lookup_insert_eq by (now apply lookup_lt_Some with j'). reflexivity.
    + rewrite list_lookup_insert_eq by (now apply lookup_lt_Some with d'). reflexivity.
Qed.

Lemma reopen_after_close_witness :
  exists p w',
    hdev_from_device_index false 0 world_held = Ret (Some p) /\
    SDL_XBOX_JoystickOpen false 0 0 (SDL_XBOX_JoystickClose always_ok 0 world_held)
      = Ret (0, w') /\
    joys w' !! 0%nat ≫= hwdata = Some (mkHwdata (Some p) (replicate 32 0) [0; 0] 0) /\
    (user_data <$> devs w' !! p) = Some (Some 0%nat).
Proof.
  destruct (reopen_after_close false always_ok 0 0 0 world_held
              (joy_opened (mkHwdata (Some 0%nat) report_held [0; 0] 0))
              (joy_opened (mkHwdata (Some 0%nat) report_held [0; 0] 0))
              (mkHwdata (Some 0%nat) report_held [0; 0] 0) 0 (pad XBOX360_WIRED))
    as (_ & _ & H);
    [reflexivity | reflexivity | reflexivity | reflexivity | reflexivity
     | vm_compute; split; [discriminate | reflexivity] |].
  exact H.
Defined.

(** ** What a tick leaves alone *)

Lemma same_shape_refl (j : SDL_Joystick) : same_shape j j.
Proof. unfold same_shape. repeat split. Qed.

Lemma same_shape_trans (j1 j2 j3 : SDL_Joystick) :
  same_shape j1 j2 -> same_shape j2 j3 -> same_shape j1 j3.
Proof. unfold same_shape. intuition congruence. Qed.

Lemma same_shape_axis (jp k : nat) (raw value : Z) (s : jstate) :
  same_shape s.1 (update_axis jp k raw value s).1.
Proof.
  unfold update_axis. destruct (negb _); [|apply same_shape_refl].
  unfold same_shape. cbn. rewrite length_insert. repeat split.
Qed.

Lemma same_shape_button (jp : nat) (wB : Z) (l : list (nat * Z)) (s : jstate) :
  same_shape s.1 (fold_left (update_button jp wB) l s).1.
Proof.
  revert s. induction l as [|b l IH]; intros s; simpl; [apply same_shape_refl|].
  apply same_shape_trans with (update_button jp wB s b).1; [|apply IH].
  unfold update_button. destruct (negb _); [|apply same_shape_refl].
  unfold same_shape. cbn. rewrite length_insert. repeat split.
Qed.

Lemma same_shape_hat (jp : nat) (hat : Z) (s : jstate) :
  same_shape s.1 (update_hat jp hat s).1.
Proof.
  unfold update_hat. destruct (negb _); [|apply same_shape_refl].
  unfold same_shape. cbn. rewrite length_insert. repeat split.
Qed.

Lemma same_shape_inputs (jp : nat) (xpad : XINPUT_GAMEPAD) (s : jstate) :
  same_shape s.1 (update_inputs jp xpad s).1.
Proof.
  rewrite update_inputs_steps.
  repeat (eapply same_shape_trans; [|apply same_shape_axis]).
  eapply same_shape_trans; [|apply same_shape_button].
  apply same_shape_hat.
Qed.

Lemma update_joys (ok : nat -> list Z -> bool) (t : Z) (jp : nat) (w : world)
    (j : SDL_Joystick) (hw : joystick_hwdata) (dp : nat) :
  joys w !! jp = Some j -> hwdata j = Some hw -> hdev hw = Some dp ->
  exists j',
    joys (SDL_XBOX_JoystickUpdate ok t (Some jp) w) = <[jp := j']> (joys w) /\
    same_shape (set_hwdata (Some (if expired t hw then set_rumble_expiry 0 hw else hw)) j)
               j'.
Proof.
  intros Hj Hhw Hdp. unfold SDL_XBOX_JoystickUpdate. rewrite Hj, Hhw, Hdp.
  fold (expired t hw).
  destruct (expired t hw).
  - rewrite xboxjoy_rumble_spec by lia.
    destruct (rumble_result_frame ok dp 0 0 w) as (_ & Hjs).
    set (w' := (rumble_result ok dp 0 0 w).2) in *.
    destruct (xboxjoy_parse_input_data _ _ _) as [ret xpad].
    destruct (nonzero ret).
    + destruct (update_inputs jp xpad _) as [j' tr] eqn:E. cbn [joys].
      exists j'. rewrite Hjs. split; [reflexivity|].
      change j' with (j', tr).1. rewrite <- E. apply same_shape_inputs.
    + cbn [joys]. eexists. rewrite Hjs. split; [reflexivity|apply same_shape_refl].
  - destruct (xboxjoy_parse_input_data _ _ _) as [ret xpad].
    destruct (nonzero ret).
    + destruct (update_inputs jp xpad _) as [j' tr] eqn:E. cbn [joys].
      exists j'. split; [reflexivity|].
      change j' with (j', tr).1. rewrite <- E. apply same_shape_inputs.
    + cbn [joys]. eexists. split; [reflexivity|apply same_shape_refl].
Qed.

(** X22: what a tick leaves alone.  A tick on an open joystick changes no
    device and no other joystick.  In its own joystick it changes only
    values of axes, hat and buttons and, when the rumble timer ran out,
    the expiry: the report buffer, the stored magnitudes, the device
    pointer, the player index, the GUID, the counts and the sizes of the
    three arrays are as before. *)
Theorem tick_frame (ok : nat -> list Z -> bool) (t : Z) (jp : nat) (w : world)
    (j : SDL_Joystick) (hw : joystick_hwdata) (dp : nat) :
  joys w !! jp = Some j -> hwdata j = Some hw -> hdev hw = Some dp ->
  devs (SDL_XBOX_JoystickUpdate ok t (Some jp) w) = devs w /\
  length (joys (SDL_XBOX_JoystickUpdate ok t (Some jp) w)) = length (joys w) /\
  (forall k, k <> jp ->
     joys (SDL_XBOX_JoystickUpdate ok t (Some jp) w) !! k = joys w !! k) /\
  exists j',
    joys (SDL_XBOX_JoystickUpdate ok t (Some jp) w) !! jp = Some j' /\
    hwdata j'
      = Some (mkHwdata (hdev hw) (raw_data hw) (current_rumble hw)
                       (if expired t hw then 0 else rumble_expiry hw)) /\
    player_index j' = player_index j /\ guid j' = guid j /\
    naxes j' = naxes j /\ nballs j' = nballs j /\
    nhats j' = nhats j /\ nbuttons j' = nbuttons j /\
    length (axes j') = length (axes j) /\
    length (hats j') = length (hats j) /\
    length (buttons j') = length (buttons j).
Proof.
  intros Hj Hhw Hdp.
  destruct (update_joys ok t jp w j hw dp Hj Hhw Hdp) as (j' & Hjs & Hs).
  split; [apply update_devs|]. rewrite Hjs.
  split; [apply length_insert|].
  split; [intros k Hk; apply list_lookup_insert_ne; congruence|].
  exists j'. split; [apply list_lookup_insert_eq; now apply lookup_lt_Some with j|].
  unfold same_shape in Hs. cbn in Hs.
  destruct Hs as (? & ? & ? & ? & ? & ? & Hh & ? & ? & ?).
  repeat split; try assumption.
  rewrite Hh. destruct hw as [h r c e]. now destruct (expired t _).
Qed.

Lemma tick_frame_witness :
  devs (SDL_XBOX_JoystickUpdate always_ok 1001 (Some 0%nat) world_rumbling)
  = devs world_rumbling.
Proof.
  destruct (tick_frame always_ok 1001 0 world_rumbling
              (joy_opened (mkHwdata (Some 0%nat) (replicate 32 0) [0x4000; 0x8000] 1000))
              (mkHwdata (Some 0%nat) (replicate 32 0) [0x4000; 0x8000] 1000) 0)
    as (H & _); [reflexivity | reflexivity | reflexivity |].
  exact H.
Defined.

(** ** Start of the driver *)

Lemma count_calls_app (f : usb_call -> bool) (b : bool) (l l' : list usb_call) :
  count_calls f (mkUsb b (l ++ l')) = (count_calls f (mkUsb b l) + length (List.filter f l'))%nat.
Proof. unfold count_calls. cbn [calls]. now rewrite List.filter_app, length_app. Qed.

Lemma poll_loop (n : nat) (s : usb_state) :
  core_has_init
    (Nat.iter n (fun s => mkUsb (core_has_init s)
                            (calls s ++ [usbh_pooling_hubs; SDL_Delay 1])) s)
  = core_has_init s /\
  (forall f,
     count_calls f
       (Nat.iter n (fun s => mkUsb (core_has_init s)
                               (calls s ++ [usbh_pooling_hubs; SDL_Delay 1])) s)
     = (count_calls f s
        + n * length (List.filter f [usbh_pooling_hubs; SDL_Delay 1]))%nat).
Proof.
  set (g := fun s => mkUsb (core_has_init s) (calls s ++ [usbh_pooling_hubs; SDL_Delay 1])).
  induction n as [|n [IHc IHf]]; [split; [reflexivity|intros f; simpl; lia]|].
  rewrite Nat.iter_succ. split; [exact IHc|].
  intros f. unfold g at 1. unfold count_calls at 1. cbn [calls].
  rewrite List.filter_app, length_app.
  fold (count_calls f (Nat.iter n g s)). rewrite IHf. lia.
Qed.

Lemma init_step (delay_disabled : bool) (s : usb_state) :
  (SDL_XBOX_JoystickInit delay_disabled s).1 = 0 /\
  core_has_init (SDL_XBOX_JoystickInit delay_disabled s).2 = true /\
  count_calls is_core_init (SDL_XBOX_JoystickInit delay_disabled s).2
    = (count_calls is_core_init s + if core_has_init s then 0 else 1)%nat /\
  count_calls is_hid_init (SDL_XBOX_JoystickInit delay_disabled s).2
    = (count_calls is_hid_init s + if core_has_init s then 0 else 1)%nat /\
  count_calls is_poll (SDL_XBOX_JoystickInit delay_disabled s).2
    = (count_calls is_poll s + if delay_disabled then 0 else 500)%nat.
Proof.
  unfold SDL_XBOX_JoystickInit. cbn [fst snd].
  set (s1 := if negb (core_has_init s) then _ else s).
  assert (H1 : core_has_init s1 = true /\
               (count_calls is_core_init s1
                = count_calls is_core_init s + if core_has_init s then 0 else 1)%nat /\
               (count_calls is_hid_init s1
                = count_calls is_hid_init s + if core_has_init s then 0 else 1)%nat /\
               count_calls is_poll s1 = count_calls is_poll s).
  { subst s1. destruct s as [[|] l]; cbn [negb core_has_init calls].
    - repeat split; lia.
    - rewrite !count_calls_app. cbn. repeat split; lia. }
  destruct H1 as (Hc & H1 & H2 & H3).
  set (s2 := mkUsb (core_has_init s1) (calls s1 ++ [usbh_install_hid_conn_callback true])).
  assert (H2' : core_has_init s2 = true /\
                count_calls is_core_init s2 = count_calls is_core_init s1 /\
                count_calls is_hid_init s2 = count_calls is_hid_init s1 /\
                count_calls is_poll s2 = count_calls is_poll s1).
  { subst s2. rewrite !count_calls_app. cbn [core_has_init List.filter is_core_init
      is_hid_init is_poll length]. unfold count_calls. cbn [calls]. repeat split; auto; lia. }
  destruct H2' as (Hc2 & G1 & G2 & G3).
  destruct delay_disabled; cbn [fst snd].
  - split; [reflexivity|]. split; [exact Hc2|]. repeat split; lia.
  - destruct (poll_loop 500 s2) as (Pc & Pf).
    split; [reflexivity|]. split; [now rewrite Pc|].
    rewrite !Pf. cbn [List.filter is_core_init is_hid_init is_poll length].
    repeat split; lia.
Qed.

Lemma run_entry_step (delay_disabled : bool) (s : usb_state) (e : stack_entry) :
  core_has_init (run_entry delay_disabled s e) = core_has_init s || is_init e /\
  count_calls is_core_init (run_entry delay_disabled s e)
    = (count_calls is_core_init s
       + if is_init e && negb (core_has_init s) then 1 else 0)%nat /\
  count_calls is_hid_init (run_entry delay_disabled s e)
    = (count_calls is_hid_init s
       + if is_init e && negb (core_has_init s) then 1 else 0)%nat /\
  count_calls is_poll (run_entry delay_disabled s e)
    = (count_calls is_poll s
       + (if is_init e then (if delay_disabled then 0 else 500) else 0)
       + (if is_detect e then 1 else 0))%nat.
Proof.
  destruct e; cbn [run_entry is_init is_detect].
  - destruct (init_step delay_disabled s) as (_ & Hc & H1 & H2 & H3).
    rewrite Hc, H1, H2, H3, orb_true_r. cbn [andb].
    destruct (core_has_init s); cbn [negb]; repeat split; lia.
  - unfold SDL_XBOX_JoystickDetect. rewrite !count_calls_app, orb_false_r.
    cbn [core_has_init List.filter is_core_init is_hid_init is_poll length andb].
    unfold count_calls. cbn [calls]. repeat split; lia.
  - unfold SDL_XBOX_JoystickQuit. rewrite !count_calls_app, orb_false_r.
    cbn [core_has_init List.filter is_core_init is_hid_init is_poll length andb].
    unfold count_calls. cbn [calls]. repeat split; lia.
Qed.

Lemma run_entries_counts (delay_disabled : bool) (l : list stack_entry) (s : usb_state) :
  (count_calls is_core_init s = if core_has_init s then 1 else 0)%nat ->
  (count_calls is_hid_init s = if core_has_init s then 1 else 0)%nat ->
  core_has_init (run_entries delay_disabled l s) = core_has_init s || existsb is_init l /\
  (count_calls is_core_init (run_entries delay_disabled l s)
   = if core_has_init (run_entries delay_disabled l s) then 1 else 0)%nat /\
  (count_calls is_hid_init (run_entries delay_disabled l s)
   = if core_has_init (run_entries delay_disabled l s) then 1 else 0)%nat /\
  (count_calls is_poll (run_entries delay_disabled l s)
   = count_calls is_poll s
     + (if delay_disabled then 0 else 500) * length (List.filter is_init l)
     + length (List.filter is_detect l))%nat.
Proof.
  revert s. induction l as [|e l IH]; intros s I1 I2.
  - cbn. rewrite orb_false_r. repeat split; auto; lia.
  - unfold run_entries in *. cbn [fold_left existsb List.filter].
    destruct (run_entry_step delay_disabled s e) as (Hc & H1 & H2 & H3).
    destruct (IH (run_entry delay_disabled s e)) as (Jc & J1 & J2 & J3).
    + rewrite H1, Hc, I1. destruct (core_has_init s), (is_init e); reflexivity.
    + rewrite H2, Hc, I2. destruct (core_has_init s), (is_init e); reflexivity.
    + split; [now rewrite Jc, Hc, orb_assoc|].
      split; [exact J1|]. split; [exact J2|].
      rewrite J3, H3.
      destruct e; cbn [is_init is_detect length]; destruct delay_disabled; lia.
Qed.

(** X23: over any run of driver starts, detections and quits from boot,
    the USB core and the HID class are initialised exactly once if the
    driver was ever started and never otherwise, also when it is started
    again after a quit; every start answers 0; and the hubs are polled
    500 times per start (not at all when the start delay is disabled)
    plus once per detection. *)
Theorem core_initialised_once (delay_disabled : bool) (l : list stack_entry)
    (s : usb_state) :
  (SDL_XBOX_JoystickInit delay_disabled s).1 = 0 /\
  (count_calls is_core_init (run_entries delay_disabled l usb_boot)
   = if existsb is_init l then 1 else 0)%nat /\
  (count_calls is_hid_init (run_entries delay_disabled l usb_boot)
   = if existsb is_init l then 1 else 0)%nat /\
  (count_calls is_poll (run_entries delay_disabled l usb_boot)
   = (if delay_disabled then 0 else 500) * length (List.filter is_init l)
     + length (List.filter is_detect l))%nat.
Proof.
  split; [apply init_step|].
  destruct (run_entries_counts delay_disabled l usb_boot) as (Hc & H1 & H2 & H3);
    [reflexivity | reflexivity |].
  cbn [usb_boot core_has_init orb] in Hc. rewrite Hc in H1, H2.
  split; [exact H1|]. split; [exact H2|].
  rewrite H3. reflexivity.
Qed.

(** ** Rumble packets on the wire *)

Lemma div_byte (z k : Z) : 0 <= z < 65536 -> 256 <= k -> 0 <= z / k <= 255.
Proof.
  intros Hz Hk. split; [apply Z.div_pos; lia|].
  assert (z / k < 256); [|lia].
  apply Z.div_lt_upper_bound; nia.
Qed.

(** X24: the packets of the encoder are well formed.  For 16-bit
    magnitudes and every gamepad family the packet written has the length
    of the family (8, 8, 6 or 13 bytes, within the 32 of the write
    buffer) and consists of bytes.  The Original Xbox packet carries
    both magnitudes without loss, low byte first: they can be read back
    from bytes 2, 3 and 4, 5. *)
Theorem rumble_packet_on_wire (ok : nat -> list Z -> bool) (dp : nat) (low high : Z)
    (w : world) :
  0 <= low < 65536 -> 0 <= high < 65536 ->
  is_gamepad (dev_type w dp) = true ->
  exists p,
    xboxjoy_rumble ok dp low high w
      = (if ok dp p then 0 else -1, emit (hid_int_write dp 0 p) w) /\
    Forall (fun b => 0 <= b <= 255) p /\
    length p = match dev_type w dp with
               | XBOXOG_CONTROLLER => 6%nat
               | XBOXONE => 13%nat
               | _ => 8%nat
               end /\
    (dev_type w dp = XBOXOG_CONTROLLER ->
       rd p 2 + 256 * rd p 3 = low /\ rd p 4 + 256 * rd p 5 = high).
Proof.
  intros Hl Hh Hg. rewrite xboxjoy_rumble_spec by assumption. unfold rumble_result.
  pose proof (div_byte low 256 Hl ltac:(lia)). pose proof (div_byte high 256 Hh ltac:(lia)).
  pose proof (div_byte low 655 Hl ltac:(lia)). pose proof (div_byte high 655 Hh ltac:(lia)).
  pose proof (Z.mod_pos_bound low 256 ltac:(lia)).
  pose proof (Z.mod_pos_bound high 256 ltac:(lia)).
  pose proof (Z.div_mod low 256 ltac:(lia)). pose proof (Z.div_mod high 256 ltac:(lia)).
  destruct (dev_type w dp); try discriminate; cbn [rumble_packet];
    eexists; (split; [reflexivity|]);
    (split; [repeat (constructor; [lia|]); constructor|]);
    (split; [reflexivity|]); intros E; try discriminate E.
  cbn. lia.
Qed.

Lemma rumble_packet_on_wire_witness :
  exists p,
    xboxjoy_rumble always_ok 0 0xFFFF 0x8000 (mkWorld [pad XBOXONE] [] [])
      = (if always_ok 0%nat p then 0 else -1,
         emit (hid_int_write 0 0 p) (mkWorld [pad XBOXONE] [] [])) /\
    Forall (fun b => 0 <= b <= 255) p /\ length p = 13%nat.
Proof.
  destruct (rumble_packet_on_wire always_ok 0 0xFFFF 0x8000 (mkWorld [pad XBOXONE] [] []))
    as (p & H1 & H2 & H3 & _); [lia | lia | reflexivity |].
  exists p. auto.
Defined.

(** ** Inputs that are reported on change only *)

Lemma update_axis_keeps (jp k : nat) (raw value : Z) (s : jstate) :
  hats (update_axis jp k raw value s).1 = hats s.1 /\
  buttons (update_axis jp k raw value s).1 = buttons s.1.
Proof. unfold update_axis. now destruct (negb _). Qed.

Lemma update_axis_at (jp k : nat) (v : Z) (s : jstate) :
  (k < length (axes s.1))%nat -> -32768 <= v <= 32767 ->
  rd (axes (update_axis jp k v v s).1) k = v.
Proof.
  intros Hk Hv. unfold update_axis.
  destruct (Z.eqb_spec v (rd (axes s.1) k)) as [E|E]; cbn [negb]; [now symmetry|].
  cbn. rewrite rd_insert_eq by assumption. now apply Sint16_id.
Qed.

Lemma update_axis_length (jp k : nat) (raw value : Z) (s : jstate) :
  length (axes (update_axis jp k raw value s).1) = length (axes s.1).
Proof. unfold update_axis. destruct (negb _); [|reflexivity]. cbn. apply length_insert. Qed.

Lemma update_hat_at (jp : nat) (hat : Z) (s : jstate) :
  (0 < length (hats s.1))%nat -> 0 <= hat <= 255 ->
  rd (hats (update_hat jp hat s).1) 0 = hat.
Proof.
  intros Hl Hh. unfold update_hat.
  destruct (Z.eqb_spec hat (rd (hats s.1) 0)) as [E|E]; cbn [negb]; [now symmetry|].
  cbn [SDL_PrivateJoystickHat fst hats set_hats].
  rewrite rd_insert_eq by assumption. apply Uint8_id. lia.
Qed.

Lemma update_button_other (jp : nat) (wB : Z) (l : list (nat * Z)) (s : jstate) (k : nat) :
  k ∉ l.*1 ->
  rd (buttons (fold_left (update_button jp wB) l s).1) k = rd (buttons s.1) k.
Proof.
  revert s. induction l as [|b l IH]; intros s Hk; simpl; [reflexivity|].
  rewrite fmap_cons in Hk. apply not_elem_of_cons in Hk as [Hne Hk].
  rewrite IH by assumption.
  destruct (update_button_spec jp wB s b) as (_ & _ & _ & Ho). now apply Ho.
Qed.

Lemma update_button_length (jp : nat) (wB : Z) (l : list (nat * Z)) (s : jstate) :
  length (buttons (fold_left (update_button jp wB) l s).1) = length (buttons s.1).
Proof.
  revert s. induction l as [|b l IH]; intros s; simpl; [reflexivity|].
  rewrite IH. unfold update_button. destruct (negb _); [|reflexivity].
  cbn. apply length_insert.
Qed.

Lemma update_button_at (jp : nat) (wB : Z) (l : list (nat * Z)) (s : jstate) :
  NoDup l.*1 ->
  (forall b, b ∈ l -> (b.1 < length (buttons s.1))%nat /\
                      (0 <? Z.land wB b.2) = nonzero (Z.land wB b.2)) ->
  forall b, b ∈ l ->
    rd (buttons (fold_left (update_button jp wB) l s).1) b.1
    = if 0 <? Z.land wB b.2 then 1 else 0.
Proof.
  revert s. induction l as [|a l IH]; intros s Hnd Hl b Hb; [now apply elem_of_nil in Hb|].
  rewrite fmap_cons in Hnd. apply NoDup_cons in Hnd as [Ha Hnd].
  cbn [fold_left].
  apply elem_of_cons in Hb as [->|Hb].
  - rewrite update_button_other by assumption.
    destruct (Hl a) as (Hlen & Hc); [apply list_elem_of_here|].
    unfold update_button.
    destruct (Z.eqb_spec (rd (buttons s.1) a.1) (if 0 <? Z.land wB a.2 then 1 else 0))
      as [E|E]; cbn [negb]; [exact E|].
    cbn [SDL_PrivateJoystickButton fst buttons set_buttons].
    rewrite rd_insert_eq by assumption. rewrite <- Hc.
    unfold SDL_PRESSED, SDL_RELEASED. now destruct (0 <? Z.land wB a.2).
  - apply IH; auto. intros b' Hb'.
    destruct (Hl b') as (Hlen & Hc); [now apply list_elem_of_further|].
    split; [|exact Hc].
    change (update_button jp wB s a) with (fold_left (update_button jp wB) [a] s).
    now rewrite update_button_length.
Qed.

Lemma btn_map_masks (w : Z) (b : nat * Z) :
  b ∈ btn_map ->
  (b.1 < 10)%nat /\
  (0 <? Z.land (Sint16 w) b.2) = nonzero (Z.land (Sint16 w) b.2).
Proof.
  intros Hb. unfold btn_map in Hb.
  change XINPUT_GAMEPAD_A with (2 ^ 12) in Hb. change XINPUT_GAMEPAD_B with (2 ^ 13) in Hb.
  change XINPUT_GAMEPAD_X with (2 ^ 14) in Hb. change XINPUT_GAMEPAD_Y with (2 ^ 15) in Hb.
  change XINPUT_GAMEPAD_LEFT_SHOULDER with (2 ^ 8) in Hb.
  change XINPUT_GAMEPAD_RIGHT_SHOULDER with (2 ^ 9) in Hb.
  change XINPUT_GAMEPAD_BACK with (2 ^ 5) in Hb.
  change XINPUT_GAMEPAD_START with (2 ^ 4) in Hb.
  change XINPUT_GAMEPAD_LEFT_THUMB with (2 ^ 6) in Hb.
  change XINPUT_GAMEPAD_RIGHT_THUMB with (2 ^ 7) in Hb.
  repeat (apply elem_of_cons in Hb as [->|Hb];
          [cbn [fst snd]; split; [lia|];
           match goal with
           | |- context [2 ^ ?k] => destruct (signed_word_bit w k) as (-> & ->); [lia|]
           end; reflexivity|]).
  now apply elem_of_nil in Hb.
Qed.

Lemma update_inputs_stored (jp : nat) (xpad : XINPUT_GAMEPAD) (s : jstate) :
  (1 <= length (hats s.1))%nat -> (10 <= length (buttons s.1))%nat ->
  (6 <= length (axes s.1))%nat ->
  -32768 <= sThumbLX xpad <= 32767 -> -32768 <= sThumbRX xpad <= 32767 ->
  rd (hats (update_inputs jp xpad s).1) 0 = dpad_hat (Sint16 (wButtons xpad)) /\
  (forall b, b ∈ btn_map ->
     rd (buttons (update_inputs jp xpad s).1) b.1
     = if 0 <? Z.land (Sint16 (wButtons xpad)) b.2 then 1 else 0) /\
  rd (axes (update_inputs jp xpad s).1) 0 = sThumbLX xpad /\
  rd (axes (update_inputs jp xpad s).1) 3 = sThumbRX xpad.
Proof.
  intros Hh Hb Ha Hlx Hrx. rewrite update_inputs_steps.
  set (wB := Sint16 (wButtons xpad)).
  assert (Hhat : 0 <= dpad_hat wB <= 255).
  { subst wB. rewrite dpad_hat_bits.
    destruct (Z.testbit (wButtons xpad) 0), (Z.testbit (wButtons xpad) 1),
      (Z.testbit (wButtons xpad) 2), (Z.testbit (wButtons xpad) 3); simpl; lia. }
  destruct (update_hat_spec jp (dpad_hat wB) s) as (_ & B1 & A1).
  pose proof (update_hat_at jp (dpad_hat wB) s ltac:(lia) Hhat) as H1.
  set (s1 := update_hat jp (dpad_hat wB) s) in *.
  destruct (fold_update_button jp wB btn_map btn_map_NoDup s1) as (_ & H2 & A2).
  assert (Hbtn : forall b, b ∈ btn_map ->
             rd (buttons (fold_left (update_button jp wB) btn_map s1).1) b.1
             = if 0 <? Z.land wB b.2 then 1 else 0).
  { apply update_button_at; [apply btn_map_NoDup|].
    intros b Hin. destruct (btn_map_masks (wButtons xpad) b Hin) as (Hi & Hc).
    split; [rewrite B1; lia | exact Hc]. }
  set (s2 := fold_left (update_button jp wB) btn_map s1) in *.
  set (s3 := update_axis jp 2 _ _ s2).
  set (s4 := update_axis jp 5 _ _ s3).
  set (s5 := update_axis jp 0 _ _ s4).
  set (s6 := update_axis jp 1 _ _ s5).
  set (s7 := update_axis jp 3 _ _ s6).
  set (s8 := update_axis jp 4 _ _ s7).
  assert (L3 : length (axes s3.1) = length (axes s.1))
    by (subst s3; now rewrite update_axis_length, A2, A1).
  assert (L4 : length (axes s4.1) = length (axes s.1))
    by (subst s4; now rewrite update_axis_length).
  assert (L5 : length (axes s5.1) = length (axes s.1))
    by (subst s5; now rewrite update_axis_length).
  assert (L6 : length (axes s6.1) = length (axes s.1))
    by (subst s6; now rewrite update_axis_length).
  assert (K5 : rd (axes s5.1) 0 = sThumbLX xpad)
    by (subst s5; apply update_axis_at; [lia|assumption]).
  assert (K7 : rd (axes s7.1) 3 = sThumbRX xpad)
    by (subst s7; apply update_axis_at; [lia|assumption]).
  repeat split.
  - subst s8 s7 s6 s5 s4 s3.
    repeat (rewrite (proj1 (update_axis_keeps _ _ _ _ _))).
    now rewrite H2.
  - intros b Hin. subst s8 s7 s6 s5 s4 s3.
    repeat (rewrite (proj2 (update_axis_keeps _ _ _ _ _))).
    now apply Hbtn.
  - subst s8. rewrite (proj2 (update_axis_spec jp 4 _ _ s7)) by lia.
    subst s7. rewrite (proj2 (update_axis_spec jp 3 _ _ s6)) by lia.
    subst s6. rewrite (proj2 (update_axis_spec jp 1 _ _ s5)) by lia.
    exact K5.
  - subst s8. rewrite (proj2 (update_axis_spec jp 4 _ _ s7)) by lia.
    exact K7.
Qed.

Lemma update_joys_decoded (ok : nat -> list Z -> bool) (t : Z) (jp : nat) (w : world)
    (j : SDL_Joystick) (hw : joystick_hwdata) (dp : nat) (xpad : XINPUT_GAMEPAD) :
  joys w !! jp = Some j -> hwdata j = Some hw -> hdev hw = Some dp ->
  decoded w dp hw = (1, xpad) ->
  exists hw' tr,
    joys (SDL_XBOX_JoystickUpdate ok t (Some jp) w)
    = <[jp := (update_inputs jp xpad (set_hwdata (Some hw') j, tr)).1]> (joys w) /\
    hdev hw' = hdev hw /\ raw_data hw' = raw_data hw.
Proof.
  intros Hj Hhw Hdp Hdec. unfold decoded in Hdec.
  unfold SDL_XBOX_JoystickUpdate. rewrite Hj, Hhw, Hdp.
  fold (expired t hw).
  destruct (expired t hw).
  - rewrite xboxjoy_rumble_spec by lia.
    destruct (rumble_result_frame ok dp 0 0 w) as (Hd & Hjs).
    set (w' := (rumble_result ok dp 0 0 w).2) in *.
    rewrite Hd. cbn [raw_data set_rumble_expiry]. rewrite Hdec.
    change (nonzero 1) with true. cbv iota.
    destruct (update_inputs jp xpad _) as [j' tr] eqn:E. cbn [joys].
    exists (set_rumble_expiry 0 hw), (trace w'). rewrite E, Hjs.
    repeat split. exact Hdp.
  - rewrite Hdec. change (nonzero 1) with true. cbv iota.
    destruct (update_inputs jp xpad _) as [j' tr] eqn:E. cbn [joys].
    exists hw, (trace w). rewrite E. repeat split. exact Hdp.
Qed.

Lemma button_events_settled (jp : nat) (wB : Z) (st : list Z) (l : list (nat * Z)) :
  (forall b, b ∈ l -> rd st b.1 = if 0 <? Z.land wB b.2 then 1 else 0) ->
  flat_map (button_event jp wB st) l = [].
Proof.
  induction l as [|a l IH]; intros H; [reflexivity|].
  cbn [flat_map]. rewrite IH by (intros b Hb; apply H; now apply list_elem_of_further).
  unfold button_event. rewrite (H a) by apply list_elem_of_here.
  now rewrite Z.eqb_refl.
Qed.

(** X25: hat, buttons and X axes are reported on change only.  After one
    tick on a joystick with its hat, ten buttons and six axes in place and
    a report that decodes, a further tick on the same report reports
    nothing for the hat, for any button and for the X axes 0 and 3,
    whatever the joystick stored before the first tick and whenever the
    two ticks happen. *)
Theorem settled_inputs_silent (ok : nat -> list Z -> bool) (t t' : Z) (jp : nat)
    (w : world) (j : SDL_Joystick) (hw : joystick_hwdata) (dp : nat)
    (xpad : XINPUT_GAMEPAD) :
  joys w !! jp = Some j -> hwdata j = Some hw -> hdev hw = Some dp ->
  decoded w dp hw = (1, xpad) ->
  (1 <= length (hats j))%nat -> (10 <= length (buttons j))%nat ->
  (6 <= length (axes j))%nat ->
  hat_values 0 (tick_effects ok t' jp (SDL_XBOX_JoystickUpdate ok t (Some jp) w)) = [] /\
  (forall k,
     button_values k (tick_effects ok t' jp (SDL_XBOX_JoystickUpdate ok t (Some jp) w))
     = []) /\
  axis_values 0 (tick_effects ok t' jp (SDL_XBOX_JoystickUpdate ok t (Some jp) w)) = [] /\
  axis_values 3 (tick_effects ok t' jp (SDL_XBOX_JoystickUpdate ok t (Some jp) w)) = [].
Proof.
  intros Hj Hhw Hdp Hdec Lh Lb La.
  destruct (decoded_in_range w dp hw xpad Hdec) as (_ & Hlx & _ & Hrx & _).
  destruct (update_joys_decoded ok t jp w j hw dp xpad Hj Hhw Hdp Hdec)
    as (hw' & tr & Hjs & Hd' & Hr').
  destruct (update_inputs_stored jp xpad (set_hwdata (Some hw') j, tr) Lh Lb La Hlx Hrx)
    as (S1 & S2 & S3 & S4).
  pose proof (update_inputs_hwdata jp xpad (set_hwdata (Some hw') j, tr)) as Hh1.
  set (j1 := (update_inputs jp xpad (set_hwdata (Some hw') j, tr)).1) in *.
  set (w1 := SDL_XBOX_JoystickUpdate ok t (Some jp) w) in *.
  assert (Hj1 : joys w1 !! jp = Some j1)
    by (rewrite Hjs; apply list_lookup_insert_eq; now apply lookup_lt_Some with j).
  cbn in Hh1.
  assert (Hdp1 : hdev hw' = Some dp) by congruence.
  assert (Hdec1 : decoded w1 dp hw' = (1, xpad)).
  { unfold decoded. subst w1. rewrite update_devs, Hr'. exact Hdec. }
  split; [|split].
  - rewrite (tick_decoded ok t' jp w1 j1 hw' dp xpad) by assumption.
    unfold diff_events.
    rewrite !hat_values_app, !hat_values_axis, hat_values_buttons, !app_nil_r.
    unfold hat_event. rewrite S1, Z.eqb_refl.
    destruct (expired t' hw'); [now rewrite hat_values_expiry|reflexivity].
  - intros k.
    rewrite (button_values_tick ok t' jp w1 j1 hw' dp xpad) by assumption.
    now rewrite button_events_settled.
  - rewrite !(stick_values ok t' jp w1 j1 hw' dp xpad) by assumption.
    rewrite !axis_values_app, !axis_values_axis. cbn [Nat.eqb app].
    now rewrite S3, S4, !Z.eqb_refl.
Qed.

Lemma settled_inputs_silent_witness :
  hat_values 0 (tick_effects always_ok 20 0
                  (SDL_XBOX_JoystickUpdate always_ok 10 (Some 0%nat) world_held)) = [] /\
  button_values 0 (tick_effects always_ok 20 0
                     (SDL_XBOX_JoystickUpdate always_ok 10 (Some 0%nat) world_held)) = [].
Proof.
  destruct (settled_inputs_silent always_ok 10 20 0 world_held
              (joy_opened (mkHwdata (Some 0%nat) report_held [0; 0] 0))
              (mkHwdata (Some 0%nat) report_held [0; 0] 0) 0
              (decoded world_held 0 (mkHwdata (Some 0%nat) report_held [0; 0] 0)).2)
    as (H0 & H1 & _);
    [reflexivity | reflexivity | reflexivity | reflexivity
    | vm_compute; lia | vm_compute; lia | vm_compute; lia |].
  split; [exact H0 | exact (H1 0%nat)].
Defined.
